(** * Shiftroster: the roster scheduling and approval engine

    A shallow embedding of [src/models/models.py], [src/utils/decorators.py],
    [src/routes/roster.py], the queries of [src/routes/analytics.py] and
    [delete_shift] of [src/routes/admin.py], followed by the properties of
    the engine.

    Conventions of the embedding.
    - A table is the list of its rows, in storage order; [Model.query.get]
      is the first row with the given primary key.
    - A request handler is a function from the committed database to a
      response and the database that is committed when the request ends.
      The SQLAlchemy session of a request is the working copy threaded
      through the handler: it is written back by [db.session.commit()] and
      discarded when the handler returns without committing.
    - JSON payloads are records of optional fields (a key is present or
      not), each value at the type the handler expects.
    - A value of a [Float] column ([hours]) is the rational number that
      the double denotes. The aggregate [func.sum] over such a column is
      computed by the store, in double precision: its result is a
      parameter of the queries, [float_sum], and never the exact sum.
    - The clock ([datetime.utcnow()], [date.today()]) is an argument. *)

From Stdlib Require Import List String Ascii ZArith QArith Bool Lia Permutation.
From Stdlib Require Import DecimalString Sorted.
Import ListNotations.
Open Scope string_scope.
Open Scope Z_scope.

(** ** Control flow of a handler: go on, or leave early with a result *)

Inductive flow (E A : Type) : Type :=
| Next (a : A)
| Stop (e : E).
Arguments Next {E A} a.
Arguments Stop {E A} e.

Notation "x <- m ;; k" :=
  (match m with Next x => k | Stop e => Stop e end)
  (at level 61, m at next level, right associativity).
Notation "'ensure' c 'otherwise' e ;; k" :=
  (if c then k else Stop e)
  (at level 61, c at next level, e at next level, right associativity).

(** [str(n)] for a natural number. *)
Definition str (n : nat) : string := NilEmpty.string_of_uint (Nat.to_uint n).

(** The double quote character, for messages that quote a word. *)
Definition dq : string := String (ascii_of_nat 34) EmptyString.

(** [x in l] for a list of strings. *)
Definition contains_str (l : list string) (x : string) : bool :=
  existsb (String.eqb x) l.

(** [s.isascii()]: every character of the string is below U+0080. A
    string is the sequence of the bytes of its UTF-8 form, so a character
    outside ASCII shows as bytes from 128 on. *)
Definition isascii (s : string) : bool :=
  forallb (fun c => (nat_of_ascii c <? 128)%nat) (list_ascii_of_string s).

(** ** [datetime.date] *)

Module Date.

Record t : Type := mk { year : Z; month : Z; day : Z }.

Definition eqb (a b : t) : bool :=
  (year a =? year b) && (month a =? month b) && (day a =? day b).

(** Dates compare as the triples (year, month, day). *)
Definition ltb (a b : t) : bool :=
  (year a <? year b)
  || ((year a =? year b)
      && ((month a <? month b)
          || ((month a =? month b) && (day a <? day b)))).

Definition leb (a b : t) : bool := ltb a b || eqb a b.

Definition is_leap (y : Z) : bool :=
  (y mod 4 =? 0) && (negb (y mod 100 =? 0) || (y mod 400 =? 0)).

Definition days_in_month (y m : Z) : Z :=
  if m =? 2 then (if is_leap y then 29 else 28)
  else if (m =? 4) || (m =? 6) || (m =? 9) || (m =? 11) then 30
  else 31.

(** [date(y, m, d)]: [None] stands for the [ValueError] of a date that
    does not exist. *)
Definition make (y m d : Z) : option t :=
  if (1 <=? y) && (y <=? 9999) && (1 <=? m) && (m <=? 12)
     && (1 <=? d) && (d <=? days_in_month y m)
  then Some (mk y m d) else None.

Definition digit (c : ascii) : option Z :=
  let n := Z.of_nat (nat_of_ascii c) in
  if (48 <=? n) && (n <=? 57) then Some (n - 48) else None.

(** The directive [%Y]: four digits. *)
Definition parse_Y (s : string) : option (Z * string) :=
  match s with
  | String a (String b (String c (String d rest))) =>
      match digit a, digit b, digit c, digit d with
      | Some a, Some b, Some c, Some d =>
          Some (1000 * a + 100 * b + 10 * c + d, rest)
      | _, _, _, _ => None
      end
  | _ => None
  end.

(** The directive [%m]: [1[0-2]|0[1-9]|[1-9]]. *)
Definition parse_m (s : string) : option (Z * string) :=
  match s with
  | String a rest =>
      match digit a with
      | Some x =>
          let one := if 1 <=? x then Some (x, rest) else None in
          match rest with
          | String b rest' =>
              match digit b with
              | Some y =>
                  if ((x =? 1) && (y <=? 2)) || ((x =? 0) && (1 <=? y))
                  then Some (10 * x + y, rest') else one
              | None => one
              end
          | EmptyString => one
          end
      | None => None
      end
  | EmptyString => None
  end.

(** The directive [%d]: [3[01]|[12]\d|0[1-9]|[1-9]| [1-9]]. *)
Definition parse_d (s : string) : option (Z * string) :=
  match s with
  | String a rest =>
      match digit a with
      | Some x =>
          let one := if 1 <=? x then Some (x, rest) else None in
          match rest with
          | String b rest' =>
              match digit b with
              | Some y =>
                  if ((x =? 3) && (y <=? 1)) || (x =? 1) || (x =? 2)
                     || ((x =? 0) && (1 <=? y))
                  then Some (10 * x + y, rest') else one
              | None => one
              end
          | EmptyString => one
          end
      | None =>
          if Ascii.eqb a " "%char then
            match rest with
            | String b rest' =>
                match digit b with
                | Some y => if 1 <=? y then Some (y, rest') else None
                | None => None
                end
            | EmptyString => None
            end
          else None
      end
  | EmptyString => None
  end.

Definition dash (s : string) : option string :=
  match s with
  | String c rest => if Ascii.eqb c "-"%char then Some rest else None
  | EmptyString => None
  end.

(** [datetime.strptime(s, '%Y-%m-%d').date()] on the strings [s] with
    [isascii s = true]; [None] stands for its [ValueError] (no match,
    unconverted data, or a day that the month does not have). The
    directives of Python match any Unicode decimal digit, which [digit]
    does not: outside ASCII the function says nothing about the code, and
    the properties that rest on a refusal of the parser are stated for
    ASCII strings. *)
Definition strptime (s : string) : option t :=
  match parse_Y s with
  | Some (y, s1) =>
      match dash s1 with
      | Some s2 =>
          match parse_m s2 with
          | Some (m, s3) =>
              match dash s3 with
              | Some s4 =>
                  match parse_d s4 with
                  | Some (d, EmptyString) => make y m d
                  | _ => None
                  end
              | None => None
              end
          | None => None
          end
      | None => None
      end
  | None => None
  end.

Definition pad (width : nat) (n : Z) : string :=
  let s := str (Z.to_nat n) in
  String.concat "" (repeat "0" (width - String.length s)) ++ s.

(** [d.isoformat()] *)
Definition isoformat (d : t) : string :=
  pad 4 (year d) ++ "-" ++ pad 2 (month d) ++ "-" ++ pad 2 (day d).

Definition days_before_year (y : Z) : Z :=
  let p := y - 1 in p * 365 + p / 4 - p / 100 + p / 400.

Definition days_before_month (y m : Z) : Z :=
  fold_right Z.add 0
    (map (fun k => days_in_month y (Z.of_nat k)) (seq 1 (Z.to_nat (m - 1)))).

Definition toordinal (d : t) : Z :=
  days_before_year (year d) + days_before_month (year d) (month d) + day d.

(** Monday is 0. *)
Definition weekday (d : t) : Z := (toordinal d + 6) mod 7.

Definition tomorrow (d : t) : t :=
  if day d <? days_in_month (year d) (month d)
  then mk (year d) (month d) (day d + 1)
  else if month d <? 12 then mk (year d) (month d + 1) 1
  else mk (year d + 1) 1 1.

Definition yesterday (d : t) : t :=
  if 1 <? day d then mk (year d) (month d) (day d - 1)
  else if 1 <? month d
       then mk (year d) (month d - 1) (days_in_month (year d) (month d - 1))
       else mk (year d - 1) 12 31.

(** [d + timedelta(days=n)], away from the ends of the calendar. *)
Definition add_days (d : t) (n : Z) : t :=
  if 0 <=? n then Nat.iter (Z.to_nat n) tomorrow d
  else Nat.iter (Z.to_nat (- n)) yesterday d.

End Date.

(** ** [src/models/models.py]

    Each model keeps the columns that the roster engine and the dashboard
    read or write; the descriptive columns (names, e-mail addresses,
    colours, free text of the reference tables) play no part in them. *)

Module Role.
Record t : Type := mk { id : Z; name : string }.
End Role.

Module User.
Record t : Type := mk { id : Z; role_id : Z }.
End User.

Module Shift.
Record t : Type := mk
  { id : Z;
    name : string;
    start_time : Z;  (* seconds since midnight *)
    hours : Q }.
End Shift.

Module ShiftRoster.
Record t : Type := mk
  { id : Z;
    employee_id : Z;
    shift_id : Z;
    date : Date.t;
    hours : Q;
    status : string;             (* pending, approved, rejected *)
    approved_by : option Z;
    approved_at : option Z;
    notes : string;
    created_at : Z }.

Definition set_employee_id (r : t) (v : Z) : t :=
  mk (id r) v (shift_id r) (date r) (hours r) (status r) (approved_by r)
     (approved_at r) (notes r) (created_at r).
Definition set_shift_id (r : t) (v : Z) : t :=
  mk (id r) (employee_id r) v (date r) (hours r) (status r) (approved_by r)
     (approved_at r) (notes r) (created_at r).
Definition set_date (r : t) (v : Date.t) : t :=
  mk (id r) (employee_id r) (shift_id r) v (hours r) (status r)
     (approved_by r) (approved_at r) (notes r) (created_at r).
Definition set_hours (r : t) (v : Q) : t :=
  mk (id r) (employee_id r) (shift_id r) (date r) v (status r)
     (approved_by r) (approved_at r) (notes r) (created_at r).
Definition set_notes (r : t) (v : string) : t :=
  mk (id r) (employee_id r) (shift_id r) (date r) (hours r) (status r)
     (approved_by r) (approved_at r) v (created_at r).
Definition set_status (r : t) (v : string) : t :=
  mk (id r) (employee_id r) (shift_id r) (date r) (hours r) v
     (approved_by r) (approved_at r) (notes r) (created_at r).
Definition set_approved_by (r : t) (v : option Z) : t :=
  mk (id r) (employee_id r) (shift_id r) (date r) (hours r) (status r) v
     (approved_at r) (notes r) (created_at r).
Definition set_approved_at (r : t) (v : option Z) : t :=
  mk (id r) (employee_id r) (shift_id r) (date r) (hours r) (status r)
     (approved_by r) v (notes r) (created_at r).
End ShiftRoster.

Module Timesheet.
Record t : Type := mk { id : Z; employee_id : Z; roster_id : Z }.
End Timesheet.

Module LeaveRequest.
Record t : Type := mk
  { id : Z;
    employee_id : Z;
    leave_type : string;         (* paid, unpaid, sick *)
    start_date : Date.t;
    end_date : Date.t;
    status : string }.
End LeaveRequest.

(** The database: one list of rows per table. *)
Record database : Type := mk_database
  { roles : list Role.t;
    users : list User.t;
    shifts : list Shift.t;
    shift_roster : list ShiftRoster.t;
    timesheets : list Timesheet.t;
    leave_requests : list LeaveRequest.t }.

Definition with_shift_roster (db : database) (l : list ShiftRoster.t)
  : database :=
  mk_database (roles db) (users db) (shifts db) l (timesheets db)
              (leave_requests db).

(** [Model.query.get(pk)] *)
Definition Role_get (db : database) (pk : Z) : option Role.t :=
  find (fun r => Role.id r =? pk) (roles db).
Definition User_get (db : database) (pk : Z) : option User.t :=
  find (fun u => User.id u =? pk) (users db).
Definition Shift_get (db : database) (pk : Z) : option Shift.t :=
  find (fun s => Shift.id s =? pk) (shifts db).
Definition ShiftRoster_get (db : database) (pk : Z) : option ShiftRoster.t :=
  find (fun r => ShiftRoster.id r =? pk) (shift_roster db).

(** The relationships [user.role_ref] and [roster_entry.timesheets]. *)
Definition role_ref (db : database) (u : User.t) : option Role.t :=
  Role_get db (User.role_id u).
Definition roster_timesheets (db : database) (r : ShiftRoster.t)
  : list Timesheet.t :=
  filter (fun t => Timesheet.roster_id t =? ShiftRoster.id r) (timesheets db).

(** The primary key of an inserted row: one more than the largest in the
    table. *)
Definition next_id (l : list ShiftRoster.t) : Z :=
  1 + fold_right Z.max 0 (map ShiftRoster.id l).

(** [ShiftRoster(employee_id=..., shift_id=..., date=..., hours=...,
    notes=...)] once inserted: the constructor sets the five columns it is
    given, [status] and [created_at] take their column defaults, the
    approval columns stay null. *)
Definition new_ShiftRoster (pk now : Z) (employee_id shift_id : Z)
  (date : Date.t) (hours : Q) (notes : string) : ShiftRoster.t :=
  ShiftRoster.mk pk employee_id shift_id date hours "pending" None None
                 notes now.

(** [db.session.add(roster_entry)], flushed. *)
Definition session_add (now : Z) (employee_id shift_id : Z) (date : Date.t)
  (hours : Q) (notes : string) (db : database) : ShiftRoster.t * database :=
  let row := new_ShiftRoster (next_id (shift_roster db)) now employee_id
                             shift_id date hours notes in
  (row, with_shift_roster db (shift_roster db ++ [row])%list).

(** The row of an object that the session holds, written back. *)
Definition session_update (obj : ShiftRoster.t) (db : database) : database :=
  with_shift_roster db
    (map (fun r => if ShiftRoster.id r =? ShiftRoster.id obj then obj else r)
         (shift_roster db)).

(** [db.session.delete(roster_entry)] *)
Definition session_delete (obj : ShiftRoster.t) (db : database) : database :=
  with_shift_roster db
    (filter (fun r => negb (ShiftRoster.id r =? ShiftRoster.id obj))
            (shift_roster db)).

(** ** Requests and responses *)

(** The JSON object of a request body. The roster handlers read
    [employee_id], [shift_id], [date], [hours], [notes] and [action]; a body
    may carry other keys, of which [status], [approved_by] and [approved_at]
    are kept here. *)
Module Json.
Record t : Type := mk
  { employee_id : option Z;
    shift_id : option Z;
    date : option string;
    hours : option Q;
    notes : option string;
    action : option string;
    status : option string;
    approved_by : option Z;
    approved_at : option string }.

(** [field in data] *)
Definition has (data : t) (field : string) : bool :=
  if String.eqb field "employee_id" then
    match employee_id data with Some _ => true | None => false end
  else if String.eqb field "shift_id" then
    match shift_id data with Some _ => true | None => false end
  else if String.eqb field "date" then
    match date data with Some _ => true | None => false end
  else if String.eqb field "hours" then
    match hours data with Some _ => true | None => false end
  else if String.eqb field "notes" then
    match notes data with Some _ => true | None => false end
  else if String.eqb field "action" then
    match action data with Some _ => true | None => false end
  else if String.eqb field "status" then
    match status data with Some _ => true | None => false end
  else if String.eqb field "approved_by" then
    match approved_by data with Some _ => true | None => false end
  else if String.eqb field "approved_at" then
    match approved_at data with Some _ => true | None => false end
  else false.
End Json.

(** The query string of [GET /roster]: [request.args.get(name)], with
    [type=int] for the two ids. *)
Module Args.
Record t : Type := mk
  { start_date : option string;
    end_date : option string;
    employee_id : option Z;
    shift_id : option Z;
    status : option string }.
End Args.

Module Metrics.
Record t : Type := mk
  { total_employees : Z;
    employees_on_shift : Z;
    employees_on_leave : Z;
    available_employees : Z;
    pending_approvals : Z;
    total_scheduled_hours : Q }.
End Metrics.

(** The JSON documents that the handlers return. [to_dict()] of a roster
    entry is carried as the row it is computed from. *)
Inductive body : Type :=
| error (msg : string)
| error_list (msg : string) (errors : list string)
| message (msg : string)
| roster_entry_doc (msg : string) (roster_entry : ShiftRoster.t)
| entries_doc (msg : string) (entries : list ShiftRoster.t)
| roster_doc (roster : list ShiftRoster.t) (total : nat)
| dashboard_doc (start_date end_date : string) (metrics : Metrics.t).

(** [jsonify(...), code] *)
Definition response : Type := (body * Z)%type.

(** [except Exception as e: return jsonify({'error': str(e)}), 500] *)
Definition internal_error (e : string) : response := (error e, 500).

(** [str(KeyError(key))] *)
Definition KeyError (key : string) : string := "'" ++ key ++ "'".

(** [data[key]] *)
Definition getitem {A : Type} (v : option A) (key : string)
  : flow string A :=
  match v with Some a => Next a | None => Stop (KeyError key) end.

(** Python truthiness of an optional string and of an optional integer. *)
Definition truthy_str (v : option string) : option string :=
  match v with
  | Some s => if String.eqb s "" then None else Some s
  | None => None
  end.
Definition truthy_int (v : option Z) : option Z :=
  match v with
  | Some n => if n =? 0 then None else Some n
  | None => None
  end.

(** ** [src/utils/decorators.py] *)

Definition get_current_user (db : database) (current_user_id : Z)
  : option User.t :=
  User_get db current_user_id.

(** [current_user = get_current_user()] followed by the first use of
    [current_user.role_ref.name]; an [AttributeError] when the user or the
    role is missing. *)
Definition current_user_role (db : database) (current_user_id : Z)
  : flow string (User.t * string) :=
  match get_current_user db current_user_id with
  | None => Stop "'NoneType' object has no attribute 'role_ref'"
  | Some current_user =>
      match role_ref db current_user with
      | None => Stop "'NoneType' object has no attribute 'name'"
      | Some role => Next (current_user, Role.name role)
      end
  end.

(** ** [src/routes/roster.py] *)

(** An exception that reaches the handler's [except Exception] clause. *)
Definition raising {A : Type} (m : flow string A) : flow response A :=
  match m with
  | Next a => Next a
  | Stop e => Stop (internal_error e)
  end.

(** The end of a request: the handler either committed its session, or
    returned early (or rolled back) and the committed database stands. *)
Definition finish (db : database) (m : flow response (response * database))
  : response * database :=
  match m with
  | Next out => out
  | Stop r => (r, db)
  end.

Definition managers : list string := ["Admin"; "Manager"].
Definition required_fields : list string :=
  ["employee_id"; "shift_id"; "date"; "hours"].

(** [ShiftRoster.query.filter(and_(ShiftRoster.employee_id == employee_id,
    ShiftRoster.date == roster_date)).first()] *)
Definition existing_entry (db : database) (employee_id : Z)
  (roster_date : Date.t) : option ShiftRoster.t :=
  find (fun r => (ShiftRoster.employee_id r =? employee_id)
                 && Date.eqb (ShiftRoster.date r) roster_date)
       (shift_roster db).

(** [data.get('notes', '')] *)
Definition notes_or_empty (data : Json.t) : string :=
  match Json.notes data with Some n => n | None => "" end.

(** [POST /roster] *)
Definition create_roster_entry (now current_user_id : Z) (data : Json.t)
  (db : database) : response * database :=
  finish db
    (cur <- raising (current_user_role db current_user_id) ;;
     ensure contains_str managers (snd cur)
       otherwise (error "Insufficient permissions", 403) ;;
     match find (fun field => negb (Json.has data field)) required_fields with
     | Some field => Stop (error (field ++ " is required"), 400)
     | None =>
     employee_id <- raising (getitem (Json.employee_id data) "employee_id") ;;
     match User_get db employee_id with
     | None => Stop (error "Employee not found", 404)
     | Some employee =>
     shift_id <- raising (getitem (Json.shift_id data) "shift_id") ;;
     match Shift_get db shift_id with
     | None => Stop (error "Shift not found", 404)
     | Some shift =>
     date_s <- raising (getitem (Json.date data) "date") ;;
     match Date.strptime date_s with
     | None => Stop (error "Invalid date format. Use YYYY-MM-DD", 400)
     | Some roster_date =>
     match existing_entry db employee_id roster_date with
     | Some _ =>
         Stop (error "Employee already has a shift scheduled for this date",
               400)
     | None =>
     hours <- raising (getitem (Json.hours data) "hours") ;;
     let (roster_entry, session) :=
       session_add now employee_id shift_id roster_date hours
                   (notes_or_empty data) db in
     Next ((roster_entry_doc "Roster entry created successfully" roster_entry,
            201), session)
     end end end end end).

(** [PUT /roster/<roster_id>] *)
Definition update_roster_entry (current_user_id roster_id : Z) (data : Json.t)
  (db : database) : response * database :=
  finish db
    (cur <- raising (current_user_role db current_user_id) ;;
     ensure contains_str managers (snd cur)
       otherwise (error "Insufficient permissions", 403) ;;
     match ShiftRoster_get db roster_id with
     | None => Stop (error "Roster entry not found", 404)
     | Some roster_entry =>
     roster_entry <-
       match Json.employee_id data with
       | Some v =>
           match User_get db v with
           | None => Stop (error "Employee not found", 404)
           | Some _ => Next (ShiftRoster.set_employee_id roster_entry v)
           end
       | None => Next roster_entry
       end ;;
     roster_entry <-
       match Json.shift_id data with
       | Some v =>
           match Shift_get db v with
           | None => Stop (error "Shift not found", 404)
           | Some _ => Next (ShiftRoster.set_shift_id roster_entry v)
           end
       | None => Next roster_entry
       end ;;
     roster_entry <-
       match Json.date data with
       | Some v =>
           match Date.strptime v with
           | None => Stop (error "Invalid date format. Use YYYY-MM-DD", 400)
           | Some d => Next (ShiftRoster.set_date roster_entry d)
           end
       | None => Next roster_entry
       end ;;
     let roster_entry :=
       match Json.hours data with
       | Some v => ShiftRoster.set_hours roster_entry v
       | None => roster_entry
       end in
     let roster_entry :=
       match Json.notes data with
       | Some v => ShiftRoster.set_notes roster_entry v
       | None => roster_entry
       end in
     Next ((roster_entry_doc "Roster entry updated successfully" roster_entry,
            200), session_update roster_entry db)
     end).

(** [DELETE /roster/<roster_id>] *)
Definition delete_roster_entry (current_user_id roster_id : Z)
  (db : database) : response * database :=
  finish db
    (cur <- raising (current_user_role db current_user_id) ;;
     ensure contains_str managers (snd cur)
       otherwise (error "Insufficient permissions", 403) ;;
     match ShiftRoster_get db roster_id with
     | None => Stop (error "Roster entry not found", 404)
     | Some roster_entry =>
     match roster_timesheets db roster_entry with
     | _ :: _ =>
         Stop (error "Cannot delete roster entry with associated timesheets",
               400)
     | [] =>
         Next ((message "Roster entry deleted successfully", 200),
               session_delete roster_entry db)
     end end).

Definition action_error : string :=
  "Action must be either " ++ dq ++ "approve" ++ dq ++ " or " ++ dq
    ++ "reject" ++ dq.

(** [POST /roster/<roster_id>/approve] *)
Definition approve_roster_entry (now current_user_id roster_id : Z)
  (data : Json.t) (db : database) : response * database :=
  finish db
    (cur <- raising (current_user_role db current_user_id) ;;
     ensure contains_str managers (snd cur)
       otherwise (error "Insufficient permissions", 403) ;;
     match ShiftRoster_get db roster_id with
     | None => Stop (error "Roster entry not found", 404)
     | Some roster_entry =>
     match Json.action data with
     | None => Stop (error action_error, 400)
     | Some action =>
     ensure contains_str ["approve"; "reject"] action
       otherwise (error action_error, 400) ;;
     let roster_entry :=
       ShiftRoster.set_status roster_entry
         (if String.eqb action "approve" then "approved" else "rejected") in
     let roster_entry :=
       ShiftRoster.set_approved_by roster_entry (Some (User.id (fst cur))) in
     let roster_entry := ShiftRoster.set_approved_at roster_entry (Some now) in
     let roster_entry :=
       match Json.notes data with
       | Some v => ShiftRoster.set_notes roster_entry v
       | None => roster_entry
       end in
     Next ((roster_entry_doc ("Roster entry " ++ action ++ "d successfully")
                             roster_entry, 200),
           session_update roster_entry db)
     end end).

(** The state of the loop of [create_bulk_roster]: the session, which the
    queries of later iterations read (pending rows are flushed before a
    query runs), and the two lists that the loop fills. *)
Record bulk_state : Type := mk_bulk
  { session : database;
    created_entries : list ShiftRoster.t;
    errors : list string }.

(** [f'Entry {i+1}: {msg}'] *)
Definition entry_error (i : nat) (msg : string) : string :=
  "Entry " ++ str (i + 1) ++ ": " ++ msg.

(** The body of the loop after the required-field check. [Stop msg] is an
    [errors.append] followed by [continue], or an exception that the
    [except Exception] clause of the body appends. *)
Definition bulk_entry (now : Z) (entry_data : Json.t) (db : database)
  : flow string (ShiftRoster.t * database) :=
  employee_id <- getitem (Json.employee_id entry_data) "employee_id" ;;
  match User_get db employee_id with
  | None => Stop "Employee not found"
  | Some employee =>
  shift_id <- getitem (Json.shift_id entry_data) "shift_id" ;;
  match Shift_get db shift_id with
  | None => Stop "Shift not found"
  | Some shift =>
  date_s <- getitem (Json.date entry_data) "date" ;;
  match Date.strptime date_s with
  | None => Stop "Invalid date format"
  | Some roster_date =>
  match existing_entry db employee_id roster_date with
  | Some _ => Stop "Employee already scheduled for this date"
  | None =>
  hours <- getitem (Json.hours entry_data) "hours" ;;
  Next (session_add now employee_id shift_id roster_date hours
                    (notes_or_empty entry_data) db)
  end end end end.

(** One iteration. The [continue] of the required-field check belongs to
    the loop over the fields, so a missing field is reported and the body
    goes on. *)
Definition bulk_iteration (now : Z) (i : nat) (entry_data : Json.t)
  (st : bulk_state) : bulk_state :=
  let errors1 :=
    (errors st
     ++ map (fun field => entry_error i (field ++ " is required"))
            (filter (fun field => negb (Json.has entry_data field))
                    required_fields))%list in
  match bulk_entry now entry_data (session st) with
  | Next (roster_entry, db) =>
      mk_bulk db (created_entries st ++ [roster_entry])%list errors1
  | Stop msg =>
      mk_bulk (session st) (created_entries st)
              (errors1 ++ [entry_error i msg])%list
  end.

(** [for i, entry_data in enumerate(entries)], from index [i]. *)
Fixpoint bulk_loop (now : Z) (i : nat) (entries : list Json.t)
  (st : bulk_state) : bulk_state :=
  match entries with
  | [] => st
  | entry_data :: rest =>
      bulk_loop now (S i) rest (bulk_iteration now i entry_data st)
  end.

(** [POST /roster/bulk]; [entries] is the value of the key of that name in
    the body, when present. *)
Definition create_bulk_roster (now current_user_id : Z)
  (entries : option (list Json.t)) (db : database) : response * database :=
  finish db
    (cur <- raising (current_user_role db current_user_id) ;;
     ensure contains_str managers (snd cur)
       otherwise (error "Insufficient permissions", 403) ;;
     let entries := match entries with Some l => l | None => [] end in
     match entries with
     | [] => Stop (error "No entries provided", 400)
     | _ :: _ =>
         let st := bulk_loop now 0 entries (mk_bulk db [] []) in
         match errors st with
         | _ :: _ =>
             Stop (error_list "Some entries could not be created" (errors st),
                   400)
         | [] =>
             Next ((entries_doc
                      (str (List.length (created_entries st))
                       ++ " roster entries created successfully")
                      (created_entries st), 201),
                   session st)
         end
     end).

(** [query.join(Shift)]: the pairs of a roster row and the shift row it
    refers to. *)
Definition join_shift (db : database) (query : list ShiftRoster.t)
  : list (ShiftRoster.t * Shift.t) :=
  flat_map
    (fun r =>
       map (fun s => (r, s))
           (filter (fun s => Shift.id s =? ShiftRoster.shift_id r)
                   (shifts db)))
    query.

(** The order of [order_by(ShiftRoster.date, Shift.start_time)]. *)
Definition order_leb (a b : ShiftRoster.t * Shift.t) : bool :=
  Date.ltb (ShiftRoster.date (fst a)) (ShiftRoster.date (fst b))
  || (Date.eqb (ShiftRoster.date (fst a)) (ShiftRoster.date (fst b))
      && (Shift.start_time (snd a) <=? Shift.start_time (snd b))).

Fixpoint order_insert (x : ShiftRoster.t * Shift.t)
  (l : list (ShiftRoster.t * Shift.t)) : list (ShiftRoster.t * Shift.t) :=
  match l with
  | [] => [x]
  | y :: l' => if order_leb x y then x :: l else y :: order_insert x l'
  end.

(** Rows with equal keys keep their storage order. *)
Definition order_by (l : list (ShiftRoster.t * Shift.t))
  : list (ShiftRoster.t * Shift.t) :=
  fold_right order_insert [] l.

(** [GET /roster] *)
Definition get_roster (current_user_id : Z) (args : Args.t) (db : database)
  : response :=
  match
    (cur <- raising (current_user_role db current_user_id) ;;
     let query :=
       if String.eqb (snd cur) "Admin" then shift_roster db
       else if String.eqb (snd cur) "Manager" then shift_roster db
       else filter (fun r => ShiftRoster.employee_id r =? User.id (fst cur))
                   (shift_roster db) in
     query <-
       match truthy_str (Args.start_date args) with
       | Some start_date =>
           match Date.strptime start_date with
           | Some start_date_obj =>
               Next (filter (fun r => Date.leb start_date_obj
                                               (ShiftRoster.date r)) query)
           | None =>
               Stop (error "Invalid start_date format. Use YYYY-MM-DD", 400)
           end
       | None => Next query
       end ;;
     query <-
       match truthy_str (Args.end_date args) with
       | Some end_date =>
           match Date.strptime end_date with
           | Some end_date_obj =>
               Next (filter (fun r => Date.leb (ShiftRoster.date r)
                                               end_date_obj) query)
           | None =>
               Stop (error "Invalid end_date format. Use YYYY-MM-DD", 400)
           end
       | None => Next query
       end ;;
     let query :=
       match truthy_int (Args.employee_id args) with
       | Some employee_id =>
           filter (fun r => ShiftRoster.employee_id r =? employee_id) query
       | None => query
       end in
     let query :=
       match truthy_int (Args.shift_id args) with
       | Some shift_id =>
           filter (fun r => ShiftRoster.shift_id r =? shift_id) query
       | None => query
       end in
     let query :=
       match truthy_str (Args.status args) with
       | Some status =>
           filter (fun r => String.eqb (ShiftRoster.status r) status) query
       | None => query
       end in
     let roster_entries := map fst (order_by (join_shift db query)) in
     Next (roster_doc roster_entries (List.length roster_entries), 200))
  with
  | Next r => r
  | Stop r => r
  end.

(** ** [src/routes/analytics.py] *)

(** [func.count(func.distinct(column))] over the selected rows. *)
Definition count_distinct (column : list Z) : Z :=
  Z.of_nat (List.length (nodup Z.eq_dec column)).

Section Dashboard.

(** The sum that the store returns for a [Float] column that is not empty,
    the values of the selected rows being listed in storage order. It is
    the result of additions in double precision, in an order and with a
    rounding that are the store's: nothing is assumed of it here. *)
Variable float_sum : list Q -> Q.

(** [func.sum(column)]: null when no row is selected. *)
Definition sql_sum (column : list Q) : option Q :=
  match column with
  | [] => None
  | _ :: _ => Some (float_sum column)
  end.

(** [float(v or 0)] *)
Definition float_or_zero (v : option Q) : Q :=
  match v with
  | Some q => if Qeq_bool q 0 then 0%Q else q
  | None => 0%Q
  end.

(** The three conditions on [ShiftRoster] rows of the dashboard queries. *)
Definition roster_in_range (start_date_obj end_date_obj : Date.t)
  (status : string) (r : ShiftRoster.t) : bool :=
  Date.leb start_date_obj (ShiftRoster.date r)
  && Date.leb (ShiftRoster.date r) end_date_obj
  && String.eqb (ShiftRoster.status r) status.

Definition leave_in_range (start_date_obj end_date_obj : Date.t)
  (l : LeaveRequest.t) : bool :=
  Date.leb (LeaveRequest.start_date l) end_date_obj
  && Date.leb start_date_obj (LeaveRequest.end_date l)
  && String.eqb (LeaveRequest.status l) "approved".

(** The metrics of [get_dashboard_metrics] for a parsed range. *)
Definition dashboard_metrics (start_date_obj end_date_obj : Date.t)
  (db : database) : Metrics.t :=
  let total_employees := Z.of_nat (List.length (users db)) in
  let employees_on_shift :=
    count_distinct
      (map ShiftRoster.employee_id
           (filter (roster_in_range start_date_obj end_date_obj "approved")
                   (shift_roster db))) in
  let employees_on_leave :=
    count_distinct
      (map LeaveRequest.employee_id
           (filter (leave_in_range start_date_obj end_date_obj)
                   (leave_requests db))) in
  let available_employees :=
    total_employees - employees_on_shift - employees_on_leave in
  let pending_rosters :=
    Z.of_nat
      (List.length
         (filter (roster_in_range start_date_obj end_date_obj "pending")
                 (shift_roster db))) in
  let total_hours :=
    sql_sum
      (map ShiftRoster.hours
           (filter (roster_in_range start_date_obj end_date_obj "approved")
                   (shift_roster db))) in
  Metrics.mk total_employees employees_on_shift employees_on_leave
             (Z.max 0 available_employees) pending_rosters
             (float_or_zero total_hours).

(** [GET /analytics/dashboard] *)
Definition get_dashboard_metrics (today : Date.t) (current_user_id : Z)
  (start_date end_date : option string) (db : database) : response :=
  match
    (cur <- raising (current_user_role db current_user_id) ;;
     ensure contains_str managers (snd cur)
       otherwise (error "Insufficient permissions", 403) ;;
     let range :=
       match truthy_str start_date, truthy_str end_date with
       | Some s, Some e => (s, e)
       | _, _ =>
           (Date.isoformat (Date.add_days today (- Date.weekday today)),
            Date.isoformat (Date.add_days today (6 - Date.weekday today)))
       end in
     match Date.strptime (fst range), Date.strptime (snd range) with
     | Some start_date_obj, Some end_date_obj =>
         Next (dashboard_doc (fst range) (snd range)
                 (dashboard_metrics start_date_obj end_date_obj db), 200)
     | _, _ => Stop (error "Invalid date format. Use YYYY-MM-DD", 400)
     end)
  with
  | Next r => r
  | Stop r => r
  end.

End Dashboard.

(** ** The engine as a transition system *)

(** The write operations of the roster engine, with the principal and the
    clock reading of each call. *)
Inductive request : Type :=
| CreateRosterEntry (now current_user_id : Z) (data : Json.t)
| CreateBulkRoster (now current_user_id : Z) (entries : option (list Json.t))
| UpdateRosterEntry (current_user_id roster_id : Z) (data : Json.t)
| DeleteRosterEntry (current_user_id roster_id : Z)
| ApproveRosterEntry (now current_user_id roster_id : Z) (data : Json.t).

Definition handle (rq : request) (db : database) : response * database :=
  match rq with
  | CreateRosterEntry now uid data => create_roster_entry now uid data db
  | CreateBulkRoster now uid entries => create_bulk_roster now uid entries db
  | UpdateRosterEntry uid roster_id data =>
      update_roster_entry uid roster_id data db
  | DeleteRosterEntry uid roster_id => delete_roster_entry uid roster_id db
  | ApproveRosterEntry now uid roster_id data =>
      approve_roster_entry now uid roster_id data db
  end.

(** The database after a sequence of requests. *)
Definition run (rqs : list request) (db : database) : database :=
  fold_left (fun db rq => snd (handle rq db)) rqs db.

(** Whether a response is a success (status 2xx). *)
Definition succeeded (r : response) : bool :=
  (200 <=? snd r) && (snd r <? 300).

(** ** Vocabulary of the properties *)

(** The principal is an existing user whose role is Admin or Manager. *)
Definition is_manager (db : database) (current_user_id : Z) : bool :=
  match current_user_role db current_user_id with
  | Next cur => contains_str managers (snd cur)
  | Stop _ => false
  end.

(** The roster entries of an employee on a date. *)
Definition bookings (db : database) (employee_id : Z) (d : Date.t)
  : list ShiftRoster.t :=
  filter (fun r => (ShiftRoster.employee_id r =? employee_id)
                   && Date.eqb (ShiftRoster.date r) d)
         (shift_roster db).

(** No double-booking: at most one roster entry per employee and date. *)
Definition no_double_booking (db : database) : Prop :=
  forall employee_id d, (List.length (bookings db employee_id d) <= 1)%nat.

(** A roster row in the state that creation gives it. *)
Definition fresh_pending (r : ShiftRoster.t) : Prop :=
  ShiftRoster.status r = "pending"
  /\ ShiftRoster.approved_by r = None
  /\ ShiftRoster.approved_at r = None.

(** A roster row holds what an entry request asks for. *)
Definition row_of_request (entry_data : Json.t) (r : ShiftRoster.t) : Prop :=
  Json.employee_id entry_data = Some (ShiftRoster.employee_id r)
  /\ Json.shift_id entry_data = Some (ShiftRoster.shift_id r)
  /\ (exists s, Json.date entry_data = Some s
                /\ Date.strptime s = Some (ShiftRoster.date r))
  /\ Json.hours entry_data = Some (ShiftRoster.hours r)
  /\ ShiftRoster.notes r = notes_or_empty entry_data.

(** The validation of one entry of a batch, against the rows that the
    session holds when the entry is reached: required fields, employee and
    shift exist, the date parses, the employee is free that day. *)
Definition entry_valid (db : database) (entry_data : Json.t) : bool :=
  match Json.employee_id entry_data, Json.shift_id entry_data,
        Json.date entry_data, Json.hours entry_data with
  | Some e, Some s, Some ds, Some _ =>
      match User_get db e, Shift_get db s, Date.strptime ds with
      | Some _, Some _, Some d =>
          match existing_entry db e d with
          | None => true
          | Some _ => false
          end
      | _, _, _ => false
      end
  | _, _, _, _ => false
  end.

(** The rows that the session holds after a valid entry. *)
Definition accept (now : Z) (db : database) (entry_data : Json.t)
  : database :=
  match Json.employee_id entry_data, Json.shift_id entry_data,
        Json.date entry_data, Json.hours entry_data with
  | Some e, Some s, Some ds, Some h =>
      match Date.strptime ds with
      | Some d => snd (session_add now e s d h (notes_or_empty entry_data) db)
      | None => db
      end
  | _, _, _, _ => db
  end.

(** The verdicts of a batch, in order: each entry is validated against the
    committed rows and the rows of the valid entries before it. *)
Fixpoint bulk_verdicts (now : Z) (db : database) (entries : list Json.t)
  : list bool :=
  match entries with
  | [] => []
  | entry_data :: rest =>
      if entry_valid db entry_data
      then true :: bulk_verdicts now (accept now db entry_data) rest
      else false :: bulk_verdicts now db rest
  end.

(** The dates of the entries of a batch, where given, are ASCII strings. *)
Definition ascii_dates (entries : list Json.t) : bool :=
  forallb (fun entry_data =>
             match Json.date entry_data with
             | Some ds => isascii ds
             | None => true
             end) entries.

(** The schema constraints on [shift_roster.shift_id]: [shifts.id] is a
    primary key and every roster row refers to a shift. *)
Definition shift_key_ok (db : database) : Prop :=
  NoDup (map Shift.id (shifts db))
  /\ forall r, In r (shift_roster db) ->
               In (ShiftRoster.shift_id r) (map Shift.id (shifts db)).

(** A roster row passes the filters of a listing; a filter whose value is
    falsy (absent, the empty string, the id 0) is not applied. *)
Definition passes_filters (args : Args.t) (start_date_obj end_date_obj
  : option Date.t) (r : ShiftRoster.t) : bool :=
  match start_date_obj with
  | Some d => Date.leb d (ShiftRoster.date r)
  | None => true
  end
  && match end_date_obj with
     | Some d => Date.leb (ShiftRoster.date r) d
     | None => true
     end
  && match truthy_int (Args.employee_id args) with
     | Some e => ShiftRoster.employee_id r =? e
     | None => true
     end
  && match truthy_int (Args.shift_id args) with
     | Some s => ShiftRoster.shift_id r =? s
     | None => true
     end
  && match truthy_str (Args.status args) with
     | Some s => String.eqb (ShiftRoster.status r) s
     | None => true
     end.

(** The date of a date filter: absent when the filter is falsy. *)
Definition filter_date (v : option string) : option (option Date.t) :=
  match truthy_str v with
  | Some s =>
      match Date.strptime s with
      | Some d => Some (Some d)
      | None => None
      end
  | None => Some None
  end.

(** The reference definitions of the dashboard metrics. *)
Module Reference.

(** The order of the calendar. *)
Definition le (a b : Date.t) : Prop :=
  Date.year a < Date.year b
  \/ (Date.year a = Date.year b
      /\ (Date.month a < Date.month b
          \/ (Date.month a = Date.month b /\ Date.day a <= Date.day b))).

(** The employee has an approved roster entry dated in the range. *)
Definition on_shift (db : database) (range_start range_end : Date.t)
  (employee : Z) : Prop :=
  exists r, In r (shift_roster db)
            /\ ShiftRoster.employee_id r = employee
            /\ ShiftRoster.status r = "approved"
            /\ le range_start (ShiftRoster.date r)
            /\ le (ShiftRoster.date r) range_end.

(** The employee has an approved leave request that overlaps the range. *)
Definition on_leave (db : database) (range_start range_end : Date.t)
  (employee : Z) : Prop :=
  exists l, In l (leave_requests db)
            /\ LeaveRequest.employee_id l = employee
            /\ LeaveRequest.status l = "approved"
            /\ le (LeaveRequest.start_date l) range_end
            /\ le range_start (LeaveRequest.end_date l).

(** [n] is the number of distinct employees that satisfy [P]. *)
Definition counts (P : Z -> Prop) (n : Z) : Prop :=
  exists l, NoDup l /\ (forall x, In x l <-> P x)
            /\ n = Z.of_nat (List.length l).

(** A roster row dated in the range with the given status. *)
Definition selected (range_start range_end : Date.t) (status : string)
  (r : ShiftRoster.t) : Prop :=
  ShiftRoster.status r = status
  /\ le range_start (ShiftRoster.date r)
  /\ le (ShiftRoster.date r) range_end.

(** [n] is the number of rows of [rows] that satisfy [P]. *)
Inductive row_count (P : ShiftRoster.t -> Prop)
  : list ShiftRoster.t -> Z -> Prop :=
| count_nil : row_count P [] 0
| count_in r rows n : P r -> row_count P rows n ->
                      row_count P (r :: rows) (n + 1)
| count_out r rows n : ~ P r -> row_count P rows n ->
                       row_count P (r :: rows) n.

(** [column] lists the hours of the rows of [rows] that satisfy [P], in
    the order of [rows]. *)
Inductive hours_column (P : ShiftRoster.t -> Prop)
  : list ShiftRoster.t -> list Q -> Prop :=
| column_nil : hours_column P [] []
| column_in r rows column :
    P r -> hours_column P rows column ->
    hours_column P (r :: rows) (ShiftRoster.hours r :: column)
| column_out r rows column :
    ~ P r -> hours_column P rows column ->
    hours_column P (r :: rows) column.

(** The sum of a column in exact arithmetic. *)
Definition exact_sum (column : list Q) : Q := fold_right Qplus 0%Q column.

End Reference.

(** ** Sample data, after [src/init_db.py] *)

Module Sample.

Definition roles : list Role.t :=
  [Role.mk 1 "Admin"; Role.mk 2 "Manager"; Role.mk 3 "Employee";
   Role.mk 4 "Guest"].

(** Ten users: 1 is an administrator, 2 a manager, 3 to 10 employees. *)
Definition users : list User.t :=
  User.mk 1 1 :: User.mk 2 2
    :: map (fun k => User.mk (Z.of_nat k) 3) (seq 3 8).

Definition shifts : list Shift.t :=
  [Shift.mk 1 "Morning Shift" (6 * 3600) 8;
   Shift.mk 2 "Afternoon Shift" (14 * 3600) 8;
   Shift.mk 3 "Night Shift" (22 * 3600) 8].

(** The reference data with no roster entry yet. *)
Definition empty_db : database := mk_database roles users shifts [] [] [].

(** A request for eight hours, with no notes. *)
Definition entry (employee_id shift_id : Z) (date : string) : Json.t :=
  Json.mk (Some employee_id) (Some shift_id) (Some date) (Some 8%Q)
          None None None None None.

Definition march_1 : Date.t := Date.mk 2024 3 1.
Definition march_3 : Date.t := Date.mk 2024 3 3.

(** A store that adds a column from its first value on, without rounding:
    the sum of the examples. *)
Definition unrounded_sum (column : list Q) : Q :=
  match column with
  | [] => 0%Q
  | x :: rest => fold_left Qplus rest x
  end.

End Sample.

(** The loop only adds rows to the roster of its session and messages to
    its error list. *)
Definition grows (st st' : bulk_state) : Prop :=
  (exists rows,
      session st'
      = with_shift_roster (session st) (shift_roster (session st) ++ rows))
  /\ exists errs, errors st' = (errors st ++ errs)%list.

Module Batch.

(** A batch whose third entry repeats the employee and the day of the
    first, with the date written another way. *)
Definition repeated : list Json.t :=
  [Sample.entry 7 1 "2024-03-01"; Sample.entry 8 2 "2024-03-01";
   Sample.entry 7 2 "2024-3-1"].

End Batch.

Module Terminal.

Definition approve : Json.t :=
  Json.mk None None None None None (Some "approve") None None None.
Definition reject : Json.t :=
  Json.mk None None None None None (Some "reject") None None None.

(** One roster entry, created by the administrator and approved by the
    administrator at time 150. *)
Definition db : database :=
  run [CreateRosterEntry 100 1 (Sample.entry 7 1 "2024-03-01");
       ApproveRosterEntry 150 1 1 approve] Sample.empty_db.

End Terminal.

Module Payload.
(** A body with no key. *)
Definition empty : Json.t :=
  Json.mk None None None None None None None None None.
End Payload.

Module Listing.

(** Two pending entries on the same day: employee 7 on the morning shift,
    employee 8 on the afternoon shift. *)
Definition db : database :=
  run [CreateRosterEntry 100 1 (Sample.entry 7 1 "2024-03-01");
       CreateRosterEntry 101 1 (Sample.entry 8 2 "2024-03-01")]
      Sample.empty_db.

(** The listing filtered on the employee id 0. *)
Definition employee_zero : Args.t := Args.mk None None (Some 0) None None.

(** The listing filtered on another employee. *)
Definition employee_eight : Args.t := Args.mk None None (Some 8) None None.

(** A body that only names employee 8. *)
Definition to_employee_eight : Json.t :=
  Json.mk (Some 8) None None None None None None None None.

End Listing.

(** The scenario of the specification for the dashboard: ten employees;
    employee 7 has an approved roster entry of eight hours on 2024-03-01
    and an approved leave request for 2024-03-01 to 2024-03-03. *)
Module E7.

Definition db : database :=
  mk_database Sample.roles Sample.users Sample.shifts
    [ShiftRoster.mk 1 7 1 Sample.march_1 8 "approved" (Some 1) (Some 150)
                    "" 100]
    []
    [LeaveRequest.mk 1 7 "paid" Sample.march_1 Sample.march_3 "approved"].

Definition today : Date.t := Date.mk 2024 3 15.

End E7.

(** The principal of a write request: the identity of its token. *)
Definition principal (rq : request) : Z :=
  match rq with
  | CreateRosterEntry _ uid _ => uid
  | CreateBulkRoster _ uid _ => uid
  | UpdateRosterEntry uid _ _ => uid
  | DeleteRosterEntry uid _ => uid
  | ApproveRosterEntry _ uid _ _ => uid
  end.

(** The foreign keys of a roster row resolve: its employee, its shift and,
    when set, its approver. *)
Definition row_references_ok (db : database) (r : ShiftRoster.t) : Prop :=
  User_get db (ShiftRoster.employee_id r) <> None
  /\ Shift_get db (ShiftRoster.shift_id r) <> None
  /\ forall a, ShiftRoster.approved_by r = Some a -> User_get db a <> None.

Definition references_ok (db : database) : Prop :=
  forall r, In r (shift_roster db) -> row_references_ok db r.

(** The row that an approve or reject action writes over a roster entry. *)
Definition decided (now uid : Z) (action : string) (notes : option string)
  (r : ShiftRoster.t) : ShiftRoster.t :=
  ShiftRoster.mk (ShiftRoster.id r) (ShiftRoster.employee_id r)
    (ShiftRoster.shift_id r) (ShiftRoster.date r) (ShiftRoster.hours r)
    (if String.eqb action "approve" then "approved" else "rejected")
    (Some uid) (Some now)
    (match notes with Some v => v | None => ShiftRoster.notes r end)
    (ShiftRoster.created_at r).

(** ** [permission_required] and [delete_shift] of [src/routes/admin.py] *)

Definition with_shifts (db : database) (l : list Shift.t) : database :=
  mk_database (roles db) (users db) l (shift_roster db) (timesheets db)
              (leave_requests db).

(** The relationship [shift.shift_rosters]. *)
Definition shift_rosters (db : database) (shift : Shift.t)
  : list ShiftRoster.t :=
  filter (fun r => ShiftRoster.shift_id r =? Shift.id shift) (shift_roster db).

(** The body of [delete_shift], under its decorator. *)
Definition delete_shift_view (shift_id : Z) (db : database)
  : response * database :=
  match Shift_get db shift_id with
  | None => ((error "Shift not found", 404), db)
  | Some shift =>
      match shift_rosters db shift with
      | _ :: _ =>
          ((error "Cannot delete shift that is used in rosters", 400), db)
      | [] =>
          ((message "Shift deleted successfully", 200),
           with_shifts db
             (filter (fun s => negb (Shift.id s =? Shift.id shift))
                     (shifts db)))
      end
  end.

Section Permissions.

(** [json.loads(role.permissions).get(permission, False)] as a truth
    value; the permissions column is not among the columns kept in
    [Role.t], so its reading is a parameter. *)
Variable permitted : Role.t -> string -> bool.

(** The decorator [permission_required(permission)] applied to a view. *)
Definition permission_required (permission : string)
  (f : database -> response * database) (current_user_id : Z)
  (db : database) : response * database :=
  match User_get db current_user_id with
  | None => ((error "User not found", 404), db)
  | Some user =>
      match role_ref db user with
      | None => ((error "User has no role assigned", 403), db)
      | Some role =>
          if permitted role permission then f db
          else ((error ("Permission " ++ permission ++ " required"), 403), db)
      end
  end.

(** [DELETE /shifts/<shift_id>] *)
Definition delete_shift (current_user_id shift_id : Z) (db : database)
  : response * database :=
  permission_required "manage_shifts" (delete_shift_view shift_id)
                      current_user_id db.

End Permissions.

(** ** The status of an employee in [skill_search] of
    [src/routes/analytics.py] *)

(** The approved roster entry of the employee today, if any. *)
Definition today_roster (db : database) (today : Date.t) (employee_id : Z)
  : option ShiftRoster.t :=
  find (fun r => (ShiftRoster.employee_id r =? employee_id)
                 && Date.eqb (ShiftRoster.date r) today
                 && String.eqb (ShiftRoster.status r) "approved")
       (shift_roster db).

(** The approved leave request of the employee that covers today, if
    any. *)
Definition on_leave (db : database) (today : Date.t) (employee_id : Z)
  : option LeaveRequest.t :=
  find (fun l => (LeaveRequest.employee_id l =? employee_id)
                 && Date.leb (LeaveRequest.start_date l) today
                 && Date.leb today (LeaveRequest.end_date l)
                 && String.eqb (LeaveRequest.status l) "approved")
       (leave_requests db).

(** The body of the loop over the employees found: the keys
    [shift_status] and [today_shift] added to the document of the
    employee. *)
Definition shift_status (db : database) (today : Date.t) (employee_id : Z)
  : string * option ShiftRoster.t :=
  let shift_status := "available" in
  let shift_status :=
    match today_roster db today employee_id with
    | Some _ => "on_shift"
    | None => shift_status
    end in
  let shift_status :=
    match on_leave db today employee_id with
    | Some l => "on_" ++ LeaveRequest.leave_type l ++ "_leave"
    | None => shift_status
    end in
  (shift_status, today_roster db today employee_id).

(** ** Calendar dates *)

(** A date that [date(year, month, day)] accepts. *)
Definition valid_date (d : Date.t) : Prop :=
  Date.make (Date.year d) (Date.month d) (Date.day d) = Some d.

(** The four characters that [isoformat] writes for a year whose decimal
    numeral, least digit first, is [u], read back as [i]. *)
Definition year_string_ok (u : Decimal.uint) (i : Z) : bool :=
  let s := NilEmpty.string_of_uint (Decimal.rev u) in
  match String.concat "" (repeat "0" (4 - String.length s)) ++ s with
  | String a (String b (String c (String d EmptyString))) =>
      match Date.digit a, Date.digit b, Date.digit c, Date.digit d with
      | Some a', Some b', Some c', Some d' =>
          1000 * a' + 100 * b' + 10 * c' + d' =? i
      | _, _, _, _ => false
      end
  | _ => false
  end.

(** The check of [k] consecutive years from [i], whose numeral is [u]. *)
Fixpoint years_ok (k : nat) (u : Decimal.uint) (i : Z) : bool :=
  match k with
  | O => true
  | S k' => year_string_ok u i && years_ok k' (Decimal.Little.succ u) (i + 1)
  end.

(** The two digits that [isoformat] writes for the month or day [n] are
    digits [x], [y] with [10 x + y = n]. *)
Definition two_digits_ok (n : nat) : bool :=
  match Date.pad 2 (Z.of_nat n) with
  | String a (String b EmptyString) =>
      match Date.digit a, Date.digit b with
      | Some x, Some y =>
          (10 * x + y =? Z.of_nat n) && (0 <=? x) && (x <=? 9) && (0 <=? y)
          && (y <=? 9)
      | _, _ => false
      end
  | _ => false
  end.

(** ** [get_employees_by_role] of [src/routes/analytics.py] *)

(** [Role.query.join(User).group_by(Role.id, Role.name)] with
    [func.count(User.id)]: one row per role that has users, [Role.id] being
    a primary key. *)
Definition role_counts (db : database) : list (string * Z) :=
  flat_map
    (fun role =>
       match filter (fun u => User.role_id u =? Role.id role) (users db) with
       | [] => []
       | u :: us => [(Role.name role, Z.of_nat (List.length (u :: us)))]
       end)
    (roles db).

(** [GET /analytics/employees-by-role]: the rows of the key [data] of the
    200 response, or the response of a refusal. *)
Definition get_employees_by_role (current_user_id : Z) (db : database)
  : flow response (list (string * Z)) :=
  cur <- raising (current_user_role db current_user_id) ;;
  ensure contains_str managers (snd cur)
    otherwise (error "Insufficient permissions", 403) ;;
  Next (role_counts db).

(** ** [get_shift_coverage] of [src/routes/analytics.py] *)

(** A row of the coverage of a day. [shift_name] and [color] are read from
    the shift row, which is carried whole. *)
Module Coverage.
Record t : Type := mk
  { shift : Shift.t;
    scheduled_count : Z;
    total_hours : Q }.
End Coverage.




Section ShiftCoverage.

(** The sum of the store over a [Float] column, as for the dashboard. *)
Variable float_sum : list Q -> Q.








End ShiftCoverage.



(** * Properties *)

(** ** Lists, dates and tables *)

(** Case analysis on an innermost scrutinee of the goal. *)
Ltac break_match :=
  match goal with
  | |- context [match ?x with _ => _ end] =>
      lazymatch x with
      | context [match _ with _ => _ end] => fail
      | _ => destruct x eqn:?; cbv beta iota zeta
      end
  end.

Lemma Date_eqb_eq (a b : Date.t) : Date.eqb a b = true <-> a = b.
Proof.
  destruct a as [ya ma da], b as [yb mb db]; unfold Date.eqb; simpl.
  rewrite !andb_true_iff, !Z.eqb_eq.
  split.
  - intros [[-> ->] ->]; reflexivity.
  - intros E; injection E; auto.
Qed.

Lemma Date_eqb_refl (a : Date.t) : Date.eqb a a = true.
Proof. apply Date_eqb_eq; reflexivity. Qed.

Lemma find_none_filter {A : Type} (f : A -> bool) (l : list A) :
  find f l = None -> filter f l = [].
Proof.
  induction l as [|x l IH]; simpl; intros H; [reflexivity|].
  destruct (f x); [discriminate | auto].
Qed.

Lemma find_some_filter {A : Type} (f : A -> bool) (l : list A) (x : A) :
  find f l = Some x -> filter f l <> [].
Proof.
  induction l as [|y l IH]; simpl; intros H; [discriminate|].
  destruct (f y); [discriminate | auto].
Qed.

Lemma filter_nonempty_find {A : Type} (f : A -> bool) (l : list A) :
  filter f l <> [] -> exists x, find f l = Some x.
Proof.
  intros H. destruct (find f l) eqn:E; [eauto|].
  apply find_none_filter in E. contradiction.
Qed.

Lemma find_app_some {A : Type} (f : A -> bool) (l l' : list A) (x : A) :
  find f l = Some x -> find f (l ++ l') = Some x.
Proof.
  induction l as [|y l IH]; simpl; intros H; [discriminate|].
  destruct (f y); auto.
Qed.

Lemma find_key {A : Type} (f : A -> bool) (l : list A) (x : A) :
  find f l = Some x -> f x = true /\ In x l.
Proof.
  intros H. apply find_some in H. tauto.
Qed.

Lemma ShiftRoster_get_id (db : database) (pk : Z) (r : ShiftRoster.t) :
  ShiftRoster_get db pk = Some r -> ShiftRoster.id r = pk.
Proof.
  intros H. apply find_key in H. destruct H as [H _].
  apply Z.eqb_eq; exact H.
Qed.

Lemma User_get_id (db : database) (pk : Z) (u : User.t) :
  User_get db pk = Some u -> User.id u = pk.
Proof.
  intros H. apply find_key in H. destruct H as [H _].
  apply Z.eqb_eq; exact H.
Qed.

(** ** Creation of one entry *)

(** What [create_roster_entry] does, case by case: either nothing is
    persisted and the response is not 201, or the request passed every
    check and exactly its row is appended. *)
Lemma create_roster_entry_cases (now uid : Z) (data : Json.t)
  (db : database) :
  (snd (create_roster_entry now uid data db) = db
   /\ succeeded (fst (create_roster_entry now uid data db)) = false)
  \/ exists e s ds d h,
       Json.employee_id data = Some e
       /\ Json.shift_id data = Some s
       /\ Json.date data = Some ds
       /\ Json.hours data = Some h
       /\ Date.strptime ds = Some d
       /\ existing_entry db e d = None
       /\ create_roster_entry now uid data db
          = ((roster_entry_doc "Roster entry created successfully"
                (new_ShiftRoster (next_id (shift_roster db)) now e s d h
                                 (notes_or_empty data)), 201),
             with_shift_roster db
               (shift_roster db
                ++ [new_ShiftRoster (next_id (shift_roster db)) now e s d h
                                    (notes_or_empty data)])%list).
Proof.
  unfold create_roster_entry, finish, raising, getitem, session_add.
  repeat break_match; try (left; split; reflexivity).
  right. do 5 eexists. repeat split; eauto.
Qed.

Lemma bookings_append (db : database) (row : ShiftRoster.t) (e : Z)
  (d : Date.t) :
  bookings (with_shift_roster db (shift_roster db ++ [row])) e d
  = (bookings db e d
     ++ (if (ShiftRoster.employee_id row =? e)
            && Date.eqb (ShiftRoster.date row) d
         then [row] else []))%list.
Proof.
  unfold bookings; simpl. rewrite filter_app. reflexivity.
Qed.

Lemma existing_entry_none_bookings (db : database) (e : Z) (d : Date.t) :
  existing_entry db e d = None <-> bookings db e d = [].
Proof.
  unfold existing_entry, bookings. split.
  - apply find_none_filter.
  - intros H. destruct (find _ _) eqn:E; [|reflexivity].
    apply find_some_filter in E. contradiction.
Qed.

Lemma create_roster_entry_keeps_invariant (now uid : Z) (data : Json.t)
  (db : database) :
  no_double_booking db ->
  no_double_booking (snd (create_roster_entry now uid data db)).
Proof.
  intros Hdb.
  destruct (create_roster_entry_cases now uid data db)
    as [[-> _] | (e & s & ds & d & h & _ & _ & _ & _ & _ & Hfree & ->)];
    [exact Hdb|].
  intros e' d'. cbn [snd]. rewrite bookings_append.
  destruct ((ShiftRoster.employee_id _ =? e') && Date.eqb _ d') eqn:Hrow.
  - apply andb_true_iff in Hrow. destruct Hrow as [He Hd].
    apply Z.eqb_eq in He. apply Date_eqb_eq in Hd. simpl in He, Hd. subst e' d'.
    apply existing_entry_none_bookings in Hfree. rewrite Hfree. simpl. lia.
  - rewrite app_nil_r. apply Hdb.
Qed.

Lemma is_manager_role (db : database) (uid : Z) :
  is_manager db uid = true ->
  exists cur, current_user_role db uid = Next cur
              /\ contains_str managers (snd cur) = true
              /\ User.id (fst cur) = uid.
Proof.
  unfold is_manager. destruct (current_user_role db uid) as [cur|] eqn:E;
    [|discriminate].
  intros H. exists cur. repeat split; auto.
  unfold current_user_role, get_current_user in E.
  destruct (User_get db uid) as [u|] eqn:Eu; [|discriminate].
  destruct (role_ref db u); [|discriminate].
  inversion E; subst; simpl. eapply User_get_id; eauto.
Qed.

(** C1 -- No double-booking on creation. From a database with at most one
    roster entry per (employee, date), every sequence of createRosterEntry
    calls leaves at most one entry per (employee, date). A request for a
    pair that already has an entry persists nothing and does not succeed;
    when it passes the checks that come first (principal, required fields,
    employee, shift, date) its response is the conflict error. *)
Theorem create_roster_entry_no_double_booking
  (db : database) (calls : list (Z * Z * Json.t)) :
  no_double_booking db ->
  no_double_booking
    (run (map (fun c => CreateRosterEntry (fst (fst c)) (snd (fst c)) (snd c))
              calls) db)
  /\ (forall now uid data e ds d,
         Json.employee_id data = Some e ->
         Json.date data = Some ds ->
         Date.strptime ds = Some d ->
         bookings db e d <> [] ->
         snd (create_roster_entry now uid data db) = db
         /\ succeeded (fst (create_roster_entry now uid data db)) = false
         /\ forall s h,
              is_manager db uid = true ->
              Json.shift_id data = Some s ->
              Json.hours data = Some h ->
              User_get db e <> None ->
              Shift_get db s <> None ->
              fst (create_roster_entry now uid data db)
              = (error "Employee already has a shift scheduled for this date",
                 400)).
Proof.
  intros Hdb. split.
  - revert db Hdb. induction calls as [|c calls IH]; intros db Hdb.
    + exact Hdb.
    + simpl. apply IH. apply create_roster_entry_keeps_invariant. exact Hdb.
  - intros now uid data e ds d He Hds Hd Hbusy.
    assert (Hex : exists r, existing_entry db e d = Some r).
    { destruct (existing_entry db e d) eqn:E; [eauto|].
      apply existing_entry_none_bookings in E. contradiction. }
    destruct Hex as [r0 Hr0].
    destruct (create_roster_entry_cases now uid data db)
      as [[Hsame Hfail]
         | (e' & s' & ds' & d' & h' & He' & _ & Hds' & _ & Hd' & Hfree & _)].
    2:{ rewrite He in He'. rewrite Hds in Hds'.
        inversion He'; inversion Hds'; subst e' ds'.
        rewrite Hd in Hd'. inversion Hd'; subst d'. congruence. }
    split; [exact Hsame|]. split; [exact Hfail|].
    intros s h Hman Hs Hh Hu Hsh.
    apply is_manager_role in Hman. destruct Hman as (cur & Hcur & Hrole & _).
    unfold create_roster_entry, finish, raising, getitem.
    rewrite Hcur, Hrole.
    unfold required_fields, Json.has. cbn [find String.eqb Ascii.eqb Bool.eqb].
    rewrite He, Hs, Hds, Hh. cbn [negb].
    destruct (User_get db e); [|contradiction].
    destruct (Shift_get db s); [|contradiction].
    rewrite Hd, Hr0. reflexivity.
Qed.

Lemma create_roster_entry_no_double_booking_witness :
  no_double_booking Sample.empty_db
  /\ no_double_booking
       (run [CreateRosterEntry 100 1 (Sample.entry 7 1 "2024-03-01");
             CreateRosterEntry 101 2 (Sample.entry 7 2 "2024-03-01")]
            Sample.empty_db).
Proof.
  assert (H : no_double_booking Sample.empty_db).
  { intros e d. apply Nat.le_0_l. }
  split; [exact H|].
  exact (proj1 (create_roster_entry_no_double_booking Sample.empty_db
                  [(100, 1, Sample.entry 7 1 "2024-03-01");
                   (101, 2, Sample.entry 7 2 "2024-03-01")] H)).
Defined.

(** ** The loop of the bulk creation *)

Lemma with_shift_roster_nil (db : database) :
  with_shift_roster db (shift_roster db ++ []) = db.
Proof.
  destruct db; unfold with_shift_roster; simpl. rewrite app_nil_r. reflexivity.
Qed.

Lemma with_shift_roster_app (db : database) (row : ShiftRoster.t)
  (rows : list ShiftRoster.t) :
  with_shift_roster
    (with_shift_roster db (shift_roster db ++ [row]))
    (shift_roster (with_shift_roster db (shift_roster db ++ [row])) ++ rows)
  = with_shift_roster db (shift_roster db ++ row :: rows).
Proof.
  unfold with_shift_roster; simpl. rewrite <- app_assoc. reflexivity.
Qed.

Lemma new_ShiftRoster_fresh (pk now e s : Z) (d : Date.t) (h : Q)
  (n : string) : fresh_pending (new_ShiftRoster pk now e s d h n).
Proof. repeat split. Qed.

(** A valid entry is added, as the row that its request describes. *)
Lemma bulk_entry_valid (now : Z) (entry_data : Json.t) (db : database) :
  entry_valid db entry_data = true ->
  exists row,
    bulk_entry now entry_data db = Next (row, accept now db entry_data)
    /\ accept now db entry_data
       = with_shift_roster db (shift_roster db ++ [row])
    /\ row_of_request entry_data row
    /\ fresh_pending row
    /\ filter (fun field => negb (Json.has entry_data field)) required_fields
       = [].
Proof.
  unfold entry_valid, bulk_entry, accept, getitem, session_add.
  intros H.
  destruct (Json.employee_id entry_data) as [e|] eqn:He; [|discriminate].
  destruct (Json.shift_id entry_data) as [s|] eqn:Hs; [|discriminate].
  destruct (Json.date entry_data) as [ds|] eqn:Hds; [|discriminate].
  destruct (Json.hours entry_data) as [h|] eqn:Hh; [|discriminate].
  destruct (User_get db e); [|discriminate].
  destruct (Shift_get db s); [|discriminate].
  destruct (Date.strptime ds) as [d|] eqn:Hd; [|discriminate].
  destruct (existing_entry db e d); [discriminate|].
  eexists. split; [reflexivity|]. split; [reflexivity|].
  split; [|split; [apply new_ShiftRoster_fresh|]].
  - unfold row_of_request; simpl. repeat split; auto. eauto.
  - unfold required_fields, Json.has; simpl. rewrite He, Hs, Hds, Hh.
    reflexivity.
Qed.

(** An invalid entry is not added: the body stops with a message. *)
Lemma bulk_entry_invalid (now : Z) (entry_data : Json.t) (db : database) :
  entry_valid db entry_data = false ->
  exists msg, bulk_entry now entry_data db = Stop msg.
Proof.
  unfold entry_valid, bulk_entry, getitem.
  intros H.
  repeat break_match; try discriminate; eauto.
Qed.

Lemma bulk_loop_spec (now : Z) (entries : list Json.t) :
  forall (i : nat) (st : bulk_state),
  exists rows errs,
    session (bulk_loop now i entries st)
    = with_shift_roster (session st) (shift_roster (session st) ++ rows)
    /\ created_entries (bulk_loop now i entries st)
       = (created_entries st ++ rows)%list
    /\ errors (bulk_loop now i entries st) = (errors st ++ errs)%list
    /\ Forall fresh_pending rows
    /\ (forall k,
           nth_error (bulk_verdicts now (session st) entries) k = Some false ->
           exists msg, In (entry_error (i + k) msg) errs)
    /\ (Forall (fun v => v = true) (bulk_verdicts now (session st) entries) ->
        errs = [] /\ Forall2 row_of_request entries rows).
Proof.
  induction entries as [|entry_data rest IH]; intros i st.
  - exists [], []. simpl. rewrite with_shift_roster_nil, !app_nil_r.
    split; [reflexivity|]. split; [reflexivity|]. split; [reflexivity|].
    split; [constructor|]. split.
    + intros k H. destruct k; discriminate.
    + intros _. split; [reflexivity | constructor].
  - simpl bulk_loop. simpl bulk_verdicts.
    destruct (entry_valid (session st) entry_data) eqn:Hv.
    + destruct (bulk_entry_valid now entry_data (session st) Hv)
        as (row & Hbody & Hacc & Hreq & Hfresh & Hmiss).
      assert (Hit : bulk_iteration now i entry_data st
                    = mk_bulk (accept now (session st) entry_data)
                              (created_entries st ++ [row]) (errors st)).
      { unfold bulk_iteration. rewrite Hbody, Hmiss. simpl.
        rewrite app_nil_r. reflexivity. }
      rewrite Hit.
      destruct (IH (S i) (mk_bulk (accept now (session st) entry_data)
                                  (created_entries st ++ [row]) (errors st)))
        as (rows & errs & Hs & Hc & He & Hf & Hbad & Hgood).
      simpl in Hs, Hc, He, Hbad, Hgood.
      exists (row :: rows), errs.
      split. { rewrite Hs, Hacc. apply with_shift_roster_app. }
      split. { rewrite Hc, <- app_assoc. reflexivity. }
      split; [exact He|]. split; [constructor; assumption|]. split.
      * intros k Hk. destruct k as [|k']; [discriminate|]. simpl in Hk.
        destruct (Hbad k' Hk) as [msg Hmsg]. exists msg.
        replace (i + S k')%nat with (S i + k')%nat by lia. exact Hmsg.
      * intros Hall. inversion Hall; subst.
        destruct (Hgood H2) as [-> Hrows]. split; [reflexivity|].
        constructor; assumption.
    + destruct (bulk_entry_invalid now entry_data (session st) Hv)
        as [msg Hbody].
      set (errors1 :=
             (errors st
              ++ map (fun field => entry_error i (field ++ " is required"))
                     (filter (fun field => negb (Json.has entry_data field))
                             required_fields))%list).
      assert (Hit : bulk_iteration now i entry_data st
                    = mk_bulk (session st) (created_entries st)
                              (errors1 ++ [entry_error i msg])).
      { unfold bulk_iteration. rewrite Hbody. reflexivity. }
      rewrite Hit.
      destruct (IH (S i) (mk_bulk (session st) (created_entries st)
                                  (errors1 ++ [entry_error i msg])))
        as (rows & errs & Hs & Hc & He & Hf & Hbad & Hgood).
      simpl in Hs, Hc, He, Hbad, Hgood.
      exists rows.
      exists (map (fun field => entry_error i (field ++ " is required"))
                  (filter (fun field => negb (Json.has entry_data field))
                          required_fields)
              ++ entry_error i msg :: errs)%list.
      split; [exact Hs|]. split; [exact Hc|].
      split. { rewrite He. unfold errors1. rewrite <- !app_assoc. reflexivity. }
      split; [exact Hf|]. split.
      * intros k Hk. destruct k as [|k'].
        -- exists msg. rewrite Nat.add_0_r. apply in_or_app. right. left.
           reflexivity.
        -- simpl in Hk. destruct (Hbad k' Hk) as [msg' Hmsg]. exists msg'.
           replace (i + S k')%nat with (S i + k')%nat by lia.
           apply in_or_app. right. right. exact Hmsg.
      * intros Hall. inversion Hall; discriminate.
Qed.

(** The response of the bulk creation for a Manager or Admin principal and
    a batch that is not empty. *)
Lemma create_bulk_roster_authorised (now uid : Z) (entry_data : Json.t)
  (rest : list Json.t) (db : database) :
  is_manager db uid = true ->
  create_bulk_roster now uid (Some (entry_data :: rest)) db
  = match errors (bulk_loop now 0 (entry_data :: rest) (mk_bulk db [] [])) with
    | _ :: _ =>
        ((error_list "Some entries could not be created"
            (errors (bulk_loop now 0 (entry_data :: rest)
                               (mk_bulk db [] []))), 400), db)
    | [] =>
        ((entries_doc
            (str (List.length
                    (created_entries
                       (bulk_loop now 0 (entry_data :: rest)
                                  (mk_bulk db [] []))))
             ++ " roster entries created successfully")
            (created_entries (bulk_loop now 0 (entry_data :: rest)
                                        (mk_bulk db [] []))), 201),
         session (bulk_loop now 0 (entry_data :: rest) (mk_bulk db [] [])))
    end.
Proof.
  intros Hman. apply is_manager_role in Hman.
  destruct Hman as (cur & Hcur & Hrole & _).
  unfold create_bulk_roster, finish, raising. rewrite Hcur, Hrole.
  destruct (errors _); reflexivity.
Qed.

(** Whoever calls it, the bulk creation either persists nothing and fails,
    or commits the session of a loop that reported no error. *)
Lemma create_bulk_roster_cases (now uid : Z) (entries : option (list Json.t))
  (db : database) :
  (snd (create_bulk_roster now uid entries db) = db
   /\ succeeded (fst (create_bulk_roster now uid entries db)) = false)
  \/ exists l,
       entries = Some l
       /\ l <> []
       /\ errors (bulk_loop now 0 l (mk_bulk db [] [])) = []
       /\ snd (create_bulk_roster now uid entries db)
          = session (bulk_loop now 0 l (mk_bulk db [] []))
       /\ fst (create_bulk_roster now uid entries db)
          = (entries_doc
               (str (List.length
                       (created_entries
                          (bulk_loop now 0 l (mk_bulk db [] []))))
                ++ " roster entries created successfully")
               (created_entries (bulk_loop now 0 l (mk_bulk db [] []))), 201).
Proof.
  unfold create_bulk_roster, finish, raising.
  destruct (current_user_role db uid) as [cur|];
    [|left; split; reflexivity].
  destruct (contains_str managers (snd cur)); [|left; split; reflexivity].
  destruct entries as [[|entry_data rest]|]; try (left; split; reflexivity).
  destruct (errors (bulk_loop now 0 (entry_data :: rest) (mk_bulk db [] [])))
    eqn:E; [|left; split; reflexivity].
  right. exists (entry_data :: rest). rewrite E.
  split; [reflexivity|]. split; [discriminate|]. repeat split; reflexivity.
Qed.

Lemma all_true_no_false (l : list bool) :
  (forall k, nth_error l k <> Some false) -> Forall (fun v => v = true) l.
Proof.
  induction l as [|b l IH]; intros H; constructor.
  - destruct b; [reflexivity|]. exfalso. apply (H 0%nat). reflexivity.
  - apply IH. intros k. apply (H (S k)).
Qed.

(** C2 -- Bulk creation is all-or-nothing with positioned errors. For a
    Manager or Admin principal and a list of entry requests whose dates
    are ASCII strings: if the entry at position k (counted from 1) fails
    validation, nothing is persisted and the error list of the 400
    response has an item "Entry k: ..."; if every entry passes validation,
    the rows of all the entries, in order, are persisted. *)
Theorem create_bulk_roster_atomic (now uid : Z) (entries : list Json.t)
  (db : database) :
  is_manager db uid = true ->
  ascii_dates entries = true ->
  (forall k,
      (1 <= k)%nat ->
      nth_error (bulk_verdicts now db entries) (k - 1) = Some false ->
      snd (create_bulk_roster now uid (Some entries) db) = db
      /\ exists errs,
           fst (create_bulk_roster now uid (Some entries) db)
           = (error_list "Some entries could not be created" errs, 400)
           /\ exists msg, In ("Entry " ++ str k ++ ": " ++ msg) errs)
  /\ (Forall (fun v => v = true) (bulk_verdicts now db entries) ->
      exists rows,
        snd (create_bulk_roster now uid (Some entries) db)
        = with_shift_roster db (shift_roster db ++ rows)
        /\ Forall2 row_of_request entries rows
        /\ Forall fresh_pending rows
        /\ (entries <> [] ->
            fst (create_bulk_roster now uid (Some entries) db)
            = (entries_doc
                 (str (List.length entries)
                  ++ " roster entries created successfully") rows, 201))).
Proof.
  intros Hman _.
  destruct (bulk_loop_spec now entries 0 (mk_bulk db [] []))
    as (rows & errs & Hs & Hc & He & Hf & Hbad & Hgood).
  simpl in Hs, Hc, He, Hbad, Hgood.
  split.
  - intros k Hk Hfalse.
    destruct (Hbad (k - 1)%nat Hfalse) as [msg Hmsg].
    unfold entry_error in Hmsg.
    replace (k - 1 + 1)%nat with k in Hmsg by lia.
    destruct entries as [|entry_data rest].
    { destruct (k - 1)%nat; discriminate. }
    rewrite (create_bulk_roster_authorised now uid entry_data rest db Hman).
    rewrite He.
    destruct errs as [|err errs]; [contradiction|].
    split; [reflexivity|]. eexists. split; [reflexivity|].
    exists msg. exact Hmsg.
  - intros Hall. destruct (Hgood Hall) as [-> Hrows].
    exists rows.
    destruct entries as [|entry_data rest].
    + inversion Hrows; subst.
      split. { simpl. rewrite with_shift_roster_nil.
               apply is_manager_role in Hman.
               destruct Hman as (cur & Hcur & Hrole & _).
               unfold create_bulk_roster, finish, raising.
               rewrite Hcur, Hrole. reflexivity. }
      split; [constructor|]. split; [constructor|].
      intros Hne. contradiction.
    + rewrite (create_bulk_roster_authorised now uid entry_data rest db Hman).
      rewrite He, Hc, Hs. simpl.
      split; [reflexivity|]. split; [exact Hrows|]. split; [exact Hf|].
      intros _. apply Forall2_length in Hrows. rewrite <- Hrows. reflexivity.
Qed.

Lemma create_bulk_roster_atomic_witness :
  is_manager Sample.empty_db 1 = true
  /\ ascii_dates
       [Sample.entry 7 1 "2024-03-01"; Sample.entry 8 9 "2024-03-01";
        Sample.entry 9 2 "2024-03-02"] = true
  /\ (1 <= 2)%nat
  /\ nth_error
       (bulk_verdicts 100 Sample.empty_db
          [Sample.entry 7 1 "2024-03-01"; Sample.entry 8 9 "2024-03-01";
           Sample.entry 9 2 "2024-03-02"]) (2 - 1) = Some false
  /\ snd (create_bulk_roster 100 1
            (Some [Sample.entry 7 1 "2024-03-01";
                   Sample.entry 8 9 "2024-03-01";
                   Sample.entry 9 2 "2024-03-02"]) Sample.empty_db)
     = Sample.empty_db.
Proof.
  split; [reflexivity|]. split; [reflexivity|].
  split; [apply le_S, le_n|]. split; [reflexivity|].
  exact (proj1 (proj1 (create_bulk_roster_atomic 100 1
                         [Sample.entry 7 1 "2024-03-01";
                          Sample.entry 8 9 "2024-03-01";
                          Sample.entry 9 2 "2024-03-02"]
                         Sample.empty_db eq_refl eq_refl)
                  2%nat (le_S _ _ (le_n 1)) eq_refl)).
Defined.

(** The scenario of the specification: of three entries the second names a
    shift that does not exist; nothing is persisted and the error list has
    exactly one item, for position 2. *)
Example bulk_scenario_unknown_shift :
  create_bulk_roster 100 1
    (Some [Sample.entry 7 1 "2024-03-01"; Sample.entry 8 9 "2024-03-01";
           Sample.entry 9 2 "2024-03-02"]) Sample.empty_db
  = ((error_list "Some entries could not be created"
        ["Entry 2: Shift not found"], 400), Sample.empty_db).
Proof. reflexivity. Qed.

(** C10 -- Creation never persists caller-controlled approval state.
    Whatever the payload holds (the keys status, approved_by and
    approved_at included) and whoever calls, the roster after
    createRosterEntry or createRosterEntriesBulk is the roster before it
    followed by new rows that are all pending with no approver and no
    approval time; a successful call adds exactly the rows of its
    requests. *)
Theorem creation_always_pending (now uid : Z) (db : database) :
  (forall data,
      exists rows,
        snd (create_roster_entry now uid data db)
        = with_shift_roster db (shift_roster db ++ rows)
        /\ Forall fresh_pending rows
        /\ (succeeded (fst (create_roster_entry now uid data db)) = true ->
            exists r, rows = [r] /\ row_of_request data r))
  /\ (forall entries,
         exists rows,
           snd (create_bulk_roster now uid entries db)
           = with_shift_roster db (shift_roster db ++ rows)
           /\ Forall fresh_pending rows
           /\ (succeeded (fst (create_bulk_roster now uid entries db)) = true ->
               exists l, entries = Some l /\ l <> []
                         /\ Forall2 row_of_request l rows)).
Proof.
  split.
  - intros data.
    destruct (create_roster_entry_cases now uid data db)
      as [[Hsame Hfail]
         | (e & s & ds & d & h & He & Hs & Hds & Hh & Hd & _ & Heq)].
    + exists []. rewrite Hsame, Hfail, with_shift_roster_nil.
      split; [reflexivity|]. split; [constructor|]. discriminate.
    + rewrite Heq. eexists. split; [reflexivity|].
      split; [repeat constructor|].
      intros _. eexists. split; [reflexivity|].
      unfold row_of_request; simpl. repeat split; eauto.
  - intros entries.
    destruct (create_bulk_roster_cases now uid entries db)
      as [[Hsame Hfail] | (l & -> & Hne & Herr & Hdb & Hresp)].
    + exists []. rewrite Hsame, Hfail, with_shift_roster_nil.
      split; [reflexivity|]. split; [constructor|]. discriminate.
    + destruct (bulk_loop_spec now l 0 (mk_bulk db [] []))
        as (rows & errs & Hs & Hc & He & Hf & Hbad & Hgood).
      simpl in Hs, Hc, He, Hbad, Hgood.
      rewrite Herr in He. subst errs.
      exists rows. rewrite Hdb, Hs.
      split; [reflexivity|]. split; [exact Hf|].
      intros _. exists l. split; [reflexivity|].
      assert (Hall : Forall (fun v => v = true) (bulk_verdicts now db l)).
      { apply all_true_no_false. intros k Hk.
        destruct (Hbad k Hk) as [msg []]. }
      split; [exact Hne|]. apply Hgood; exact Hall.
Qed.

Lemma creation_always_pending_witness :
  succeeded
    (fst (create_roster_entry 100 1
            (Json.mk (Some 7) (Some 1) (Some "2024-03-01") (Some 8%Q) None
                     None (Some "approved") (Some 1) (Some "2024-02-28"))
            Sample.empty_db)) = true
  /\ exists rows,
       snd (create_roster_entry 100 1
              (Json.mk (Some 7) (Some 1) (Some "2024-03-01") (Some 8%Q) None
                       None (Some "approved") (Some 1) (Some "2024-02-28"))
              Sample.empty_db)
       = with_shift_roster Sample.empty_db
           (shift_roster Sample.empty_db ++ rows)
       /\ Forall fresh_pending rows.
Proof.
  split; [reflexivity|].
  destruct (proj1 (creation_always_pending 100 1 Sample.empty_db)
              (Json.mk (Some 7) (Some 1) (Some "2024-03-01") (Some 8%Q) None
                       None (Some "approved") (Some 1) (Some "2024-02-28")))
    as (rows & Hdb & Hfresh & _).
  exists rows. split; assumption.
Defined.

(** ** Duplicates inside a batch *)

Lemma bulk_loop_app (now : Z) (l1 l2 : list Json.t) :
  forall (i : nat) (st : bulk_state),
    bulk_loop now i (l1 ++ l2) st
    = bulk_loop now (i + List.length l1) l2 (bulk_loop now i l1 st).
Proof.
  induction l1 as [|x l1 IH]; intros i st; simpl.
  - rewrite Nat.add_0_r. reflexivity.
  - rewrite IH. f_equal. lia.
Qed.

Lemma bulk_loop_grows (now : Z) (i : nat) (entries : list Json.t)
  (st : bulk_state) : grows st (bulk_loop now i entries st).
Proof.
  destruct (bulk_loop_spec now entries i st)
    as (rows & errs & Hs & _ & He & _).
  split; eauto.
Qed.

Lemma bulk_iteration_grows (now : Z) (i : nat) (entry_data : Json.t)
  (st : bulk_state) : grows st (bulk_iteration now i entry_data st).
Proof. apply (bulk_loop_grows now i [entry_data] st). Qed.

Lemma grows_errors (st st' : bulk_state) (x : string) :
  grows st st' -> In x (errors st) -> In x (errors st').
Proof.
  intros [_ [errs ->]] H. apply in_or_app. left. exact H.
Qed.

Lemma grows_users (st st' : bulk_state) (pk : Z) :
  grows st st' -> User_get (session st') pk = User_get (session st) pk.
Proof. intros [[rows ->] _]. reflexivity. Qed.

Lemma grows_shifts (st st' : bulk_state) (pk : Z) :
  grows st st' -> Shift_get (session st') pk = Shift_get (session st) pk.
Proof. intros [[rows ->] _]. reflexivity. Qed.

Lemma grows_existing (st st' : bulk_state) (e : Z) (d : Date.t)
  (r : ShiftRoster.t) :
  grows st st' ->
  existing_entry (session st) e d = Some r ->
  existing_entry (session st') e d = Some r.
Proof.
  intros [[rows ->] _] H. unfold existing_entry in *. simpl.
  apply find_app_some. exact H.
Qed.

Lemma find_app_last {A : Type} (f : A -> bool) (l : list A) (x : A) :
  f x = true -> exists y, find f (l ++ [x]) = Some y.
Proof.
  intros Hx. induction l as [|z l IH]; simpl.
  - rewrite Hx. eauto.
  - destruct (f z); eauto.
Qed.

(** After an entry is added, its employee is booked on its date. *)
Lemma bulk_entry_books (now : Z) (entry_data : Json.t) (db db' : database)
  (row : ShiftRoster.t) (e : Z) (ds : string) (d : Date.t) :
  bulk_entry now entry_data db = Next (row, db') ->
  Json.employee_id entry_data = Some e ->
  Json.date entry_data = Some ds ->
  Date.strptime ds = Some d ->
  exists r, existing_entry db' e d = Some r.
Proof.
  unfold bulk_entry, getitem, session_add. intros H He Hds Hd.
  rewrite He, Hds, Hd in H.
  destruct (User_get db e); [|discriminate].
  destruct (Json.shift_id entry_data); [|discriminate].
  destruct (Shift_get db z); [|discriminate].
  destruct (existing_entry db e d); [discriminate|].
  destruct (Json.hours entry_data); [|discriminate].
  inversion H; subst. unfold existing_entry; simpl.
  apply find_app_last. simpl. rewrite Z.eqb_refl, Date_eqb_refl. reflexivity.
Qed.

(** An entry that passes the other checks is refused only for a booking. *)
Lemma bulk_entry_refused (now : Z) (entry_data : Json.t) (db : database)
  (msg : string) (e s : Z) (ds : string) (d : Date.t) (h : Q) :
  bulk_entry now entry_data db = Stop msg ->
  Json.employee_id entry_data = Some e ->
  Json.shift_id entry_data = Some s ->
  Json.date entry_data = Some ds ->
  Json.hours entry_data = Some h ->
  Date.strptime ds = Some d ->
  User_get db e <> None ->
  Shift_get db s <> None ->
  exists r, existing_entry db e d = Some r.
Proof.
  unfold bulk_entry, getitem. intros H He Hs Hds Hh Hd Hu Hsh.
  rewrite He, Hs, Hds, Hh, Hd in H.
  destruct (User_get db e); [|contradiction].
  destruct (Shift_get db s); [|contradiction].
  destruct (existing_entry db e d); [eauto | discriminate].
Qed.

(** An entry for a booked employee and date is refused, and for the
    booking when it passes the checks that come first. *)
Lemma bulk_entry_busy (now : Z) (entry_data : Json.t) (db : database)
  (e : Z) (ds : string) (d : Date.t) (r : ShiftRoster.t) :
  existing_entry db e d = Some r ->
  Json.employee_id entry_data = Some e ->
  Json.date entry_data = Some ds ->
  Date.strptime ds = Some d ->
  exists msg,
    bulk_entry now entry_data db = Stop msg
    /\ forall s,
         User_get db e <> None ->
         Json.shift_id entry_data = Some s ->
         Shift_get db s <> None ->
         msg = "Employee already scheduled for this date".
Proof.
  unfold bulk_entry, getitem. intros Hr He Hds Hd.
  rewrite He, Hds, Hd, Hr.
  destruct (User_get db e).
  2:{ eexists. split; [reflexivity|]. intros s Hu. contradiction. }
  destruct (Json.shift_id entry_data) as [s|].
  2:{ eexists. split; [reflexivity|]. intros s _ Hs. discriminate. }
  destruct (Shift_get db s) eqn:Hsh.
  2:{ eexists. split; [reflexivity|]. intros s' _ Hs Hs'.
      inversion Hs; subst. contradiction. }
  eexists. split; reflexivity.
Qed.

Lemma bulk_iteration_stop (now : Z) (i : nat) (entry_data : Json.t)
  (st : bulk_state) (msg : string) :
  bulk_entry now entry_data (session st) = Stop msg ->
  session (bulk_iteration now i entry_data st) = session st
  /\ In (entry_error i msg) (errors (bulk_iteration now i entry_data st)).
Proof.
  intros H. unfold bulk_iteration. rewrite H. simpl. split; [reflexivity|].
  apply in_or_app. right. left. reflexivity.
Qed.

Lemma bulk_iteration_next (now : Z) (i : nat) (entry_data : Json.t)
  (st : bulk_state) (row : ShiftRoster.t) (db' : database) :
  bulk_entry now entry_data (session st) = Next (row, db') ->
  session (bulk_iteration now i entry_data st) = db'.
Proof.
  intros H. unfold bulk_iteration. rewrite H. reflexivity.
Qed.

(** C7 -- In-batch duplicate detection. In one createRosterEntriesBulk
    request of a Manager or Admin principal, if the entries at list indices
    i < j (positions i+1 and j+1) name the same employee and dates that
    parse to the same day, the whole batch is rejected and nothing is
    persisted; when entry i passes the field, employee and shift checks
    and entry j names an existing shift, the duplicate-scheduling error
    is reported at position j+1: the check of entry j sees the row that
    entry i added to the session. *)
Theorem bulk_in_batch_duplicate (now uid : Z) (entries : list Json.t)
  (db : database) (i j : nat) (ei ej : Json.t) (e : Z) (dsi dsj : string)
  (d : Date.t) :
  is_manager db uid = true ->
  (i < j)%nat ->
  nth_error entries i = Some ei ->
  nth_error entries j = Some ej ->
  Json.employee_id ei = Some e ->
  Json.employee_id ej = Some e ->
  Json.date ei = Some dsi ->
  Json.date ej = Some dsj ->
  Date.strptime dsi = Some d ->
  Date.strptime dsj = Some d ->
  snd (create_bulk_roster now uid (Some entries) db) = db
  /\ exists errs,
       fst (create_bulk_roster now uid (Some entries) db)
       = (error_list "Some entries could not be created" errs, 400)
       /\ forall si hi sj,
            User_get db e <> None ->
            Json.shift_id ei = Some si ->
            Shift_get db si <> None ->
            Json.hours ei = Some hi ->
            Json.shift_id ej = Some sj ->
            Shift_get db sj <> None ->
            In ("Entry " ++ str (j + 1)
                ++ ": Employee already scheduled for this date") errs.
Proof.
  intros Hman Hij Hi Hj Hei Hej Hdi Hdj Hpi Hpj.
  destruct (nth_error_split entries i Hi) as (l1 & l2 & Hsplit & Hlen1).
  assert (Hj' : nth_error l2 (j - i - 1) = Some ej).
  { rewrite Hsplit in Hj. rewrite nth_error_app2 in Hj by lia.
    rewrite Hlen1 in Hj. replace (j - i)%nat with (S (j - i - 1)) in Hj by lia.
    exact Hj. }
  destruct (nth_error_split l2 (j - i - 1) Hj') as (m1 & m2 & Hsplit2 & Hlen2).
  set (st0 := mk_bulk db [] []).
  set (st1 := bulk_loop now 0 l1 st0).
  set (st2 := bulk_iteration now i ei st1).
  set (st3 := bulk_loop now (S i) m1 st2).
  set (st4 := bulk_iteration now j ej st3).
  set (st5 := bulk_loop now (S j) m2 st4).
  assert (Hfinal : bulk_loop now 0 entries st0 = st5).
  { rewrite Hsplit, Hsplit2. rewrite bulk_loop_app. simpl.
    rewrite bulk_loop_app. simpl. rewrite Hlen1, Hlen2.
    replace (S (i + (j - i - 1)))%nat with j by lia. reflexivity. }
  assert (G01 : grows st0 st1) by apply bulk_loop_grows.
  assert (G12 : grows st1 st2) by apply bulk_iteration_grows.
  assert (G23 : grows st2 st3) by apply bulk_loop_grows.
  assert (G34 : grows st3 st4) by apply bulk_iteration_grows.
  assert (G45 : grows st4 st5) by apply bulk_loop_grows.
  (* what entry i leaves behind: an error, or a booking of (e, d) *)
  assert (Hafter_i :
            (exists msg, In (entry_error i msg) (errors st2))
            \/ exists r, existing_entry (session st2) e d = Some r).
  { destruct (bulk_entry now ei (session st1)) as [[row db']|msg] eqn:Hbody.
    - right. unfold st2.
      rewrite (bulk_iteration_next now i ei st1 row db' Hbody).
      eapply bulk_entry_books; eauto.
    - left. exists msg.
      apply (bulk_iteration_stop now i ei st1 msg Hbody). }
  (* hence the list of errors is not empty at the end *)
  assert (Herr : exists x, In x (errors st5)).
  { destruct Hafter_i as [[msg Hmsg] | [r Hr]].
    - exists (entry_error i msg).
      apply (grows_errors st4 st5), (grows_errors st3 st4),
        (grows_errors st2 st3); assumption.
    - apply (grows_existing st2 st3) in Hr; [|exact G23].
      destruct (bulk_entry_busy now ej (session st3) e dsj d r Hr Hej Hdj Hpj)
        as (msg & Hstop & _).
      exists (entry_error j msg). apply (grows_errors st4 st5); [exact G45|].
      apply (bulk_iteration_stop now j ej st3 msg Hstop). }
  destruct entries as [|entry_data rest]; [destruct i; discriminate|].
  rewrite (create_bulk_roster_authorised now uid entry_data rest db Hman).
  fold st0. rewrite Hfinal.
  destruct (errors st5) as [|err errs] eqn:Herrs.
  { destruct Herr as [x []]. }
  split; [reflexivity|]. eexists. split; [reflexivity|].
  intros si hi sj Hu Hsi Hshi Hhi Hsj Hshj.
  rewrite <- Herrs.
  assert (Hu1 : User_get (session st1) e <> None).
  { rewrite (grows_users st0 st1) by exact G01. exact Hu. }
  assert (Hs1 : Shift_get (session st1) si <> None).
  { rewrite (grows_shifts st0 st1) by exact G01. exact Hshi. }
  assert (Hbooked : exists r, existing_entry (session st2) e d = Some r).
  { destruct (bulk_entry now ei (session st1)) as [[row db']|msg] eqn:Hbody.
    - unfold st2. rewrite (bulk_iteration_next now i ei st1 row db' Hbody).
      eapply bulk_entry_books; eauto.
    - destruct (bulk_iteration_stop now i ei st1 msg Hbody) as [Hsame _].
      unfold st2. rewrite Hsame.
      eapply bulk_entry_refused; eauto. }
  destruct Hbooked as [r Hr].
  apply (grows_existing st2 st3) in Hr; [|exact G23].
  destruct (bulk_entry_busy now ej (session st3) e dsj d r Hr Hej Hdj Hpj)
    as (msg & Hstop & Hmsg).
  assert (Hu3 : User_get (session st3) e <> None).
  { rewrite (grows_users st2 st3), (grows_users st1 st2) by assumption.
    exact Hu1. }
  assert (Hs3 : Shift_get (session st3) sj <> None).
  { rewrite (grows_shifts st2 st3), (grows_shifts st1 st2),
      (grows_shifts st0 st1) by assumption. exact Hshj. }
  specialize (Hmsg sj Hu3 Hsj Hs3). subst msg.
  apply (grows_errors st4 st5); [exact G45|].
  apply (bulk_iteration_stop now j ej st3 _ Hstop).
Qed.

Lemma bulk_in_batch_duplicate_witness :
  (is_manager Sample.empty_db 1 = true
   /\ (0 < 2)%nat
   /\ nth_error Batch.repeated 0 = Some (Sample.entry 7 1 "2024-03-01")
   /\ nth_error Batch.repeated 2 = Some (Sample.entry 7 2 "2024-3-1")
   /\ Date.strptime "2024-03-01" = Some Sample.march_1
   /\ Date.strptime "2024-3-1" = Some Sample.march_1)
  /\ snd (create_bulk_roster 100 1 (Some Batch.repeated) Sample.empty_db)
     = Sample.empty_db
  /\ exists errs,
       fst (create_bulk_roster 100 1 (Some Batch.repeated) Sample.empty_db)
       = (error_list "Some entries could not be created" errs, 400)
       /\ In "Entry 3: Employee already scheduled for this date" errs.
Proof.
  split.
  { repeat split; try reflexivity. apply le_S, le_n. }
  destruct (bulk_in_batch_duplicate 100 1 Batch.repeated Sample.empty_db
              0 2 (Sample.entry 7 1 "2024-03-01")
              (Sample.entry 7 2 "2024-3-1") 7 "2024-03-01" "2024-3-1"
              Sample.march_1 eq_refl (le_S _ _ (le_n 1)) eq_refl eq_refl
              eq_refl eq_refl eq_refl eq_refl eq_refl eq_refl)
    as (Hdb & errs & Hresp & Hdup).
  split; [exact Hdb|]. exists errs. split; [exact Hresp|].
  apply (Hdup 1 8%Q 2); try reflexivity; discriminate.
Defined.

(** ** Rows by primary key, across writes *)

Lemma get_append (db : database) (rows : list ShiftRoster.t) (pk : Z)
  (r : ShiftRoster.t) :
  ShiftRoster_get db pk = Some r ->
  ShiftRoster_get (with_shift_roster db (shift_roster db ++ rows)) pk = Some r.
Proof.
  unfold ShiftRoster_get; simpl. apply find_app_some.
Qed.

Lemma get_update_same (db : database) (obj r : ShiftRoster.t) (pk : Z) :
  ShiftRoster_get db pk = Some r ->
  ShiftRoster.id obj = pk ->
  ShiftRoster_get (session_update obj db) pk = Some obj.
Proof.
  unfold ShiftRoster_get, session_update; simpl. intros H Hid. subst pk.
  induction (shift_roster db) as [|x l IH]; simpl in *; [discriminate|].
  destruct (ShiftRoster.id x =? ShiftRoster.id obj) eqn:E.
  - rewrite Z.eqb_refl. reflexivity.
  - rewrite E. auto.
Qed.

Lemma get_update_other (db : database) (obj : ShiftRoster.t) (pk : Z) :
  ShiftRoster.id obj <> pk ->
  ShiftRoster_get (session_update obj db) pk = ShiftRoster_get db pk.
Proof.
  unfold ShiftRoster_get, session_update; simpl. intros Hid.
  induction (shift_roster db) as [|x l IH]; simpl; [reflexivity|].
  destruct (ShiftRoster.id x =? ShiftRoster.id obj) eqn:E.
  - apply Z.eqb_eq in E.
    assert (E1 : (ShiftRoster.id obj =? pk) = false) by (apply Z.eqb_neq; auto).
    assert (E2 : (ShiftRoster.id x =? pk) = false)
      by (apply Z.eqb_neq; congruence).
    rewrite E1, E2. exact IH.
  - destruct (ShiftRoster.id x =? pk); [reflexivity | exact IH].
Qed.

Lemma get_delete_same (db : database) (obj : ShiftRoster.t) :
  ShiftRoster_get (session_delete obj db) (ShiftRoster.id obj) = None.
Proof.
  unfold ShiftRoster_get, session_delete; simpl.
  induction (shift_roster db) as [|x l IH]; simpl; [reflexivity|].
  destruct (ShiftRoster.id x =? ShiftRoster.id obj) eqn:E; simpl.
  - exact IH.
  - rewrite E. exact IH.
Qed.

Lemma get_delete_other (db : database) (obj : ShiftRoster.t) (pk : Z) :
  ShiftRoster.id obj <> pk ->
  ShiftRoster_get (session_delete obj db) pk = ShiftRoster_get db pk.
Proof.
  unfold ShiftRoster_get, session_delete; simpl. intros Hid.
  induction (shift_roster db) as [|x l IH]; simpl; [reflexivity|].
  destruct (ShiftRoster.id x =? ShiftRoster.id obj) eqn:E; simpl.
  - apply Z.eqb_eq in E.
    assert (E2 : (ShiftRoster.id x =? pk) = false)
      by (apply Z.eqb_neq; congruence).
    rewrite E2. exact IH.
  - destruct (ShiftRoster.id x =? pk); [reflexivity | exact IH].
Qed.

(** ** Update, delete and approve, case by case *)

Lemma update_roster_entry_cases (uid rid : Z) (data : Json.t)
  (db : database) :
  (snd (update_roster_entry uid rid data db) = db
   /\ succeeded (fst (update_roster_entry uid rid data db)) = false)
  \/ exists r r',
       ShiftRoster_get db rid = Some r
       /\ update_roster_entry uid rid data db
          = ((roster_entry_doc "Roster entry updated successfully" r', 200),
             session_update r' db)
       /\ ShiftRoster.id r' = ShiftRoster.id r
       /\ ShiftRoster.employee_id r'
          = match Json.employee_id data with
            | Some v => v
            | None => ShiftRoster.employee_id r
            end
       /\ ShiftRoster.shift_id r'
          = match Json.shift_id data with
            | Some v => v
            | None => ShiftRoster.shift_id r
            end
       /\ match Json.date data with
          | Some v => Date.strptime v = Some (ShiftRoster.date r')
          | None => ShiftRoster.date r' = ShiftRoster.date r
          end
       /\ ShiftRoster.hours r'
          = match Json.hours data with
            | Some v => v
            | None => ShiftRoster.hours r
            end
       /\ ShiftRoster.notes r'
          = match Json.notes data with
            | Some v => v
            | None => ShiftRoster.notes r
            end
       /\ ShiftRoster.status r' = ShiftRoster.status r
       /\ ShiftRoster.approved_by r' = ShiftRoster.approved_by r
       /\ ShiftRoster.approved_at r' = ShiftRoster.approved_at r
       /\ ShiftRoster.created_at r' = ShiftRoster.created_at r.
Proof.
  unfold update_roster_entry, finish, raising.
  destruct (current_user_role db uid) as [cur|];
    [|left; split; reflexivity].
  destruct (contains_str managers (snd cur)); [|left; split; reflexivity].
  destruct (ShiftRoster_get db rid) as [r|]; [|left; split; reflexivity].
  destruct (Json.employee_id data) as [e|];
    [destruct (User_get db e); [|left; split; reflexivity]|];
    (destruct (Json.shift_id data) as [s|];
     [destruct (Shift_get db s); [|left; split; reflexivity]|]);
    (destruct (Json.date data) as [ds|];
     [destruct (Date.strptime ds) eqn:Hd; [|left; split; reflexivity]|]);
    right; exists r; eexists; (split; [reflexivity|]);
    (split; [reflexivity|]);
    destruct (Json.hours data), (Json.notes data); simpl;
    repeat split; auto.
Qed.

Lemma delete_roster_entry_cases (uid rid : Z) (db : database) :
  (snd (delete_roster_entry uid rid db) = db
   /\ succeeded (fst (delete_roster_entry uid rid db)) = false)
  \/ exists r,
       ShiftRoster_get db rid = Some r
       /\ delete_roster_entry uid rid db
          = ((message "Roster entry deleted successfully", 200),
             session_delete r db).
Proof.
  unfold delete_roster_entry, finish, raising.
  repeat break_match; try (left; split; reflexivity).
  right. eexists. split; reflexivity.
Qed.

Lemma approve_roster_entry_cases (now uid rid : Z) (data : Json.t)
  (db : database) :
  (snd (approve_roster_entry now uid rid data db) = db
   /\ succeeded (fst (approve_roster_entry now uid rid data db)) = false)
  \/ exists r r' action,
       ShiftRoster_get db rid = Some r
       /\ Json.action data = Some action
       /\ approve_roster_entry now uid rid data db
          = ((roster_entry_doc ("Roster entry " ++ action ++ "d successfully")
                               r', 200),
             session_update r' db)
       /\ ShiftRoster.id r' = ShiftRoster.id r.
Proof.
  unfold approve_roster_entry, finish, raising.
  destruct (current_user_role db uid) as [cur|];
    [|left; split; reflexivity].
  destruct (contains_str managers (snd cur)); [|left; split; reflexivity].
  destruct (ShiftRoster_get db rid) as [r|]; [|left; split; reflexivity].
  destruct (Json.action data) as [action|]; [|left; split; reflexivity].
  destruct (contains_str ["approve"; "reject"] action);
    [|left; split; reflexivity].
  right. exists r. eexists. exists action.
  split; [reflexivity|]. split; [reflexivity|]. split; [reflexivity|].
  destruct (Json.notes data); reflexivity.
Qed.

(** Both creations only append rows to the roster. *)
Lemma creation_appends (rq : request) (db : database) :
  (exists now uid data, rq = CreateRosterEntry now uid data)
  \/ (exists now uid entries, rq = CreateBulkRoster now uid entries) ->
  exists rows,
    snd (handle rq db) = with_shift_roster db (shift_roster db ++ rows).
Proof.
  intros [(now & uid & data & ->) | (now & uid & entries & ->)]; simpl.
  - destruct (create_roster_entry_cases now uid data db)
      as [[Hsame _] | (e & s & ds & d & h & _ & _ & _ & _ & _ & _ & Heq)].
    + exists []. rewrite Hsame, with_shift_roster_nil. reflexivity.
    + rewrite Heq. eexists. reflexivity.
  - destruct (create_bulk_roster_cases now uid entries db)
      as [[Hsame _] | (l & _ & _ & _ & Hdb & _)].
    + exists []. rewrite Hsame, with_shift_roster_nil. reflexivity.
    + destruct (bulk_loop_spec now l 0 (mk_bulk db [] []))
        as (rows & errs & Hs & _).
      exists rows. rewrite Hdb, Hs. reflexivity.
Qed.

(** C4 -- Approve/reject contract. For an existing roster entry and a
    Manager or Admin principal: action approve (resp. reject) sets the
    status to approved (resp. rejected), the approver to the id of the
    principal and approved-at to the current time, overwrites the notes
    exactly when notes are supplied, and leaves the other columns and the
    other entries as they were; any other action, or none, fails with the
    400 action error and leaves the database unchanged. *)
Theorem approve_roster_entry_contract (now uid rid : Z) (data : Json.t)
  (db : database) (r : ShiftRoster.t) :
  is_manager db uid = true ->
  ShiftRoster_get db rid = Some r ->
  (forall action,
      Json.action data = Some action ->
      action = "approve" \/ action = "reject" ->
      exists r',
        fst (approve_roster_entry now uid rid data db)
        = (roster_entry_doc ("Roster entry " ++ action ++ "d successfully") r',
           200)
        /\ ShiftRoster_get (snd (approve_roster_entry now uid rid data db)) rid
           = Some r'
        /\ (action = "approve" -> ShiftRoster.status r' = "approved")
        /\ (action = "reject" -> ShiftRoster.status r' = "rejected")
        /\ ShiftRoster.approved_by r' = Some uid
        /\ ShiftRoster.approved_at r' = Some now
        /\ ShiftRoster.notes r'
           = match Json.notes data with
             | Some v => v
             | None => ShiftRoster.notes r
             end
        /\ ShiftRoster.id r' = ShiftRoster.id r
        /\ ShiftRoster.employee_id r' = ShiftRoster.employee_id r
        /\ ShiftRoster.shift_id r' = ShiftRoster.shift_id r
        /\ ShiftRoster.date r' = ShiftRoster.date r
        /\ ShiftRoster.hours r' = ShiftRoster.hours r
        /\ ShiftRoster.created_at r' = ShiftRoster.created_at r
        /\ forall pk, pk <> rid ->
             ShiftRoster_get (snd (approve_roster_entry now uid rid data db)) pk
             = ShiftRoster_get db pk)
  /\ ((forall action, Json.action data = Some action ->
                      action <> "approve" /\ action <> "reject") ->
      approve_roster_entry now uid rid data db
      = ((error action_error, 400), db)).
Proof.
  intros Hman Hr.
  apply is_manager_role in Hman. destruct Hman as (cur & Hcur & Hrole & Hid).
  pose proof (ShiftRoster_get_id db rid r Hr) as Hrid.
  split.
  - intros action Hact Hcase.
    unfold approve_roster_entry, finish, raising.
    rewrite Hcur, Hrole, Hr, Hact.
    assert (Hin : contains_str ["approve"; "reject"] action = true)
      by (destruct Hcase; subst; reflexivity).
    rewrite Hin, Hid. cbv beta iota zeta.
    eexists. split; [reflexivity|]. cbn [snd].
    split.
    { eapply get_update_same; [exact Hr|].
      destruct (Json.notes data); exact Hrid. }
    split. { intros ->. destruct (Json.notes data); reflexivity. }
    split. { intros ->. destruct (Json.notes data); reflexivity. }
    destruct (Json.notes data); simpl; repeat split; auto;
      intros pk Hpk; apply get_update_other; simpl; congruence.
  - intros Hother.
    unfold approve_roster_entry, finish, raising.
    rewrite Hcur, Hrole, Hr.
    destruct (Json.action data) as [action|]; [|reflexivity].
    destruct (Hother action eq_refl) as [Ha Hb].
    assert (Hin : contains_str ["approve"; "reject"] action = false).
    { unfold contains_str; simpl.
      destruct (String.eqb_spec action "approve"); [contradiction|].
      destruct (String.eqb_spec action "reject"); [contradiction|].
      reflexivity. }
    rewrite Hin. reflexivity.
Qed.

Lemma approve_roster_entry_contract_witness :
  is_manager Terminal.db 2 = true
  /\ ShiftRoster_get Terminal.db 1
     = Some (ShiftRoster.mk 1 7 1 Sample.march_1 8 "approved" (Some 1)
                            (Some 150) "" 100)
  /\ approve_roster_entry 200 2 1 Payload.empty Terminal.db
     = ((error action_error, 400), Terminal.db).
Proof.
  split; [reflexivity|]. split; [reflexivity|].
  apply (proj2 (approve_roster_entry_contract 200 2 1 Payload.empty
                  Terminal.db _ eq_refl eq_refl)).
  intros action H. discriminate H.
Defined.

(** C8 -- Update frame property. A successful updateRosterEntry of an
    existing entry sets the supplied fields among employee id, shift id,
    date, hours and notes to the supplied values; every unsupplied field
    keeps its value; status, approver, approved-at, the id and the creation
    time are never changed, whatever the request holds; the other entries
    and the other tables are untouched. *)
Theorem update_roster_entry_frame (uid rid : Z) (data : Json.t)
  (db : database) (r : ShiftRoster.t) :
  ShiftRoster_get db rid = Some r ->
  succeeded (fst (update_roster_entry uid rid data db)) = true ->
  exists r',
    fst (update_roster_entry uid rid data db)
    = (roster_entry_doc "Roster entry updated successfully" r', 200)
    /\ ShiftRoster_get (snd (update_roster_entry uid rid data db)) rid
       = Some r'
    /\ ShiftRoster.employee_id r'
       = match Json.employee_id data with
         | Some v => v
         | None => ShiftRoster.employee_id r
         end
    /\ ShiftRoster.shift_id r'
       = match Json.shift_id data with
         | Some v => v
         | None => ShiftRoster.shift_id r
         end
    /\ match Json.date data with
       | Some v => Date.strptime v = Some (ShiftRoster.date r')
       | None => ShiftRoster.date r' = ShiftRoster.date r
       end
    /\ ShiftRoster.hours r'
       = match Json.hours data with
         | Some v => v
         | None => ShiftRoster.hours r
         end
    /\ ShiftRoster.notes r'
       = match Json.notes data with
         | Some v => v
         | None => ShiftRoster.notes r
         end
    /\ ShiftRoster.status r' = ShiftRoster.status r
    /\ ShiftRoster.approved_by r' = ShiftRoster.approved_by r
    /\ ShiftRoster.approved_at r' = ShiftRoster.approved_at r
    /\ ShiftRoster.id r' = ShiftRoster.id r
    /\ ShiftRoster.created_at r' = ShiftRoster.created_at r
    /\ (forall pk, pk <> rid ->
          ShiftRoster_get (snd (update_roster_entry uid rid data db)) pk
          = ShiftRoster_get db pk)
    /\ exists l,
         snd (update_roster_entry uid rid data db) = with_shift_roster db l
         /\ List.length l = List.length (shift_roster db).
Proof.
  intros Hr Hok.
  pose proof (ShiftRoster_get_id db rid r Hr) as Hrid.
  destruct (update_roster_entry_cases uid rid data db)
    as [[_ Hfail]
       | (r0 & r' & Hr0 & Heq & Hid & He & Hs & Hd & Hh & Hn & Hst & Hby
          & Hat & Hcr)].
  { rewrite Hfail in Hok. discriminate. }
  rewrite Hr in Hr0. inversion Hr0; subst r0.
  exists r'. rewrite Heq. cbn [fst snd].
  split; [reflexivity|].
  split. { eapply get_update_same; [exact Hr | congruence]. }
  repeat (split; [assumption|]).
  split. { intros pk Hpk. apply get_update_other. congruence. }
  eexists. split; [reflexivity|]. apply length_map.
Qed.

Lemma update_roster_entry_frame_witness :
  ShiftRoster_get Terminal.db 1
  = Some (ShiftRoster.mk 1 7 1 Sample.march_1 8 "approved" (Some 1)
                         (Some 150) "" 100)
  /\ succeeded
       (fst (update_roster_entry 2 1
               (Json.mk None (Some 2) None None (Some "swap") None
                        (Some "pending") (Some 9) None) Terminal.db)) = true
  /\ exists r',
       ShiftRoster_get
         (snd (update_roster_entry 2 1
                 (Json.mk None (Some 2) None None (Some "swap") None
                          (Some "pending") (Some 9) None) Terminal.db)) 1
       = Some r'
       /\ ShiftRoster.shift_id r' = 2
       /\ ShiftRoster.status r' = "approved"
       /\ ShiftRoster.approved_by r' = Some 1.
Proof.
  split; [reflexivity|]. split; [reflexivity|].
  destruct (update_roster_entry_frame 2 1
              (Json.mk None (Some 2) None None (Some "swap") None
                       (Some "pending") (Some 9) None) Terminal.db
              _ eq_refl eq_refl)
    as (r' & _ & Hget & _ & Hs & _ & _ & _ & Hst & Hby & _).
  exists r'. repeat split; assumption.
Defined.

(** C3, as stated, fails: a roster entry approved by user 1 at time 150 is
    rejected by user 2 at time 200; the second setRosterEntryStatus
    succeeds and changes status, approver and approved-at. *)
Lemma approve_overwrites_terminal :
  ShiftRoster_get Terminal.db 1
  = Some (ShiftRoster.mk 1 7 1 Sample.march_1 8 "approved" (Some 1)
                         (Some 150) "" 100)
  /\ succeeded
       (fst (approve_roster_entry 200 2 1 Terminal.reject Terminal.db)) = true
  /\ ShiftRoster_get
       (snd (approve_roster_entry 200 2 1 Terminal.reject Terminal.db)) 1
     = Some (ShiftRoster.mk 1 7 1 Sample.march_1 8 "rejected" (Some 2)
                            (Some 200) "" 100).
Proof. repeat split. Qed.

(** C3, amended -- The approval columns change only through
    setRosterEntryStatus, which has no guard on the current status. Every
    other operation (createRosterEntry, createRosterEntriesBulk,
    updateRosterEntry, deleteRosterEntry, or setRosterEntryStatus on another
    entry) leaves the status, approver and approved-at of an existing entry
    as they were, the entry being gone only after its own deletion; an
    approve or reject by a Manager or Admin principal on an entry in any
    status, approved and rejected included, succeeds and overwrites the
    three columns. *)
Theorem status_changes_only_by_approval (rq : request) (db : database)
  (pk : Z) (r : ShiftRoster.t) :
  ShiftRoster_get db pk = Some r ->
  ((forall now uid data, rq <> ApproveRosterEntry now uid pk data) ->
   match ShiftRoster_get (snd (handle rq db)) pk with
   | Some r' =>
       ShiftRoster.status r' = ShiftRoster.status r
       /\ ShiftRoster.approved_by r' = ShiftRoster.approved_by r
       /\ ShiftRoster.approved_at r' = ShiftRoster.approved_at r
   | None => exists uid, rq = DeleteRosterEntry uid pk
   end)
  /\ (forall now uid data action,
         is_manager db uid = true ->
         Json.action data = Some action ->
         action = "approve" \/ action = "reject" ->
         exists r',
           succeeded (fst (approve_roster_entry now uid pk data db)) = true
           /\ ShiftRoster_get (snd (approve_roster_entry now uid pk data db)) pk
              = Some r'
           /\ ShiftRoster.status r'
              = (if String.eqb action "approve" then "approved"
                 else "rejected")
           /\ ShiftRoster.approved_by r' = Some uid
           /\ ShiftRoster.approved_at r' = Some now).
Proof.
  intros Hr. pose proof (ShiftRoster_get_id db pk r Hr) as Hpk.
  split.
  - intros Hother. destruct rq as [now uid data | now uid entries
                                   | uid rid data | uid rid
                                   | now uid rid data].
    + destruct (creation_appends (CreateRosterEntry now uid data) db)
        as [rows ->]; [left; eauto|].
      rewrite (get_append db rows pk r Hr). auto.
    + destruct (creation_appends (CreateBulkRoster now uid entries) db)
        as [rows ->]; [right; eauto|].
      rewrite (get_append db rows pk r Hr). auto.
    + simpl.
      destruct (update_roster_entry_cases uid rid data db)
        as [[-> _]
           | (r0 & r' & Hr0 & -> & Hid & _ & _ & _ & _ & _ & Hst & Hby
              & Hat & _)].
      { rewrite Hr. auto. }
      cbn [snd]. pose proof (ShiftRoster_get_id db rid r0 Hr0) as Hrid.
      destruct (Z.eq_dec rid pk) as [->|Hne].
      * rewrite Hr in Hr0. inversion Hr0; subst r0.
        rewrite (get_update_same db r' r pk Hr) by congruence. auto.
      * rewrite get_update_other by congruence. rewrite Hr. auto.
    + simpl.
      destruct (delete_roster_entry_cases uid rid db)
        as [[-> _] | (r0 & Hr0 & ->)].
      { rewrite Hr. auto. }
      cbn [snd]. pose proof (ShiftRoster_get_id db rid r0 Hr0) as Hrid.
      destruct (Z.eq_dec rid pk) as [->|Hne].
      * replace (ShiftRoster_get (session_delete r0 db) pk)
          with (@None ShiftRoster.t)
          by (rewrite <- Hrid; symmetry; apply get_delete_same).
        eauto.
      * rewrite get_delete_other by congruence. rewrite Hr. auto.
    + simpl.
      destruct (approve_roster_entry_cases now uid rid data db)
        as [[-> _] | (r0 & r' & action & Hr0 & _ & -> & Hid)].
      { rewrite Hr. auto. }
      cbn [snd]. pose proof (ShiftRoster_get_id db rid r0 Hr0) as Hrid.
      destruct (Z.eq_dec rid pk) as [->|Hne].
      * exfalso. apply (Hother now uid data). reflexivity.
      * rewrite get_update_other by congruence. rewrite Hr. auto.
  - intros now uid data action Hman Hact Hcase.
    apply is_manager_role in Hman. destruct Hman as (cur & Hcur & Hrole & Hid).
    unfold approve_roster_entry, finish, raising.
    rewrite Hcur, Hrole, Hr, Hact.
    assert (Hin : contains_str ["approve"; "reject"] action = true)
      by (destruct Hcase; subst; reflexivity).
    rewrite Hin, Hid. cbv beta iota zeta.
    eexists. split; [reflexivity|]. cbn [snd].
    split.
    { eapply get_update_same; [exact Hr|].
      destruct (Json.notes data); exact Hpk. }
    destruct (Json.notes data); repeat split.
Qed.

Lemma status_changes_only_by_approval_witness :
  ShiftRoster_get Terminal.db 1
  = Some (ShiftRoster.mk 1 7 1 Sample.march_1 8 "approved" (Some 1)
                         (Some 150) "" 100)
  /\ match
       ShiftRoster_get
         (snd (handle (UpdateRosterEntry 2 1 (Sample.entry 8 2 "2024-03-02"))
                      Terminal.db)) 1
     with
     | Some r' =>
         ShiftRoster.status r' = "approved"
         /\ ShiftRoster.approved_by r' = Some 1
         /\ ShiftRoster.approved_at r' = Some 150
     | None =>
         exists uid,
           UpdateRosterEntry 2 1 (Sample.entry 8 2 "2024-03-02")
           = DeleteRosterEntry uid 1
     end.
Proof.
  split; [reflexivity|].
  apply (proj1 (status_changes_only_by_approval
                  (UpdateRosterEntry 2 1 (Sample.entry 8 2 "2024-03-02"))
                  Terminal.db 1 _ eq_refl)).
  intros now uid data H. discriminate H.
Defined.

(** C9 -- Update does not re-validate the no-double-booking invariant.
    From the reference data with an empty roster, two creations give the
    entries A (employee 7) and B (employee 8) on the same day, with at most
    one entry per (employee, date); updating A's employee to 8 succeeds and
    leaves two rows with the same (employee, date). *)
Theorem update_can_double_book :
  exists (rqs : list request) (uid rid : Z) (data : Json.t)
         (a b : ShiftRoster.t),
    shift_roster Sample.empty_db = []
    /\ no_double_booking (run rqs Sample.empty_db)
    /\ succeeded
         (fst (update_roster_entry uid rid data (run rqs Sample.empty_db)))
       = true
    /\ shift_roster
         (snd (update_roster_entry uid rid data (run rqs Sample.empty_db)))
       = [a; b]
    /\ ShiftRoster.id a <> ShiftRoster.id b
    /\ ShiftRoster.employee_id a = ShiftRoster.employee_id b
    /\ ShiftRoster.date a = ShiftRoster.date b
    /\ ~ no_double_booking
         (snd (update_roster_entry uid rid data (run rqs Sample.empty_db))).
Proof.
  exists [CreateRosterEntry 100 1 (Sample.entry 7 1 "2024-03-01");
          CreateRosterEntry 101 1 (Sample.entry 8 2 "2024-03-01")].
  exists 2, 1, Listing.to_employee_eight.
  do 2 eexists.
  split; [reflexivity|]. split.
  { apply (create_roster_entry_keeps_invariant 101 1).
    apply (create_roster_entry_keeps_invariant 100 1).
    intros e d. apply Nat.le_0_l. }
  split; [reflexivity|]. split; [reflexivity|].
  split; [discriminate|]. split; [reflexivity|]. split; [reflexivity|].
  intros H. specialize (H 8 Sample.march_1).
  vm_compute in H. lia.
Qed.

(** ** The listing: join, order and filters *)

Lemma order_insert_perm (x : ShiftRoster.t * Shift.t)
  (l : list (ShiftRoster.t * Shift.t)) :
  Permutation (order_insert x l) (x :: l).
Proof.
  induction l as [|y l IH]; simpl; [reflexivity|].
  destruct (order_leb x y); [reflexivity|].
  rewrite IH. apply perm_swap.
Qed.

Lemma order_by_perm (l : list (ShiftRoster.t * Shift.t)) :
  Permutation (order_by l) l.
Proof.
  induction l as [|x l IH]; simpl; [reflexivity|].
  rewrite order_insert_perm. constructor. exact IH.
Qed.

Lemma join_shift_fst_in (db : database) (query : list ShiftRoster.t)
  (p : ShiftRoster.t * Shift.t) :
  In p (join_shift db query) -> In (fst p) query.
Proof.
  unfold join_shift. rewrite in_flat_map. intros (r & Hr & Hp).
  apply in_map_iff in Hp. destruct Hp as (s & <- & _). exact Hr.
Qed.

Lemma filter_key_unique (l : list Shift.t) (k : Z) :
  NoDup (map Shift.id l) -> In k (map Shift.id l) ->
  exists s, filter (fun y => Shift.id y =? k) l = [s].
Proof.
  induction l as [|x l IH]; simpl; intros Hnd Hin; [contradiction|].
  inversion Hnd as [|? ? Hx Hnd']; subst.
  destruct (Shift.id x =? k) eqn:E.
  - apply Z.eqb_eq in E. subst k. exists x. f_equal.
    destruct (filter _ l) as [|y rest] eqn:F; [reflexivity|].
    exfalso. apply Hx.
    assert (Hy : In y (filter (fun y => Shift.id y =? Shift.id x) l))
      by (rewrite F; left; reflexivity).
    apply filter_In in Hy. destruct Hy as [Hy Hk].
    apply Z.eqb_eq in Hk. rewrite <- Hk. apply in_map. exact Hy.
  - apply IH; [exact Hnd'|].
    destruct Hin as [Hin|Hin]; [|exact Hin].
    apply Z.eqb_neq in E. contradiction.
Qed.

Lemma join_shift_key (db : database) (query : list ShiftRoster.t) :
  NoDup (map Shift.id (shifts db)) ->
  (forall r, In r query ->
             In (ShiftRoster.shift_id r) (map Shift.id (shifts db))) ->
  map fst (join_shift db query) = query.
Proof.
  intros Hnd. induction query as [|r query IH]; intros Hall;
    [reflexivity|].
  unfold join_shift in *. simpl. rewrite map_app.
  destruct (filter_key_unique (shifts db) (ShiftRoster.shift_id r) Hnd)
    as [s Hs]; [apply Hall; left; reflexivity|].
  rewrite Hs. simpl. f_equal. apply IH.
  intros r' Hr'. apply Hall. right. exact Hr'.
Qed.

Lemma filter_and {A : Type} (f g : A -> bool) (l : list A) :
  filter f (filter g l) = filter (fun x => g x && f x) l.
Proof.
  induction l as [|x l IH]; simpl; [reflexivity|].
  destruct (g x); simpl; [destruct (f x)|]; rewrite ?IH; reflexivity.
Qed.

Lemma filter_option {A B : Type} (o : option B) (f : B -> A -> bool)
  (l : list A) :
  match o with Some v => filter (f v) l | None => l end
  = filter (fun x => match o with Some v => f v x | None => true end) l.
Proof.
  destruct o; [reflexivity|].
  induction l as [|x l IH]; simpl; [reflexivity|]. rewrite <- IH. reflexivity.
Qed.

Lemma managers_role (role : string) :
  contains_str managers role = true ->
  (if String.eqb role "Admin" then true
   else String.eqb role "Manager") = true.
Proof.
  unfold contains_str, managers; simpl.
  destruct (String.eqb role "Admin"); [reflexivity|].
  destruct (String.eqb role "Manager"); [reflexivity|]. discriminate.
Qed.

Lemma not_managers_role (role : string) :
  contains_str managers role = false ->
  String.eqb role "Admin" = false /\ String.eqb role "Manager" = false.
Proof.
  unfold contains_str, managers; simpl.
  destruct (String.eqb role "Admin"); [discriminate|].
  destruct (String.eqb role "Manager"); [discriminate|]. auto.
Qed.

Lemma filter_chain {A : Type} (f1 f2 f3 f4 f5 : A -> bool) (l : list A) :
  filter f5 (filter f4 (filter f3 (filter f2 (filter f1 l))))
  = filter (fun x => f1 x && f2 x && f3 x && f4 x && f5 x) l.
Proof.
  induction l as [|x l IH]; simpl; [reflexivity|].
  destruct (f1 x); simpl; [|exact IH].
  destruct (f2 x); simpl; [|exact IH].
  destruct (f3 x); simpl; [|exact IH].
  destruct (f4 x); simpl; [|exact IH].
  destruct (f5 x); simpl; [f_equal|]; exact IH.
Qed.

(** The five optional filters of [get_roster], applied in turn, select
    the rows that pass them all. *)
Lemma query_chain (args : Args.t) (sd ed : option Date.t)
  (base : list ShiftRoster.t) :
  (let query :=
     match sd with
     | Some d => filter (fun r => Date.leb d (ShiftRoster.date r)) base
     | None => base
     end in
   let query :=
     match ed with
     | Some d => filter (fun r => Date.leb (ShiftRoster.date r) d) query
     | None => query
     end in
   let query :=
     match truthy_int (Args.employee_id args) with
     | Some employee_id =>
         filter (fun r => ShiftRoster.employee_id r =? employee_id) query
     | None => query
     end in
   let query :=
     match truthy_int (Args.shift_id args) with
     | Some shift_id =>
         filter (fun r => ShiftRoster.shift_id r =? shift_id) query
     | None => query
     end in
   match truthy_str (Args.status args) with
   | Some status =>
       filter (fun r => String.eqb (ShiftRoster.status r) status) query
   | None => query
   end)
  = filter (passes_filters args sd ed) base.
Proof.
  cbv zeta.
  rewrite (filter_option sd (fun d r => Date.leb d (ShiftRoster.date r))).
  rewrite (filter_option ed (fun d r => Date.leb (ShiftRoster.date r) d)).
  rewrite (filter_option (truthy_int (Args.employee_id args))
             (fun e r => ShiftRoster.employee_id r =? e)).
  rewrite (filter_option (truthy_int (Args.shift_id args))
             (fun e r => ShiftRoster.shift_id r =? e)).
  rewrite (filter_option (truthy_str (Args.status args))
             (fun e r => String.eqb (ShiftRoster.status r) e)).
  apply filter_chain.
Qed.

(** The rows of a listing, for a base query and parsed date filters. *)
Lemma get_roster_result (uid : Z) (args : Args.t) (db : database)
  (cur : User.t * string) (sd ed : option Date.t) :
  current_user_role db uid = Next cur ->
  filter_date (Args.start_date args) = Some sd ->
  filter_date (Args.end_date args) = Some ed ->
  get_roster uid args db
  = (let roster_entries :=
       map fst
         (order_by
            (join_shift db
               (filter (passes_filters args sd ed)
                  (if String.eqb (snd cur) "Admin" then shift_roster db
                   else if String.eqb (snd cur) "Manager" then shift_roster db
                   else filter (fun r => ShiftRoster.employee_id r
                                         =? User.id (fst cur))
                               (shift_roster db))))) in
     (roster_doc roster_entries (List.length roster_entries), 200)).
Proof.
  intros Hcur Hsd Hed. unfold get_roster, raising. rewrite Hcur.
  set (base := if String.eqb (snd cur) "Admin" then shift_roster db
               else if String.eqb (snd cur) "Manager" then shift_roster db
               else filter _ (shift_roster db)).
  rewrite <- (query_chain args sd ed base).
  unfold filter_date in Hsd, Hed.
  destruct (truthy_str (Args.start_date args)) as [s|];
    [destruct (Date.strptime s); [|discriminate]|];
    inversion Hsd; subst sd;
    (destruct (truthy_str (Args.end_date args)) as [e|];
     [destruct (Date.strptime e); [|discriminate]|]);
    inversion Hed; subst ed; reflexivity.
Qed.

(** C5, as stated, fails: the administrator lists the roster with the
    employee-id filter 0; no entry belongs to an employee 0, yet both
    entries of the roster are returned, the filter being skipped. *)
Lemma get_roster_zero_filter_skipped :
  is_manager Listing.db 1 = true
  /\ Args.employee_id Listing.employee_zero = Some 0
  /\ get_roster 1 Listing.employee_zero Listing.db
     = (roster_doc
          [ShiftRoster.mk 1 7 1 Sample.march_1 8 "pending" None None "" 100;
           ShiftRoster.mk 2 8 2 Sample.march_1 8 "pending" None None "" 101]
          2, 200)
  /\ filter (fun r => ShiftRoster.employee_id r =? 0)
            (shift_roster Listing.db) = [].
Proof. repeat split. Qed.

(** C5, amended -- Visibility scoping of the roster listing. For a
    principal whose role is neither Admin nor Manager, every entry of the
    result is an entry of the roster whose employee id is the principal's
    own id, whatever the filters (an employee-id filter naming someone else
    included). For an Admin or Manager principal, on a database that
    satisfies the key constraints of the schema and with date filters that
    parse, the result is a rearrangement of exactly the roster entries, of
    all employees, that pass the filters in force, where a filter whose
    value is the id 0 or the empty string counts as not supplied. *)
Theorem get_roster_scoping (uid : Z) (args : Args.t) (db : database)
  (u : User.t) (role : string) :
  current_user_role db uid = Next (u, role) ->
  (contains_str managers role = false ->
   forall l n code,
     get_roster uid args db = (roster_doc l n, code) ->
     forall r, In r l ->
               In r (shift_roster db)
               /\ ShiftRoster.employee_id r = User.id u
               /\ User.id u = uid)
  /\ (contains_str managers role = true ->
      shift_key_ok db ->
      forall sd ed,
        filter_date (Args.start_date args) = Some sd ->
        filter_date (Args.end_date args) = Some ed ->
        exists l,
          get_roster uid args db = (roster_doc l (List.length l), 200)
          /\ Permutation l (filter (passes_filters args sd ed)
                                   (shift_roster db))).
Proof.
  intros Hcur.
  assert (Huid : User.id u = uid).
  { unfold current_user_role, get_current_user in Hcur.
    destruct (User_get db uid) as [u0|] eqn:Eu; [|discriminate].
    destruct (role_ref db u0); [|discriminate].
    inversion Hcur; subst. eapply User_get_id; eauto. }
  split.
  - intros Hrole l n code Hres r Hr.
    apply not_managers_role in Hrole. destruct Hrole as [Ha Hm].
    destruct (filter_date (Args.start_date args)) as [sd|] eqn:Hsd.
    2:{ unfold get_roster, raising, filter_date in *. rewrite Hcur in Hres.
        destruct (truthy_str (Args.start_date args)) as [s|]; [|discriminate].
        destruct (Date.strptime s); discriminate. }
    destruct (filter_date (Args.end_date args)) as [ed|] eqn:Hed.
    2:{ unfold get_roster, raising, filter_date in *. rewrite Hcur in Hres.
        destruct (truthy_str (Args.end_date args)) as [s|]; [|discriminate].
        destruct (Date.strptime s);
          [discriminate|].
        destruct (truthy_str (Args.start_date args)) as [s'|];
          [destruct (Date.strptime s')|]; discriminate. }
    rewrite (get_roster_result uid args db (u, role) sd ed Hcur Hsd Hed)
      in Hres.
    cbn [fst snd] in Hres. rewrite Ha, Hm in Hres. cbv zeta in Hres.
    inversion Hres; subst l.
    apply in_map_iff in Hr. destruct Hr as (p & <- & Hp).
    apply (Permutation_in _ (order_by_perm _)) in Hp.
    apply join_shift_fst_in in Hp.
    apply filter_In in Hp. destruct Hp as [Hp _].
    apply filter_In in Hp. destruct Hp as [Hin Hown].
    apply Z.eqb_eq in Hown. auto.
  - intros Hrole [Hnd Hfk] sd ed Hsd Hed.
    rewrite (get_roster_result uid args db (u, role) sd ed Hcur Hsd Hed).
    cbn [fst snd]. cbv zeta.
    eexists. split; [reflexivity|].
    assert (Hbase : (if String.eqb role "Admin" then shift_roster db
                     else if String.eqb role "Manager" then shift_roster db
                     else filter (fun r => ShiftRoster.employee_id r
                                           =? User.id u) (shift_roster db))
                    = shift_roster db).
    { apply managers_role in Hrole.
      destruct (String.eqb role "Admin"); [reflexivity|].
      rewrite Hrole. reflexivity. }
    rewrite Hbase.
    rewrite (Permutation_map fst (order_by_perm _)).
    rewrite join_shift_key; [reflexivity | exact Hnd |].
    intros r Hr. apply filter_In in Hr. apply Hfk. tauto.
Qed.

Lemma get_roster_scoping_witness :
  current_user_role Listing.db 7 = Next (User.mk 7 3, "Employee")
  /\ contains_str managers "Employee" = false
  /\ get_roster 7 Listing.employee_eight Listing.db = (roster_doc [] 0, 200)
  /\ forall r, In r (@nil ShiftRoster.t) ->
               In r (shift_roster Listing.db)
               /\ ShiftRoster.employee_id r = 7
               /\ 7 = 7.
Proof.
  split; [reflexivity|]. split; [reflexivity|]. split; [reflexivity|].
  exact (proj1 (get_roster_scoping 7 Listing.employee_eight Listing.db
                  (User.mk 7 3) "Employee" eq_refl)
           eq_refl [] 0%nat 200 eq_refl).
Defined.

(** ** The dashboard queries against their reference definitions *)

Lemma Date_leb_le (a b : Date.t) :
  Date.leb a b = true <-> Reference.le a b.
Proof.
  destruct a as [ya ma da], b as [yb mb db].
  unfold Date.leb, Date.ltb, Date.eqb, Reference.le; simpl.
  destruct (Z.ltb_spec ya yb), (Z.eqb_spec ya yb), (Z.ltb_spec ma mb),
    (Z.eqb_spec ma mb), (Z.ltb_spec da db), (Z.eqb_spec da db);
    simpl; split; intros; try discriminate; try reflexivity; lia.
Qed.

Lemma roster_in_range_selected (sd ed : Date.t) (status : string)
  (r : ShiftRoster.t) :
  roster_in_range sd ed status r = true <-> Reference.selected sd ed status r.
Proof.
  unfold roster_in_range, Reference.selected.
  rewrite !andb_true_iff, !Date_leb_le, String.eqb_eq. tauto.
Qed.

Lemma count_distinct_counts (column : list Z) (P : Z -> Prop) :
  (forall x, In x column <-> P x) ->
  Reference.counts P (count_distinct column).
Proof.
  intros H. exists (nodup Z.eq_dec column).
  split; [apply NoDup_nodup|]. split; [|reflexivity].
  intros x. rewrite nodup_In. apply H.
Qed.

Lemma row_count_filter (P : ShiftRoster.t -> Prop)
  (c : ShiftRoster.t -> bool) (rows : list ShiftRoster.t) :
  (forall r, c r = true <-> P r) ->
  Reference.row_count P rows (Z.of_nat (List.length (filter c rows))).
Proof.
  intros H. induction rows as [|r rows IH]; simpl; [constructor|].
  destruct (c r) eqn:E.
  - simpl List.length.
    replace (Z.of_nat (S (List.length (filter c rows))))
      with (Z.of_nat (List.length (filter c rows)) + 1) by lia.
    constructor; [apply H; exact E | exact IH].
  - apply Reference.count_out; [|exact IH].
    intros HP. apply H in HP. congruence.
Qed.

Lemma hours_column_filter (P : ShiftRoster.t -> Prop)
  (c : ShiftRoster.t -> bool) (rows : list ShiftRoster.t) :
  (forall r, c r = true <-> P r) ->
  Reference.hours_column P rows (map ShiftRoster.hours (filter c rows)).
Proof.
  intros H. induction rows as [|r rows IH]; simpl; [constructor|].
  destruct (c r) eqn:E; simpl.
  - constructor; [apply H; exact E | exact IH].
  - apply Reference.column_out; [|exact IH].
    intros HP. apply H in HP. congruence.
Qed.

(** [float(v or 0)] keeps the number: a zero becomes the integer 0 and
    then the float 0.0. *)
Lemma float_or_zero_some (q : Q) : (float_or_zero (Some q) == q)%Q.
Proof.
  simpl. destruct (Qeq_bool q 0) eqn:E; [|reflexivity].
  apply Qeq_bool_eq in E. rewrite E. reflexivity.
Qed.

Lemma float_or_zero_sql_sum (float_sum : list Q -> Q) (column : list Q) :
  column <> [] ->
  (float_or_zero (sql_sum float_sum column) == float_sum column)%Q.
Proof.
  destruct column as [|x rest]; [contradiction|]. intros _.
  apply float_or_zero_some.
Qed.

Lemma truthy_str_nonempty (s : string) :
  s <> "" -> truthy_str (Some s) = Some s.
Proof.
  intros H. simpl. destruct (String.eqb_spec s ""); [contradiction|].
  reflexivity.
Qed.

(** C6 -- Dashboard metrics equal the reference definitions. For a Manager
    or Admin principal and a range [start, end] given by two dates that
    parse, getDashboardMetrics returns: the number of employee records; the
    number of distinct employees with an approved roster entry dated in the
    range; the number of distinct employees with an approved leave request
    with leave.start <= range.end and leave.end >= range.start; max(0,
    total - on_shift - on_leave), which is never negative; the number of
    pending roster rows in the range; the sum of the hours of the approved
    roster rows in the range. That sum is the one the store computes over
    the column of those hours, in double precision: it is 0 when no row
    is selected, the sum of the store otherwise, and the exact sum
    whenever the sum of the store is exact on the column. In the E7
    scenario the metrics are total 10, on shift 1, on leave 1, available
    8, pending 0, hours 8, the sum of the single value 8 being 8. *)
Theorem dashboard_metrics_reference (float_sum : list Q -> Q)
  (today : Date.t) (uid : Z) (s e : string) (db : database)
  (sd ed : Date.t) :
  (is_manager db uid = true ->
   s <> "" -> e <> "" ->
   Date.strptime s = Some sd ->
   Date.strptime e = Some ed ->
   exists m,
     get_dashboard_metrics float_sum today uid (Some s) (Some e) db
     = (dashboard_doc s e m, 200)
     /\ Metrics.total_employees m = Z.of_nat (List.length (users db))
     /\ Reference.counts (Reference.on_shift db sd ed)
                         (Metrics.employees_on_shift m)
     /\ Reference.counts (Reference.on_leave db sd ed)
                         (Metrics.employees_on_leave m)
     /\ Metrics.available_employees m
        = Z.max 0 (Metrics.total_employees m - Metrics.employees_on_shift m
                   - Metrics.employees_on_leave m)
     /\ 0 <= Metrics.available_employees m
     /\ Reference.row_count (Reference.selected sd ed "pending")
                            (shift_roster db) (Metrics.pending_approvals m)
     /\ exists column,
          Reference.hours_column (Reference.selected sd ed "approved")
                                 (shift_roster db) column
          /\ (column = [] -> Metrics.total_scheduled_hours m = 0%Q)
          /\ (column <> [] ->
              (Metrics.total_scheduled_hours m == float_sum column)%Q)
          /\ ((float_sum column == Reference.exact_sum column)%Q ->
              (Metrics.total_scheduled_hours m
               == Reference.exact_sum column)%Q))
  /\ ((forall x, float_sum [x] = x) ->
      get_dashboard_metrics float_sum E7.today 1 (Some "2024-03-01")
                            (Some "2024-03-01") E7.db
      = (dashboard_doc "2024-03-01" "2024-03-01" (Metrics.mk 10 1 1 8 0 8),
         200)).
Proof.
  split.
  2:{ intros Hone. vm_compute. rewrite Hone. reflexivity. }
  intros Hman Hs He Hsd Hed.
  apply is_manager_role in Hman. destruct Hman as (cur & Hcur & Hrole & _).
  unfold get_dashboard_metrics, raising.
  rewrite Hcur, Hrole.
  rewrite (truthy_str_nonempty s Hs), (truthy_str_nonempty e He).
  cbn [fst snd]. rewrite Hsd, Hed.
  eexists. split; [reflexivity|].
  unfold dashboard_metrics. cbn [Metrics.total_employees
    Metrics.employees_on_shift Metrics.employees_on_leave
    Metrics.available_employees Metrics.pending_approvals
    Metrics.total_scheduled_hours].
  split; [reflexivity|].
  split.
  { apply count_distinct_counts. intros x. unfold Reference.on_shift.
    rewrite in_map_iff. split.
    - intros (r & Hx & Hr). apply filter_In in Hr. destruct Hr as [Hin Hc].
      apply roster_in_range_selected in Hc. destruct Hc as (H1 & H2 & H3).
      exists r. auto.
    - intros (r & Hin & Hx & H1 & H2 & H3). exists r. split; [exact Hx|].
      apply filter_In. split; [exact Hin|].
      apply roster_in_range_selected. repeat split; assumption. }
  split.
  { apply count_distinct_counts. intros x. unfold Reference.on_leave.
    rewrite in_map_iff. split.
    - intros (l & Hx & Hl). apply filter_In in Hl. destruct Hl as [Hin Hc].
      unfold leave_in_range in Hc.
      rewrite !andb_true_iff, !Date_leb_le, String.eqb_eq in Hc.
      exists l. tauto.
    - intros (l & Hin & Hx & H1 & H2 & H3). exists l. split; [exact Hx|].
      apply filter_In. split; [exact Hin|].
      unfold leave_in_range.
      rewrite !andb_true_iff, !Date_leb_le, String.eqb_eq. tauto. }
  split; [reflexivity|].
  split; [apply Z.le_max_l|].
  split.
  { apply row_count_filter. intros r. apply roster_in_range_selected. }
  exists (map ShiftRoster.hours
            (filter (roster_in_range sd ed "approved") (shift_roster db))).
  split.
  { apply (hours_column_filter _ (roster_in_range sd ed "approved")).
    intros r. apply roster_in_range_selected. }
  split; [intros ->; reflexivity|].
  split; [apply float_or_zero_sql_sum|].
  intros Hexact.
  destruct (map ShiftRoster.hours
              (filter (roster_in_range sd ed "approved") (shift_roster db)))
    as [|x column] eqn:Hcol; [reflexivity|].
  rewrite <- Hexact. apply float_or_zero_sql_sum. discriminate.
Qed.

Lemma dashboard_metrics_reference_witness :
  (is_manager E7.db 2 = true
   /\ "2024-03-01" <> ""
   /\ Date.strptime "2024-03-01" = Some Sample.march_1
   /\ forall x, Sample.unrounded_sum [x] = x)
  /\ get_dashboard_metrics Sample.unrounded_sum E7.today 1
                           (Some "2024-03-01") (Some "2024-03-01") E7.db
     = (dashboard_doc "2024-03-01" "2024-03-01" (Metrics.mk 10 1 1 8 0 8),
        200)
  /\ exists m,
       get_dashboard_metrics Sample.unrounded_sum E7.today 2
                             (Some "2024-03-01") (Some "2024-03-01") E7.db
       = (dashboard_doc "2024-03-01" "2024-03-01" m, 200)
       /\ Reference.counts
            (Reference.on_shift E7.db Sample.march_1 Sample.march_1)
            (Metrics.employees_on_shift m)
       /\ 0 <= Metrics.available_employees m.
Proof.
  split.
  { split; [reflexivity|]. split; [discriminate|].
    split; reflexivity. }
  split.
  { exact (proj2 (dashboard_metrics_reference Sample.unrounded_sum
                    E7.today 2 "2024-03-01" "2024-03-01" E7.db
                    Sample.march_1 Sample.march_1)
             (fun x => eq_refl)). }
  destruct (proj1 (dashboard_metrics_reference Sample.unrounded_sum
                     E7.today 2 "2024-03-01" "2024-03-01" E7.db
                     Sample.march_1 Sample.march_1)
              eq_refl
              (fun H : "2024-03-01" = "" =>
                 eq_ind "2024-03-01"
                   (fun x => match x with
                             | EmptyString => False
                             | String _ _ => True
                             end) I "" H)
              (fun H : "2024-03-01" = "" =>
                 eq_ind "2024-03-01"
                   (fun x => match x with
                             | EmptyString => False
                             | String _ _ => True
                             end) I "" H)
              eq_refl eq_refl)
    as (m & Hresp & _ & Hshift & _ & _ & Havail & _).
  exists m. repeat split; assumption.
Defined.

(** * Further properties of the roster handlers *)

(** X1 -- Every write of the roster engine needs a Manager or Admin
    principal. A request of an existing user with any other role is
    answered 403 "Insufficient permissions"; a request whose principal is
    not a user, or has no role, is answered 500 with the text of the
    exception. In both cases nothing is persisted. *)
Theorem writes_require_manager (rq : request) (db : database) :
  (forall u role,
      current_user_role db (principal rq) = Next (u, role) ->
      contains_str managers role = false ->
      handle rq db = ((error "Insufficient permissions", 403), db))
  /\ (forall e,
         current_user_role db (principal rq) = Stop e ->
         handle rq db = ((error e, 500), db)).
Proof.
  split.
  - intros u role Hcur Hrole.
    destruct rq; cbn [handle principal] in *;
      unfold create_roster_entry, create_bulk_roster, update_roster_entry,
        delete_roster_entry, approve_roster_entry, finish, raising;
      rewrite Hcur; cbn [snd]; rewrite Hrole; reflexivity.
  - intros e Hcur.
    destruct rq; cbn [handle principal] in *;
      unfold create_roster_entry, create_bulk_roster, update_roster_entry,
        delete_roster_entry, approve_roster_entry, finish, raising;
      rewrite Hcur; reflexivity.
Qed.

Lemma writes_require_manager_witness :
  current_user_role Listing.db 7 = Next (User.mk 7 3, "Employee")
  /\ contains_str managers "Employee" = false
  /\ handle (DeleteRosterEntry 7 1) Listing.db
     = ((error "Insufficient permissions", 403), Listing.db).
Proof.
  split; [reflexivity|]. split; [reflexivity|].
  exact (proj1 (writes_require_manager (DeleteRosterEntry 7 1) Listing.db)
           (User.mk 7 3) "Employee" eq_refl eq_refl).
Defined.

(** X2 -- Failure atomicity. A write request that does not succeed
    (response outside 2xx) leaves the database exactly as it was; this
    includes an update that had already assigned some fields of the entry
    when a later check failed, and a batch with an invalid entry. *)
Theorem failed_write_changes_nothing (rq : request) (db : database) :
  succeeded (fst (handle rq db)) = false -> snd (handle rq db) = db.
Proof.
  destruct rq as [now uid data | now uid entries | uid rid data | uid rid
                 | now uid rid data]; simpl; intros Hfail.
  - destruct (create_roster_entry_cases now uid data db)
      as [[Hsame _] | (e & s & ds & d & h & _ & _ & _ & _ & _ & _ & Heq)];
      [exact Hsame|].
    rewrite Heq in Hfail. discriminate.
  - destruct (create_bulk_roster_cases now uid entries db)
      as [[Hsame _] | (l & _ & _ & _ & _ & Hresp)]; [exact Hsame|].
    rewrite Hresp in Hfail. discriminate.
  - destruct (update_roster_entry_cases uid rid data db)
      as [[Hsame _] | (r & r' & _ & Heq & _)]; [exact Hsame|].
    rewrite Heq in Hfail. discriminate.
  - destruct (delete_roster_entry_cases uid rid db)
      as [[Hsame _] | (r & _ & Heq)]; [exact Hsame|].
    rewrite Heq in Hfail. discriminate.
  - destruct (approve_roster_entry_cases now uid rid data db)
      as [[Hsame _] | (r & r' & action & _ & _ & Heq & _)]; [exact Hsame|].
    rewrite Heq in Hfail. discriminate.
Qed.

Lemma failed_write_changes_nothing_witness :
  succeeded
    (fst (handle (UpdateRosterEntry 1 1 (Sample.entry 8 9 "2024-03-02"))
                 Listing.db)) = false
  /\ snd (handle (UpdateRosterEntry 1 1 (Sample.entry 8 9 "2024-03-02"))
                 Listing.db) = Listing.db.
Proof.
  split; [reflexivity|].
  exact (failed_write_changes_nothing
           (UpdateRosterEntry 1 1 (Sample.entry 8 9 "2024-03-02"))
           Listing.db eq_refl).
Defined.

(** X3 -- The checks of createRosterEntry run in a fixed order and the
    first that fails decides the response, nothing being persisted: the
    first missing key among employee_id, shift_id, date, hours (400,
    "<key> is required"); then an unknown employee (404); then an unknown
    shift (404); then a date, given as an ASCII string, that does not
    parse (400). *)
Theorem create_roster_entry_checks (now uid : Z) (data : Json.t)
  (db : database) :
  is_manager db uid = true ->
  (Json.employee_id data = None ->
   create_roster_entry now uid data db
   = ((error "employee_id is required", 400), db))
  /\ (Json.employee_id data <> None -> Json.shift_id data = None ->
      create_roster_entry now uid data db
      = ((error "shift_id is required", 400), db))
  /\ (Json.employee_id data <> None -> Json.shift_id data <> None ->
      Json.date data = None ->
      create_roster_entry now uid data db
      = ((error "date is required", 400), db))
  /\ (Json.employee_id data <> None -> Json.shift_id data <> None ->
      Json.date data <> None -> Json.hours data = None ->
      create_roster_entry now uid data db
      = ((error "hours is required", 400), db))
  /\ (forall e s ds h,
         Json.employee_id data = Some e -> Json.shift_id data = Some s ->
         Json.date data = Some ds -> Json.hours data = Some h ->
         (User_get db e = None ->
          create_roster_entry now uid data db
          = ((error "Employee not found", 404), db))
         /\ (User_get db e <> None -> Shift_get db s = None ->
             create_roster_entry now uid data db
             = ((error "Shift not found", 404), db))
         /\ (User_get db e <> None -> Shift_get db s <> None ->
             isascii ds = true -> Date.strptime ds = None ->
             create_roster_entry now uid data db
             = ((error "Invalid date format. Use YYYY-MM-DD", 400), db))).
Proof.
  intros Hman. apply is_manager_role in Hman.
  destruct Hman as (cur & Hcur & Hrole & _).
  unfold create_roster_entry, finish, raising, getitem.
  rewrite Hcur, Hrole. unfold required_fields, Json.has.
  cbn [find String.eqb Ascii.eqb Bool.eqb].
  split; [intros ->; reflexivity|].
  split.
  { intros He ->. destruct (Json.employee_id data); [reflexivity|].
    contradiction. }
  split.
  { intros He Hs ->. destruct (Json.employee_id data); [|contradiction].
    destruct (Json.shift_id data); [reflexivity | contradiction]. }
  split.
  { intros He Hs Hd ->. destruct (Json.employee_id data); [|contradiction].
    destruct (Json.shift_id data); [|contradiction].
    destruct (Json.date data); [reflexivity | contradiction]. }
  intros e s ds h -> -> -> ->. cbn [negb].
  split; [intros ->; reflexivity|].
  split.
  - intros Hu ->. destruct (User_get db e); [reflexivity | contradiction].
  - intros Hu Hsh _ ->. destruct (User_get db e); [|contradiction].
    destruct (Shift_get db s); [reflexivity | contradiction].
Qed.

Lemma create_roster_entry_checks_witness :
  is_manager Sample.empty_db 2 = true
  /\ create_roster_entry 100 2 Payload.empty Sample.empty_db
     = ((error "employee_id is required", 400), Sample.empty_db)
  /\ (isascii "01/03/2024" = true /\ Date.strptime "01/03/2024" = None)
  /\ create_roster_entry 100 2 (Sample.entry 7 1 "01/03/2024")
                         Sample.empty_db
     = ((error "Invalid date format. Use YYYY-MM-DD", 400), Sample.empty_db).
Proof.
  split; [reflexivity|]. split.
  { exact (proj1 (create_roster_entry_checks 100 2 Payload.empty
                    Sample.empty_db eq_refl) eq_refl). }
  split; [split; reflexivity|].
  destruct (create_roster_entry_checks 100 2 (Sample.entry 7 1 "01/03/2024")
              Sample.empty_db eq_refl) as (_ & _ & _ & _ & H).
  destruct (H 7 1 "01/03/2024" 8%Q eq_refl eq_refl eq_refl eq_refl)
    as (_ & _ & Hd).
  apply Hd; [discriminate | discriminate | reflexivity | reflexivity].
Defined.

Lemma update_roster_entry_validated (uid rid : Z) (data : Json.t)
  (db : database) :
  succeeded (fst (update_roster_entry uid rid data db)) = true ->
  (forall e, Json.employee_id data = Some e -> User_get db e <> None)
  /\ (forall s, Json.shift_id data = Some s -> Shift_get db s <> None)
  /\ (forall ds, Json.date data = Some ds -> Date.strptime ds <> None).
Proof.
  unfold update_roster_entry, finish, raising.
  destruct (current_user_role db uid) as [cur|]; [|discriminate].
  destruct (contains_str managers (snd cur)); [|discriminate].
  destruct (ShiftRoster_get db rid) as [r|]; [|discriminate].
  destruct (Json.employee_id data) as [e|];
    [destruct (User_get db e) eqn:Hu; [|discriminate]|];
    (destruct (Json.shift_id data) as [s|];
     [destruct (Shift_get db s) eqn:Hs; [|discriminate]|]);
    (destruct (Json.date data) as [ds|];
     [destruct (Date.strptime ds) eqn:Hd; [|discriminate]|]);
    intros _; repeat split; intros x Hx; inversion Hx; subst; congruence.
Qed.

(** X4 -- The checks of updateRosterEntry, for a Manager or Admin
    principal, in their order: an unknown entry id (404); a supplied
    employee id that names no user (404); a supplied shift id that names
    no shift (404); a supplied date, an ASCII string, that does not parse
    (400). Each failure leaves the database unchanged, fields assigned
    before it included. An update of an existing entry whose supplied
    references exist and whose supplied date parses always succeeds, the
    empty update included. *)
Theorem update_roster_entry_checks (uid rid : Z) (data : Json.t)
  (db : database) :
  is_manager db uid = true ->
  (ShiftRoster_get db rid = None ->
   update_roster_entry uid rid data db
   = ((error "Roster entry not found", 404), db))
  /\ (ShiftRoster_get db rid <> None ->
      (forall e, Json.employee_id data = Some e -> User_get db e = None ->
                 update_roster_entry uid rid data db
                 = ((error "Employee not found", 404), db))
      /\ ((forall e, Json.employee_id data = Some e -> User_get db e <> None) ->
          (forall s, Json.shift_id data = Some s -> Shift_get db s = None ->
                     update_roster_entry uid rid data db
                     = ((error "Shift not found", 404), db))
          /\ ((forall s, Json.shift_id data = Some s ->
                         Shift_get db s <> None) ->
              (forall ds, Json.date data = Some ds ->
                          isascii ds = true -> Date.strptime ds = None ->
                          update_roster_entry uid rid data db
                          = ((error "Invalid date format. Use YYYY-MM-DD",
                              400), db))
              /\ ((forall ds, Json.date data = Some ds ->
                              Date.strptime ds <> None) ->
                  succeeded (fst (update_roster_entry uid rid data db))
                  = true)))).
Proof.
  intros Hman. apply is_manager_role in Hman.
  destruct Hman as (cur & Hcur & Hrole & _).
  unfold update_roster_entry, finish, raising. rewrite Hcur, Hrole.
  split; [intros ->; reflexivity|].
  intros Hr. destruct (ShiftRoster_get db rid) as [r|]; [|contradiction].
  split.
  { intros e -> ->. reflexivity. }
  intros He.
  assert (He' : exists r1,
             match Json.employee_id data with
             | Some v =>
                 match User_get db v with
                 | None => Stop (error "Employee not found", 404)
                 | Some _ => Next (ShiftRoster.set_employee_id r v)
                 end
             | None => Next r
             end = @Next response _ r1).
  { destruct (Json.employee_id data) as [e|]; [|eauto].
    specialize (He e eq_refl). destruct (User_get db e); [eauto|].
    contradiction. }
  destruct He' as [r1 ->].
  split.
  { intros s -> ->. reflexivity. }
  intros Hs.
  assert (Hs' : exists r2,
             match Json.shift_id data with
             | Some v =>
                 match Shift_get db v with
                 | None => Stop (error "Shift not found", 404)
                 | Some _ => Next (ShiftRoster.set_shift_id r1 v)
                 end
             | None => Next r1
             end = @Next response _ r2).
  { destruct (Json.shift_id data) as [s|]; [|eauto].
    specialize (Hs s eq_refl). destruct (Shift_get db s); [eauto|].
    contradiction. }
  destruct Hs' as [r2 ->].
  split.
  { intros ds -> _ ->. reflexivity. }
  intros Hd. destruct (Json.date data) as [ds|]; [|reflexivity].
  specialize (Hd ds eq_refl).
  destruct (Date.strptime ds); [reflexivity | contradiction].
Qed.

Lemma update_roster_entry_checks_witness :
  is_manager Listing.db 1 = true
  /\ ShiftRoster_get Listing.db 1 <> None
  /\ update_roster_entry 1 1 (Sample.entry 99 1 "2024-03-02") Listing.db
     = ((error "Employee not found", 404), Listing.db)
  /\ (isascii "02/03/2024" = true /\ Date.strptime "02/03/2024" = None)
  /\ update_roster_entry 1 1 (Sample.entry 8 1 "02/03/2024") Listing.db
     = ((error "Invalid date format. Use YYYY-MM-DD", 400), Listing.db).
Proof.
  assert (Hr : ShiftRoster_get Listing.db 1 <> None) by discriminate.
  split; [reflexivity|]. split; [exact Hr|]. split.
  { exact (proj1 (proj2 (update_roster_entry_checks 1 1
                           (Sample.entry 99 1 "2024-03-02") Listing.db
                           eq_refl) Hr) 99 eq_refl eq_refl). }
  split; [split; reflexivity|].
  destruct (proj2 (update_roster_entry_checks 1 1
                     (Sample.entry 8 1 "02/03/2024") Listing.db eq_refl) Hr)
    as [_ He].
  destruct He as [_ Hs].
  { intros e H. inversion H; subst. discriminate. }
  destruct Hs as [Hd _].
  { intros s H. inversion H; subst. discriminate. }
  exact (Hd "02/03/2024" eq_refl eq_refl eq_refl).
Defined.

(** X5 -- Contract of deleteRosterEntry for a Manager or Admin principal.
    An unknown id is answered 404. An entry that a timesheet refers to is
    not deleted (400) and nothing changes. Otherwise the entry is removed:
    it can no longer be fetched, every other entry is still fetched as
    before, the remaining rows keep their order, and no other table
    changes. *)
Theorem delete_roster_entry_contract (uid rid : Z) (db : database) :
  is_manager db uid = true ->
  (ShiftRoster_get db rid = None ->
   delete_roster_entry uid rid db
   = ((error "Roster entry not found", 404), db))
  /\ forall r,
       ShiftRoster_get db rid = Some r ->
       (roster_timesheets db r <> [] ->
        delete_roster_entry uid rid db
        = ((error "Cannot delete roster entry with associated timesheets",
            400), db))
       /\ (roster_timesheets db r = [] ->
           delete_roster_entry uid rid db
           = ((message "Roster entry deleted successfully", 200),
              with_shift_roster db
                (filter (fun x => negb (ShiftRoster.id x =? rid))
                        (shift_roster db)))
           /\ ShiftRoster_get (snd (delete_roster_entry uid rid db)) rid
              = None
           /\ forall pk, pk <> rid ->
                ShiftRoster_get (snd (delete_roster_entry uid rid db)) pk
                = ShiftRoster_get db pk).
Proof.
  intros Hman. apply is_manager_role in Hman.
  destruct Hman as (cur & Hcur & Hrole & _).
  unfold delete_roster_entry, finish, raising. rewrite Hcur, Hrole.
  split; [intros ->; reflexivity|].
  intros r Hr. rewrite Hr.
  pose proof (ShiftRoster_get_id db rid r Hr) as Hid.
  split.
  - intros Hts. destruct (roster_timesheets db r); [contradiction|].
    reflexivity.
  - intros ->. cbn [snd]. unfold session_delete at 1. rewrite Hid.
    split; [reflexivity|]. split.
    + rewrite <- Hid. apply get_delete_same.
    + intros pk Hpk. apply get_delete_other. congruence.
Qed.

Lemma delete_roster_entry_contract_witness :
  is_manager Listing.db 2 = true
  /\ ShiftRoster_get Listing.db 1
     = Some (ShiftRoster.mk 1 7 1 Sample.march_1 8 "pending" None None ""
                            100)
  /\ shift_roster (snd (delete_roster_entry 2 1 Listing.db))
     = [ShiftRoster.mk 2 8 2 Sample.march_1 8 "pending" None None "" 101].
Proof.
  split; [reflexivity|]. split; [reflexivity|].
  destruct (proj2 (proj2 (delete_roster_entry_contract 2 1 Listing.db eq_refl)
                     _ eq_refl) eq_refl) as (Heq & _).
  rewrite Heq. reflexivity.
Defined.

(** ** The tables that the roster writes read *)

(** X6 -- The writes of the roster engine change the roster table only:
    after any sequence of requests the roles, users, shifts, timesheets
    and leave requests are the ones the sequence started from. *)
Theorem writes_touch_only_roster (rqs : list request) (db : database) :
  exists l, run rqs db = with_shift_roster db l.
Proof.
  revert db. induction rqs as [|rq rqs IH]; intros db.
  - exists (shift_roster db). destruct db; reflexivity.
  - change (run (rq :: rqs) db) with (run rqs (snd (handle rq db))).
    assert (H1 : exists l, snd (handle rq db) = with_shift_roster db l).
    { destruct rq as [now uid data | now uid entries | uid rid data | uid rid
                     | now uid rid data].
      - destruct (creation_appends (CreateRosterEntry now uid data) db)
          as [rows ->]; [left; eauto|]. eauto.
      - destruct (creation_appends (CreateBulkRoster now uid entries) db)
          as [rows ->]; [right; eauto|]. eauto.
      - simpl. destruct (update_roster_entry_cases uid rid data db)
          as [[-> _] | (r & r' & _ & -> & _)].
        + exists (shift_roster db). destruct db; reflexivity.
        + eexists. reflexivity.
      - simpl. destruct (delete_roster_entry_cases uid rid db)
          as [[-> _] | (r & _ & ->)].
        + exists (shift_roster db). destruct db; reflexivity.
        + eexists. reflexivity.
      - simpl. destruct (approve_roster_entry_cases now uid rid data db)
          as [[-> _] | (r & r' & action & _ & _ & -> & _)].
        + exists (shift_roster db). destruct db; reflexivity.
        + eexists. reflexivity. }
    destruct H1 as [l1 ->].
    destruct (IH (with_shift_roster db l1)) as [l2 Hl2].
    exists l2. rewrite Hl2. reflexivity.
Qed.

Lemma row_references_frame (db : database) (l : list ShiftRoster.t)
  (r : ShiftRoster.t) :
  row_references_ok (with_shift_roster db l) r <-> row_references_ok db r.
Proof. reflexivity. Qed.

Lemma bulk_entry_next_refs (now : Z) (entry_data : Json.t) (db db' : database)
  (row : ShiftRoster.t) :
  bulk_entry now entry_data db = Next (row, db') ->
  db' = with_shift_roster db (shift_roster db ++ [row])
  /\ row_references_ok db row.
Proof.
  unfold bulk_entry, getitem, session_add. intros H.
  destruct (Json.employee_id entry_data) as [e|]; [|discriminate].
  destruct (User_get db e) eqn:Hu; [|discriminate].
  destruct (Json.shift_id entry_data) as [s|]; [|discriminate].
  destruct (Shift_get db s) eqn:Hs; [|discriminate].
  destruct (Json.date entry_data) as [ds|]; [|discriminate].
  destruct (Date.strptime ds) as [d|]; [|discriminate].
  destruct (existing_entry db e d); [discriminate|].
  destruct (Json.hours entry_data) as [h|]; [|discriminate].
  inversion H; subst. split; [reflexivity|].
  unfold row_references_ok; simpl. repeat split; try congruence.
Qed.

Lemma bulk_loop_refs (now : Z) (entries : list Json.t) :
  forall (i : nat) (st : bulk_state),
  exists rows,
    session (bulk_loop now i entries st)
    = with_shift_roster (session st) (shift_roster (session st) ++ rows)
    /\ Forall (row_references_ok (session st)) rows.
Proof.
  induction entries as [|entry_data rest IH]; intros i st.
  - exists []. simpl. rewrite with_shift_roster_nil. split; constructor.
  - simpl bulk_loop.
    destruct (bulk_entry now entry_data (session st)) as [[row db']|msg]
      eqn:Hbody.
    + destruct (bulk_entry_next_refs now entry_data (session st) db' row Hbody)
        as [Hdb' Hrow].
      destruct (IH (S i) (bulk_iteration now i entry_data st))
        as (rows & Hs & Hrows).
      rewrite (bulk_iteration_next now i entry_data st row db' Hbody)
        in Hs, Hrows.
      exists (row :: rows). split.
      * rewrite Hs, Hdb'. apply with_shift_roster_app.
      * constructor; [exact Hrow|]. rewrite Hdb' in Hrows. exact Hrows.
    + destruct (IH (S i) (bulk_iteration now i entry_data st))
        as (rows & Hs & Hrows).
      destruct (bulk_iteration_stop now i entry_data st msg Hbody)
        as [Hsame _].
      rewrite Hsame in Hs, Hrows. exists rows. split; assumption.
Qed.

Lemma creation_rows_refs (rq : request) (db : database) :
  (exists now uid data, rq = CreateRosterEntry now uid data)
  \/ (exists now uid entries, rq = CreateBulkRoster now uid entries) ->
  exists rows,
    snd (handle rq db) = with_shift_roster db (shift_roster db ++ rows)
    /\ Forall (row_references_ok db) rows.
Proof.
  intros [(now & uid & data & ->) | (now & uid & entries & ->)]; simpl.
  - unfold create_roster_entry, finish, raising, getitem, session_add.
    repeat break_match;
      try (exists []; rewrite with_shift_roster_nil; split;
           [reflexivity | constructor]).
    eexists. split; [reflexivity|]. constructor; [|constructor].
    unfold row_references_ok; simpl. repeat split; congruence.
  - destruct (create_bulk_roster_cases now uid entries db)
      as [[Hsame _] | (l & _ & _ & _ & Hdb & _)].
    + exists []. rewrite Hsame, with_shift_roster_nil.
      split; [reflexivity | constructor].
    + destruct (bulk_loop_refs now l 0 (mk_bulk db [] [])) as (rows & Hs & H).
      exists rows. rewrite Hdb. split; assumption.
Qed.

Lemma in_session_update (obj x : ShiftRoster.t) (db : database) :
  In x (shift_roster (session_update obj db)) ->
  x = obj \/ In x (shift_roster db).
Proof.
  unfold session_update; simpl. rewrite in_map_iff.
  intros (y & Hy & Hin). destruct (ShiftRoster.id y =? ShiftRoster.id obj).
  - left. congruence.
  - right. congruence.
Qed.

Lemma approve_roster_entry_row (now uid rid : Z) (data : Json.t)
  (db : database) :
  (snd (approve_roster_entry now uid rid data db) = db)
  \/ exists r r',
       ShiftRoster_get db rid = Some r
       /\ snd (approve_roster_entry now uid rid data db)
          = session_update r' db
       /\ ShiftRoster.employee_id r' = ShiftRoster.employee_id r
       /\ ShiftRoster.shift_id r' = ShiftRoster.shift_id r
       /\ ShiftRoster.approved_by r' = Some uid
       /\ User_get db uid <> None.
Proof.
  unfold approve_roster_entry, finish, raising.
  destruct (current_user_role db uid) as [cur|] eqn:Hcur; [|left; reflexivity].
  destruct (contains_str managers (snd cur)); [|left; reflexivity].
  destruct (ShiftRoster_get db rid) as [r|]; [|left; reflexivity].
  destruct (Json.action data) as [action|]; [|left; reflexivity].
  destruct (contains_str ["approve"; "reject"] action); [|left; reflexivity].
  right. exists r. eexists. split; [reflexivity|]. split; [reflexivity|].
  unfold current_user_role, get_current_user in Hcur.
  destruct (User_get db uid) as [u|] eqn:Hu; [|discriminate].
  destruct (role_ref db u); [|discriminate].
  inversion Hcur; subst cur. cbn [fst].
  rewrite (User_get_id db uid u Hu).
  destruct (Json.notes data); simpl; repeat split; congruence.
Qed.

(** X7 -- Referential integrity of the roster. If every roster entry
    names an existing employee, an existing shift and, when approved or
    rejected, an existing approver, then this still holds after any
    sequence of createRosterEntry, createRosterEntriesBulk,
    updateRosterEntry, deleteRosterEntry and setRosterEntryStatus
    requests, whoever sends them and whatever they hold. *)
Theorem references_kept (rqs : list request) (db : database) :
  references_ok db -> references_ok (run rqs db).
Proof.
  revert db. induction rqs as [|rq rqs IH]; intros db Hdb; [exact Hdb|].
  change (run (rq :: rqs) db) with (run rqs (snd (handle rq db))).
  apply IH. clear IH.
  destruct rq as [now uid data | now uid entries | uid rid data | uid rid
                 | now uid rid data].
  - destruct (creation_rows_refs (CreateRosterEntry now uid data) db)
      as (rows & -> & Hrows); [left; eauto|].
    intros r Hr. simpl in Hr. apply row_references_frame.
    apply in_app_or in Hr. destruct Hr as [Hr|Hr]; [apply Hdb; exact Hr|].
    rewrite Forall_forall in Hrows. apply Hrows. exact Hr.
  - destruct (creation_rows_refs (CreateBulkRoster now uid entries) db)
      as (rows & -> & Hrows); [right; eauto|].
    intros r Hr. simpl in Hr. apply row_references_frame.
    apply in_app_or in Hr. destruct Hr as [Hr|Hr]; [apply Hdb; exact Hr|].
    rewrite Forall_forall in Hrows. apply Hrows. exact Hr.
  - simpl.
    destruct (update_roster_entry_cases uid rid data db)
      as [[Hsame _]
         | (r & r' & Hr & Heq & _ & He & Hs & _ & _ & _ & _ & Hby & _)].
    { rewrite Hsame. exact Hdb. }
    assert (Hok : succeeded (fst (update_roster_entry uid rid data db)) = true)
      by (rewrite Heq; reflexivity).
    destruct (update_roster_entry_validated uid rid data db Hok)
      as (Hve & Hvs & _).
    rewrite Heq. cbn [snd]. intros x Hx.
    apply in_session_update in Hx.
    apply (row_references_frame db).
    destruct Hx as [->|Hx]; [|apply Hdb; exact Hx].
    apply find_key in Hr. destruct Hr as [_ Hr].
    destruct (Hdb r Hr) as (H1 & H2 & H3).
    unfold row_references_ok. rewrite He, Hs, Hby.
    split; [destruct (Json.employee_id data); auto|].
    split; [destruct (Json.shift_id data); auto|]. exact H3.
  - simpl.
    destruct (delete_roster_entry_cases uid rid db)
      as [[Hsame _] | (r & _ & Heq)].
    { rewrite Hsame. exact Hdb. }
    rewrite Heq. cbn [snd]. intros x Hx.
    unfold session_delete in Hx; simpl in Hx. apply filter_In in Hx.
    apply (row_references_frame db). apply Hdb. tauto.
  - simpl.
    destruct (approve_roster_entry_row now uid rid data db)
      as [Hsame | (r & r' & Hr & Heq & He & Hs & Hby & Hu)].
    { rewrite Hsame. exact Hdb. }
    rewrite Heq. intros x Hx. apply in_session_update in Hx.
    apply (row_references_frame db).
    destruct Hx as [->|Hx]; [|apply Hdb; exact Hx].
    apply find_key in Hr. destruct Hr as [_ Hr].
    destruct (Hdb r Hr) as (H1 & H2 & _).
    unfold row_references_ok. rewrite He, Hs, Hby.
    split; [exact H1|]. split; [exact H2|].
    intros a Ha. inversion Ha; subst a. exact Hu.
Qed.

Lemma references_kept_witness :
  references_ok Sample.empty_db
  /\ references_ok
       (run [CreateRosterEntry 100 1 (Sample.entry 7 1 "2024-03-01");
             ApproveRosterEntry 150 2 1 Terminal.approve;
             UpdateRosterEntry 2 1 Listing.to_employee_eight]
            Sample.empty_db).
Proof.
  assert (H : references_ok Sample.empty_db) by (intros r []).
  split; [exact H|].
  exact (references_kept
           [CreateRosterEntry 100 1 (Sample.entry 7 1 "2024-03-01");
            ApproveRosterEntry 150 2 1 Terminal.approve;
            UpdateRosterEntry 2 1 Listing.to_employee_eight]
           Sample.empty_db H).
Defined.

(** ** More on the bulk creation *)

Lemma bulk_loop_errors_sound (now : Z) (entries : list Json.t) :
  forall (i : nat) (st : bulk_state),
  exists errs,
    errors (bulk_loop now i entries st) = (errors st ++ errs)%list
    /\ forall err, In err errs ->
         exists k msg,
           err = entry_error (i + k) msg
           /\ nth_error (bulk_verdicts now (session st) entries) k
              = Some false.
Proof.
  induction entries as [|entry_data rest IH]; intros i st.
  - exists []. simpl. rewrite app_nil_r. split; [reflexivity|]. intros err [].
  - simpl bulk_loop. simpl bulk_verdicts.
    destruct (entry_valid (session st) entry_data) eqn:Hv.
    + destruct (bulk_entry_valid now entry_data (session st) Hv)
        as (row & Hbody & Hacc & _ & _ & Hmiss).
      destruct (IH (S i) (bulk_iteration now i entry_data st))
        as (errs & He & Hsound).
      assert (Hit : bulk_iteration now i entry_data st
                    = mk_bulk (accept now (session st) entry_data)
                              (created_entries st ++ [row]) (errors st)).
      { unfold bulk_iteration. rewrite Hbody, Hmiss. simpl.
        rewrite app_nil_r. reflexivity. }
      rewrite Hit in He, Hsound. simpl in He, Hsound.
      exists errs. rewrite Hit. split; [exact He|].
      intros err Herr. destruct (Hsound err Herr) as (k & msg & -> & Hk).
      exists (S k), msg. split; [f_equal; lia | exact Hk].
    + destruct (bulk_entry_invalid now entry_data (session st) Hv)
        as [msg Hbody].
      set (missing :=
             map (fun field => entry_error i (field ++ " is required"))
                 (filter (fun field => negb (Json.has entry_data field))
                         required_fields)).
      assert (Hit : bulk_iteration now i entry_data st
                    = mk_bulk (session st) (created_entries st)
                              ((errors st ++ missing) ++ [entry_error i msg])).
      { unfold bulk_iteration. rewrite Hbody. reflexivity. }
      rewrite Hit.
      destruct (IH (S i) (mk_bulk (session st) (created_entries st)
                            ((errors st ++ missing) ++ [entry_error i msg])))
        as (errs & He & Hsound).
      cbn [errors session] in He, Hsound.
      exists (missing ++ entry_error i msg :: errs)%list.
      split. { rewrite He, <- !app_assoc. reflexivity. }
      intros err Herr. apply in_app_or in Herr.
      destruct Herr as [Herr | [Herr | Herr]].
      * apply in_map_iff in Herr. destruct Herr as (field & <- & _).
        exists 0%nat. eexists. split; [rewrite Nat.add_0_r; reflexivity|].
        reflexivity.
      * exists 0%nat, msg. split; [rewrite Nat.add_0_r; auto|]. reflexivity.
      * destruct (Hsound err Herr) as (k & msg' & -> & Hk).
        exists (S k), msg'. split; [f_equal; lia | exact Hk].
Qed.

(** X8 -- The error list of createRosterEntriesBulk is sound. An absent or
    empty batch is refused (400, "No entries provided"). For a batch of a
    Manager or Admin principal that is rejected, the dates of its entries
    being ASCII strings, every item of the error list reads "Entry k: ..."
    for a position k (from 1) whose entry fails validation: an entry that
    passes validation is never reported. *)
Theorem bulk_errors_only_for_invalid (now uid : Z) (db : database) :
  is_manager db uid = true ->
  create_bulk_roster now uid None db
  = ((error "No entries provided", 400), db)
  /\ create_bulk_roster now uid (Some []) db
     = ((error "No entries provided", 400), db)
  /\ forall entries msg errs code,
       ascii_dates entries = true ->
       fst (create_bulk_roster now uid (Some entries) db)
       = (error_list msg errs, code) ->
       forall err, In err errs ->
         exists k text,
           err = "Entry " ++ str (k + 1) ++ ": " ++ text
           /\ nth_error (bulk_verdicts now db entries) k = Some false.
Proof.
  intros Hman.
  pose proof Hman as Hrole. apply is_manager_role in Hrole.
  destruct Hrole as (cur & Hcur & Hrole & _).
  split.
  { unfold create_bulk_roster, finish, raising. rewrite Hcur, Hrole.
    reflexivity. }
  split.
  { unfold create_bulk_roster, finish, raising. rewrite Hcur, Hrole.
    reflexivity. }
  intros entries msg errs code _ Hresp err Herr.
  destruct entries as [|entry_data rest].
  { unfold create_bulk_roster, finish, raising in Hresp.
    rewrite Hcur, Hrole in Hresp. discriminate. }
  rewrite (create_bulk_roster_authorised now uid entry_data rest db Hman)
    in Hresp.
  destruct (bulk_loop_errors_sound now (entry_data :: rest) 0
              (mk_bulk db [] [])) as (errs' & He & Hsound).
  change (errors (mk_bulk db [] [])) with (@nil string) in He.
  change (session (mk_bulk db [] [])) with db in Hsound.
  rewrite He in Hresp. cbn [app] in Hresp.
  destruct errs' as [|e0 errs']; [discriminate|].
  inversion Hresp; subst.
  destruct (Hsound err Herr) as (k & text & -> & Hk).
  exists k, text. split; [reflexivity | exact Hk].
Qed.

Lemma bulk_errors_only_for_invalid_witness :
  is_manager Sample.empty_db 1 = true
  /\ create_bulk_roster 100 1 None Sample.empty_db
     = ((error "No entries provided", 400), Sample.empty_db)
  /\ ascii_dates [Sample.entry 7 1 "2024-03-01";
                  Sample.entry 8 9 "2024-03-01"] = true
  /\ exists k text,
       "Entry 2: Shift not found" = "Entry " ++ str (k + 1) ++ ": " ++ text
       /\ nth_error
            (bulk_verdicts 100 Sample.empty_db
               [Sample.entry 7 1 "2024-03-01";
                Sample.entry 8 9 "2024-03-01"]) k = Some false.
Proof.
  split; [reflexivity|]. split.
  { exact (proj1 (bulk_errors_only_for_invalid 100 1 Sample.empty_db
                    eq_refl)). }
  split; [reflexivity|].
  exact (proj2 (proj2 (bulk_errors_only_for_invalid 100 1 Sample.empty_db
                         eq_refl))
           [Sample.entry 7 1 "2024-03-01"; Sample.entry 8 9 "2024-03-01"]
           "Some entries could not be created" ["Entry 2: Shift not found"]
           400 eq_refl eq_refl "Entry 2: Shift not found"
           (or_introl eq_refl)).
Defined.

(** X9 -- createRosterEntriesBulk reports every missing required key of an
    entry, not only the first: for a Manager or Admin principal, if the
    entry at list index k lacks one of employee_id, shift_id, date, hours,
    the batch is rejected, nothing is persisted, and the error list holds
    "Entry k+1: <key> is required" for that key. *)
Theorem bulk_reports_every_missing_field (now uid : Z)
  (entries : list Json.t) (db : database) (k : nat) (entry_data : Json.t)
  (field : string) :
  is_manager db uid = true ->
  nth_error entries k = Some entry_data ->
  In field required_fields ->
  Json.has entry_data field = false ->
  exists errs,
    create_bulk_roster now uid (Some entries) db
    = ((error_list "Some entries could not be created" errs, 400), db)
    /\ In ("Entry " ++ str (k + 1) ++ ": " ++ field ++ " is required") errs.
Proof.
  intros Hman Hk Hfield Hhas.
  destruct (nth_error_split entries k Hk) as (l1 & l2 & Hsplit & Hlen).
  set (st0 := mk_bulk db [] []).
  set (st1 := bulk_loop now 0 l1 st0).
  set (st2 := bulk_iteration now k entry_data st1).
  set (st3 := bulk_loop now (S k) l2 st2).
  assert (Hfinal : bulk_loop now 0 entries st0 = st3).
  { rewrite Hsplit, bulk_loop_app. simpl. rewrite Hlen. reflexivity. }
  assert (Hin2 : In (entry_error k (field ++ " is required")) (errors st2)).
  { unfold st2, bulk_iteration.
    assert (Hin1 : In (entry_error k (field ++ " is required"))
                      (errors st1
                       ++ map (fun f => entry_error k (f ++ " is required"))
                              (filter (fun f => negb (Json.has entry_data f))
                                      required_fields))).
    { apply in_or_app. right.
      apply (in_map (fun f => entry_error k (f ++ " is required"))).
      apply filter_In. split; [exact Hfield|]. rewrite Hhas. reflexivity. }
    destruct (bulk_entry now entry_data (session st1)) as [[row db']|msg];
      simpl; [exact Hin1|].
    apply in_or_app. left. exact Hin1. }
  assert (Hin3 : In (entry_error k (field ++ " is required")) (errors st3)).
  { apply (grows_errors st2 st3); [apply bulk_loop_grows | exact Hin2]. }
  destruct entries as [|e0 rest]; [destruct k; discriminate|].
  rewrite (create_bulk_roster_authorised now uid e0 rest db Hman).
  fold st0. rewrite Hfinal.
  destruct (errors st3) as [|err errs] eqn:Herrs; [contradiction|].
  eexists. split; [reflexivity|]. exact Hin3.
Qed.

Lemma bulk_reports_every_missing_field_witness :
  (is_manager Sample.empty_db 1 = true
   /\ nth_error [Sample.entry 7 1 "2024-03-01"; Payload.empty] 1
      = Some Payload.empty
   /\ In "hours" required_fields
   /\ Json.has Payload.empty "hours" = false)
  /\ exists errs,
       create_bulk_roster 100 1
         (Some [Sample.entry 7 1 "2024-03-01"; Payload.empty]) Sample.empty_db
       = ((error_list "Some entries could not be created" errs, 400),
          Sample.empty_db)
       /\ In "Entry 2: hours is required" errs.
Proof.
  split.
  { split; [reflexivity|]. split; [reflexivity|].
    split; [|reflexivity]. right. right. right. left. reflexivity. }
  exact (bulk_reports_every_missing_field 100 1
           [Sample.entry 7 1 "2024-03-01"; Payload.empty] Sample.empty_db
           1 Payload.empty "hours" eq_refl eq_refl
           (or_intror (or_intror (or_intror (or_introl eq_refl)))) eq_refl).
Defined.

Lemma create_roster_entry_valid (now uid : Z) (entry_data : Json.t)
  (db : database) :
  is_manager db uid = true ->
  entry_valid db entry_data = true ->
  snd (create_roster_entry now uid entry_data db) = accept now db entry_data
  /\ succeeded (fst (create_roster_entry now uid entry_data db)) = true.
Proof.
  intros Hman Hv. apply is_manager_role in Hman.
  destruct Hman as (cur & Hcur & Hrole & _).
  unfold entry_valid in Hv.
  unfold create_roster_entry, accept, finish, raising, getitem, session_add.
  rewrite Hcur, Hrole. unfold required_fields, Json.has.
  cbn [find String.eqb Ascii.eqb Bool.eqb].
  destruct (Json.employee_id entry_data) as [e|]; [|discriminate].
  destruct (Json.shift_id entry_data) as [s|]; [|discriminate].
  destruct (Json.date entry_data) as [ds|]; [|discriminate].
  destruct (Json.hours entry_data) as [h|]; [|discriminate].
  cbn [negb].
  destruct (User_get db e); [|discriminate].
  destruct (Shift_get db s); [|discriminate].
  destruct (Date.strptime ds) as [d|]; [|discriminate].
  destruct (existing_entry db e d); [discriminate|].
  split; reflexivity.
Qed.

Lemma run_creates_valid (now uid : Z) (entries : list Json.t) :
  forall db,
    is_manager db uid = true ->
    Forall (fun v => v = true) (bulk_verdicts now db entries) ->
    forall i st, session st = db ->
      session (bulk_loop now i entries st)
      = run (map (CreateRosterEntry now uid) entries) db.
Proof.
  induction entries as [|entry_data rest IH]; intros db Hman Hall i st Hst.
  - exact Hst.
  - simpl in Hall.
    destruct (entry_valid db entry_data) eqn:Hv;
      [|inversion Hall; discriminate].
    inversion Hall as [|? ? _ Hrest]; subst.
    destruct (create_roster_entry_valid now uid entry_data (session st) Hman Hv)
      as [Hcreate _].
    destruct (bulk_entry_valid now entry_data (session st) Hv)
      as (row & Hbody & Hacc & _).
    simpl bulk_loop.
    change (run (map (CreateRosterEntry now uid) (entry_data :: rest))
                (session st))
      with (run (map (CreateRosterEntry now uid) rest)
                (snd (create_roster_entry now uid entry_data (session st)))).
    rewrite Hcreate. apply IH.
    + rewrite Hacc. exact Hman.
    + exact Hrest.
    + apply (bulk_iteration_next now i entry_data st row _ Hbody).
Qed.

(** X10 -- A bulk creation that succeeds is the sequence of its single
    creations: for a Manager or Admin principal, when
    createRosterEntriesBulk answers 2xx the database it commits is the one
    reached by calling createRosterEntry on each entry in order (same
    principal, same clock reading), and each of those calls succeeds. *)
Theorem bulk_is_sequence_of_creates (now uid : Z) (entries : list Json.t)
  (db : database) :
  is_manager db uid = true ->
  succeeded (fst (create_bulk_roster now uid (Some entries) db)) = true ->
  snd (create_bulk_roster now uid (Some entries) db)
  = run (map (CreateRosterEntry now uid) entries) db
  /\ forall k entry_data,
       nth_error entries k = Some entry_data ->
       succeeded
         (fst (create_roster_entry now uid entry_data
                 (run (map (CreateRosterEntry now uid) (firstn k entries))
                      db))) = true.
Proof.
  intros Hman Hok.
  destruct (create_bulk_roster_cases now uid (Some entries) db)
    as [[_ Hfail] | (l & Hl & _ & Herr & Hdb & _)].
  { rewrite Hfail in Hok. discriminate. }
  inversion Hl; subst l.
  destruct (bulk_loop_spec now entries 0 (mk_bulk db [] []))
    as (rows & errs & _ & _ & He & _ & Hbad & _).
  simpl in He, Hbad. rewrite Herr in He. subst errs.
  assert (Hall : Forall (fun v => v = true) (bulk_verdicts now db entries)).
  { apply all_true_no_false. intros k Hk. destruct (Hbad k Hk) as [msg []]. }
  split.
  { rewrite Hdb.
    apply (run_creates_valid now uid entries db Hman Hall 0 (mk_bulk db [] [])).
    reflexivity. }
  clear Hok Herr Hdb Hbad rows Hl.
  revert db Hman Hall.
  induction entries as [|e0 rest IH]; intros db Hman Hall k entry_data Hk.
  { destruct k; discriminate. }
  simpl in Hall. destruct (entry_valid db e0) eqn:Hv;
    [|inversion Hall; discriminate].
  inversion Hall as [|? ? _ Hrest]; subst.
  destruct (create_roster_entry_valid now uid e0 db Hman Hv) as [Hc Hs].
  destruct k as [|k].
  - simpl in Hk. inversion Hk; subst entry_data. exact Hs.
  - simpl in Hk.
    change (run (map (CreateRosterEntry now uid) (firstn (S k) (e0 :: rest)))
                db)
      with (run (map (CreateRosterEntry now uid) (firstn k rest))
                (snd (create_roster_entry now uid e0 db))).
    rewrite Hc.
    destruct (bulk_entry_valid now e0 db Hv) as (row & _ & Hacc & _).
    apply (IH (accept now db e0)); [|exact Hrest | exact Hk].
    rewrite Hacc. exact Hman.
Qed.

Lemma bulk_is_sequence_of_creates_witness :
  (is_manager Sample.empty_db 1 = true
   /\ succeeded
        (fst (create_bulk_roster 100 1
                (Some [Sample.entry 7 1 "2024-03-01";
                       Sample.entry 8 2 "2024-03-01"]) Sample.empty_db))
      = true)
  /\ snd (create_bulk_roster 100 1
            (Some [Sample.entry 7 1 "2024-03-01";
                   Sample.entry 8 2 "2024-03-01"]) Sample.empty_db)
     = run [CreateRosterEntry 100 1 (Sample.entry 7 1 "2024-03-01");
            CreateRosterEntry 100 1 (Sample.entry 8 2 "2024-03-01")]
           Sample.empty_db.
Proof.
  split; [split; reflexivity|].
  exact (proj1 (bulk_is_sequence_of_creates 100 1
                  [Sample.entry 7 1 "2024-03-01";
                   Sample.entry 8 2 "2024-03-01"]
                  Sample.empty_db eq_refl eq_refl)).
Defined.

(** ** More on the listing *)

Lemma Date_ltb_lt (a b : Date.t) :
  Date.ltb a b = true
  <-> Date.year a < Date.year b
      \/ (Date.year a = Date.year b
          /\ (Date.month a < Date.month b
              \/ (Date.month a = Date.month b /\ Date.day a < Date.day b))).
Proof.
  destruct a as [ya ma da], b as [yb mb db]. unfold Date.ltb; simpl.
  destruct (Z.ltb_spec ya yb), (Z.eqb_spec ya yb), (Z.ltb_spec ma mb),
    (Z.eqb_spec ma mb), (Z.ltb_spec da db);
    simpl; split; intros; try discriminate; try reflexivity; lia.
Qed.

Lemma Date_trichotomy (a b : Date.t) :
  Date.ltb a b = false -> Date.eqb a b = false -> Date.ltb b a = true.
Proof.
  intros Hlt Heq. apply Date_ltb_lt.
  apply not_true_iff_false in Hlt. rewrite Date_ltb_lt in Hlt.
  apply not_true_iff_false in Heq. rewrite Date_eqb_eq in Heq.
  destruct a as [ya ma da], b as [yb mb db]; simpl in *.
  assert (Hne : ~ (ya = yb /\ ma = mb /\ da = db)).
  { intros (-> & -> & ->). apply Heq. reflexivity. }
  lia.
Qed.

Lemma order_leb_total (x y : ShiftRoster.t * Shift.t) :
  order_leb x y = false -> order_leb y x = true.
Proof.
  unfold order_leb. intros H.
  apply orb_false_iff in H. destruct H as [Hlt H].
  destruct (Date.eqb (ShiftRoster.date (fst x)) (ShiftRoster.date (fst y)))
    eqn:Heq.
  - apply Date_eqb_eq in Heq. rewrite <- Heq, Date_eqb_refl.
    simpl in H. apply Z.leb_gt in H.
    assert (Hle : (Shift.start_time (snd y) <=? Shift.start_time (snd x))
                  = true) by (apply Z.leb_le; lia).
    rewrite Hle. apply orb_true_r.
  - rewrite (Date_trichotomy _ _ Hlt Heq). reflexivity.
Qed.

Lemma order_leb_dates (x y : ShiftRoster.t * Shift.t) :
  order_leb x y = true ->
  Date.leb (ShiftRoster.date (fst x)) (ShiftRoster.date (fst y)) = true.
Proof.
  unfold order_leb, Date.leb. intros H.
  apply orb_true_iff in H. destruct H as [H|H].
  - rewrite H. reflexivity.
  - apply andb_true_iff in H. destruct H as [H _]. rewrite H.
    apply orb_true_r.
Qed.

Lemma order_insert_sorted (x : ShiftRoster.t * Shift.t)
  (l : list (ShiftRoster.t * Shift.t)) :
  Sorted (fun p q => order_leb p q = true) l ->
  Sorted (fun p q => order_leb p q = true) (order_insert x l).
Proof.
  induction l as [|y l IH]; intros Hs; simpl.
  - repeat constructor.
  - destruct (order_leb x y) eqn:E.
    + constructor; [exact Hs|]. constructor. exact E.
    + inversion Hs as [|? ? Hs' Hhd]; subst.
      constructor; [apply IH; exact Hs'|].
      destruct l as [|z l]; simpl.
      * constructor. apply order_leb_total. exact E.
      * destruct (order_leb x z).
        -- constructor. apply order_leb_total. exact E.
        -- inversion Hhd; subst. constructor. assumption.
Qed.

Lemma order_by_sorted (l : list (ShiftRoster.t * Shift.t)) :
  Sorted (fun p q => order_leb p q = true) (order_by l).
Proof.
  induction l as [|x l IH]; simpl; [constructor|].
  apply order_insert_sorted. exact IH.
Qed.

Lemma sorted_dates (l : list (ShiftRoster.t * Shift.t)) :
  Sorted (fun p q => order_leb p q = true) l ->
  Sorted (fun a b => Date.leb (ShiftRoster.date a) (ShiftRoster.date b)
                     = true) (map fst l).
Proof.
  induction 1 as [|p l Hs IH Hhd]; simpl; constructor; [exact IH|].
  destruct Hhd as [|q l Hpq]; simpl; constructor.
  apply order_leb_dates. exact Hpq.
Qed.

Lemma join_shift_pairs (db : database) (query : list ShiftRoster.t)
  (p : ShiftRoster.t * Shift.t) :
  In p (join_shift db query) ->
  In (snd p) (shifts db) /\ Shift.id (snd p) = ShiftRoster.shift_id (fst p).
Proof.
  unfold join_shift. rewrite in_flat_map. intros (r & _ & Hp).
  apply in_map_iff in Hp. destruct Hp as (s & <- & Hs).
  apply filter_In in Hs. destruct Hs as [Hin Hid]. apply Z.eqb_eq in Hid.
  split; assumption.
Qed.

(** A listing that returns rows had a principal with a role and date
    filters that parse. *)
Lemma get_roster_listing (uid : Z) (args : Args.t) (db : database)
  (l : list ShiftRoster.t) (n : nat) (code : Z) :
  get_roster uid args db = (roster_doc l n, code) ->
  exists cur sd ed,
    current_user_role db uid = Next cur
    /\ filter_date (Args.start_date args) = Some sd
    /\ filter_date (Args.end_date args) = Some ed.
Proof.
  intros Hres.
  destruct (current_user_role db uid) as [cur|] eqn:Hcur.
  2:{ unfold get_roster, raising in Hres. rewrite Hcur in Hres.
      discriminate. }
  exists cur.
  destruct (filter_date (Args.start_date args)) as [sd|] eqn:Hsd.
  2:{ unfold get_roster, raising, filter_date in *. rewrite Hcur in Hres.
      destruct (truthy_str (Args.start_date args)) as [s|]; [|discriminate].
      destruct (Date.strptime s); discriminate. }
  destruct (filter_date (Args.end_date args)) as [ed|] eqn:Hed.
  2:{ unfold get_roster, raising, filter_date in *. rewrite Hcur in Hres.
      destruct (truthy_str (Args.end_date args)) as [s|]; [|discriminate].
      destruct (Date.strptime s); [discriminate|].
      destruct (truthy_str (Args.start_date args)) as [s'|];
        [destruct (Date.strptime s')|]; discriminate. }
  eauto.
Qed.

(** X11 -- The roster listing is ordered. Whenever listRosterEntries
    returns entries, the status is 200, the total is the number of entries
    returned, the dates of the entries never decrease along the list, and
    entries come with their shift row in non-decreasing order of (date,
    start time of the shift). *)
Theorem get_roster_sorted (uid : Z) (args : Args.t) (db : database)
  (l : list ShiftRoster.t) (n : nat) (code : Z) :
  get_roster uid args db = (roster_doc l n, code) ->
  code = 200
  /\ n = List.length l
  /\ Sorted (fun a b => Date.leb (ShiftRoster.date a) (ShiftRoster.date b)
                        = true) l
  /\ exists pairs,
       l = map fst pairs
       /\ Sorted (fun p q => order_leb p q = true) pairs
       /\ forall p, In p pairs ->
            In (fst p) (shift_roster db)
            /\ In (snd p) (shifts db)
            /\ Shift.id (snd p) = ShiftRoster.shift_id (fst p).
Proof.
  intros Hres.
  destruct (get_roster_listing uid args db l n code Hres)
    as (cur & sd & ed & Hcur & Hsd & Hed).
  rewrite (get_roster_result uid args db cur sd ed Hcur Hsd Hed) in Hres.
  cbv zeta in Hres. inversion Hres; subst.
  split; [reflexivity|]. split; [reflexivity|].
  split; [apply sorted_dates, order_by_sorted|].
  eexists. split; [reflexivity|]. split; [apply order_by_sorted|].
  intros p Hp. apply (Permutation_in _ (order_by_perm _)) in Hp.
  destruct (join_shift_pairs _ _ p Hp) as [H1 H2].
  split; [|split; assumption].
  apply join_shift_fst_in in Hp. apply filter_In in Hp. destruct Hp as [Hp _].
  destruct (String.eqb (snd cur) "Admin"); [exact Hp|].
  destruct (String.eqb (snd cur) "Manager"); [exact Hp|].
  apply filter_In in Hp. tauto.
Qed.

Lemma get_roster_sorted_witness :
  get_roster 1 Listing.employee_zero Listing.db
  = (roster_doc
       [ShiftRoster.mk 1 7 1 Sample.march_1 8 "pending" None None "" 100;
        ShiftRoster.mk 2 8 2 Sample.march_1 8 "pending" None None "" 101]
       2, 200)
  /\ Sorted (fun a b => Date.leb (ShiftRoster.date a) (ShiftRoster.date b)
                        = true)
       [ShiftRoster.mk 1 7 1 Sample.march_1 8 "pending" None None "" 100;
        ShiftRoster.mk 2 8 2 Sample.march_1 8 "pending" None None "" 101].
Proof.
  split; [reflexivity|].
  exact (proj1 (proj2 (proj2 (get_roster_sorted 1 Listing.employee_zero
                                Listing.db _ 2%nat 200 eq_refl)))).
Defined.

(** X12 -- A principal who is neither Admin nor Manager is shown all of
    their own entries that pass the filters in force, none withheld: on a
    database that satisfies the key constraints on shifts, and with date
    filters that parse, the listing is a rearrangement of exactly the
    roster entries of the principal that pass the filters. *)
Theorem get_roster_own_entries (uid : Z) (args : Args.t) (db : database)
  (u : User.t) (role : string) (sd ed : option Date.t) :
  current_user_role db uid = Next (u, role) ->
  contains_str managers role = false ->
  shift_key_ok db ->
  filter_date (Args.start_date args) = Some sd ->
  filter_date (Args.end_date args) = Some ed ->
  exists l,
    get_roster uid args db = (roster_doc l (List.length l), 200)
    /\ Permutation l
         (filter (fun r => (ShiftRoster.employee_id r =? uid)
                           && passes_filters args sd ed r)
                 (shift_roster db)).
Proof.
  intros Hcur Hrole [Hnd Hfk] Hsd Hed.
  assert (Huid : User.id u = uid).
  { unfold current_user_role, get_current_user in Hcur.
    destruct (User_get db uid) as [u0|] eqn:Eu; [|discriminate].
    destruct (role_ref db u0); [|discriminate].
    inversion Hcur; subst. eapply User_get_id; eauto. }
  apply not_managers_role in Hrole. destruct Hrole as [Ha Hm].
  rewrite (get_roster_result uid args db (u, role) sd ed Hcur Hsd Hed).
  cbn [fst snd]. rewrite Ha, Hm, Huid. cbv zeta.
  eexists. split; [reflexivity|].
  rewrite (Permutation_map fst (order_by_perm _)).
  rewrite join_shift_key; [|exact Hnd|].
  - rewrite filter_and. reflexivity.
  - intros r Hr. apply filter_In in Hr. destruct Hr as [Hr _].
    apply filter_In in Hr. apply Hfk. tauto.
Qed.

Lemma shift_key_ok_listing : shift_key_ok Listing.db.
Proof.
  split.
  - repeat constructor; simpl; intuition discriminate.
  - intros r [<- | [<- | []]]; simpl; tauto.
Defined.

Lemma get_roster_own_entries_witness :
  (current_user_role Listing.db 8 = Next (User.mk 8 3, "Employee")
   /\ contains_str managers "Employee" = false
   /\ shift_key_ok Listing.db
   /\ filter_date None = Some None)
  /\ exists l,
       get_roster 8 (Args.mk None None None None None) Listing.db
       = (roster_doc l (List.length l), 200)
       /\ Permutation l
            [ShiftRoster.mk 2 8 2 Sample.march_1 8 "pending" None None ""
                            101].
Proof.
  split.
  { split; [reflexivity|]. split; [reflexivity|].
    split; [exact shift_key_ok_listing | reflexivity]. }
  exact (get_roster_own_entries 8 (Args.mk None None None None None)
           Listing.db (User.mk 8 3) "Employee" None None eq_refl eq_refl
           shift_key_ok_listing eq_refl eq_refl).
Defined.

(** X13 -- Date filters of the listing that do not parse are refused,
    the start date first: a non-empty ASCII start_date that is not a date
    gives 400 "Invalid start_date format. Use YYYY-MM-DD" whatever the
    other filters; with a start date that parses or is not applied, a
    non-empty ASCII end_date that is not a date gives the 400 error for
    end_date. An empty date string is not an error: the filter is not
    applied. *)
Theorem get_roster_bad_dates (uid : Z) (args : Args.t) (db : database)
  (cur : User.t * string) :
  current_user_role db uid = Next cur ->
  (forall s, truthy_str (Args.start_date args) = Some s ->
             isascii s = true -> Date.strptime s = None ->
             get_roster uid args db
             = (error "Invalid start_date format. Use YYYY-MM-DD", 400))
  /\ (forall sd e, filter_date (Args.start_date args) = Some sd ->
                   truthy_str (Args.end_date args) = Some e ->
                   isascii e = true -> Date.strptime e = None ->
                   get_roster uid args db
                   = (error "Invalid end_date format. Use YYYY-MM-DD", 400))
  /\ (Args.start_date args = Some "" -> Args.end_date args = Some "" ->
      exists l, get_roster uid args db = (roster_doc l (List.length l), 200)).
Proof.
  intros Hcur. split; [|split].
  - intros s Hs _ Hp. unfold get_roster, raising. rewrite Hcur, Hs, Hp.
    reflexivity.
  - intros sd e Hsd He _ Hp. unfold get_roster, raising, filter_date in *.
    rewrite Hcur, He, Hp.
    destruct (truthy_str (Args.start_date args)) as [s|]; [|reflexivity].
    destruct (Date.strptime s); [reflexivity | discriminate].
  - intros Hs He.
    rewrite (get_roster_result uid args db cur None None Hcur).
    + eexists. reflexivity.
    + rewrite Hs. reflexivity.
    + rewrite He. reflexivity.
Qed.

Lemma get_roster_bad_dates_witness :
  current_user_role Listing.db 7 = Next (User.mk 7 3, "Employee")
  /\ get_roster 7 (Args.mk (Some "01/03/2024") None None None None)
                Listing.db
     = (error "Invalid start_date format. Use YYYY-MM-DD", 400).
Proof.
  split; [reflexivity|].
  exact (proj1 (get_roster_bad_dates 7
                  (Args.mk (Some "01/03/2024") None None None None)
                  Listing.db _ eq_refl) "01/03/2024" eq_refl eq_refl
           eq_refl).
Defined.

(** ** Operations in sequence *)

Lemma approve_roster_entry_decided (now uid rid : Z) (data : Json.t)
  (db : database) (r : ShiftRoster.t) (action : string) :
  is_manager db uid = true ->
  ShiftRoster_get db rid = Some r ->
  Json.action data = Some action ->
  action = "approve" \/ action = "reject" ->
  approve_roster_entry now uid rid data db
  = ((roster_entry_doc ("Roster entry " ++ action ++ "d successfully")
        (decided now uid action (Json.notes data) r), 200),
     session_update (decided now uid action (Json.notes data) r) db).
Proof.
  intros Hman Hr Hact Hcase.
  apply is_manager_role in Hman. destruct Hman as (cur & Hcur & Hrole & Hid).
  unfold approve_roster_entry, finish, raising.
  rewrite Hcur, Hrole, Hr, Hact.
  assert (Hin : contains_str ["approve"; "reject"] action = true)
    by (destruct Hcase; subst; reflexivity).
  rewrite Hin, Hid. cbv beta iota zeta.
  destruct (Json.notes data); reflexivity.
Qed.

Lemma session_update_twice (a b : ShiftRoster.t) (db : database) :
  ShiftRoster.id a = ShiftRoster.id b ->
  session_update b (session_update a db) = session_update b db.
Proof.
  intros Hid. unfold session_update, with_shift_roster; simpl. f_equal.
  rewrite map_map. apply map_ext. intros x.
  destruct (ShiftRoster.id x =? ShiftRoster.id a) eqn:E.
  - rewrite Hid, Z.eqb_refl. rewrite Hid in E. rewrite E. reflexivity.
  - reflexivity.
Qed.

(** X14 -- The last decision wins. When two setRosterEntryStatus calls by
    Manager or Admin principals follow each other on the same entry,
    whatever the first decided, the entry ends with the status of the
    second action, the second principal as approver and the second time as
    approved-at; its notes are those of the second call if it supplied
    any, else those of the first if it supplied any, else the old ones.
    When the second call supplies notes, or the first supplied none, the
    database is exactly what the second call alone would have produced. *)
Theorem approve_last_wins (now1 now2 uid1 uid2 rid : Z) (data1 data2 : Json.t)
  (db : database) (r : ShiftRoster.t) (action1 action2 : string) :
  is_manager db uid1 = true ->
  is_manager db uid2 = true ->
  ShiftRoster_get db rid = Some r ->
  Json.action data1 = Some action1 ->
  action1 = "approve" \/ action1 = "reject" ->
  Json.action data2 = Some action2 ->
  action2 = "approve" \/ action2 = "reject" ->
  exists r2,
    ShiftRoster_get
      (run [ApproveRosterEntry now1 uid1 rid data1;
            ApproveRosterEntry now2 uid2 rid data2] db) rid = Some r2
    /\ ShiftRoster.status r2
       = (if String.eqb action2 "approve" then "approved" else "rejected")
    /\ ShiftRoster.approved_by r2 = Some uid2
    /\ ShiftRoster.approved_at r2 = Some now2
    /\ ShiftRoster.notes r2
       = match Json.notes data2, Json.notes data1 with
         | Some v, _ => v
         | None, Some v => v
         | None, None => ShiftRoster.notes r
         end
    /\ (Json.notes data2 <> None \/ Json.notes data1 = None ->
        run [ApproveRosterEntry now1 uid1 rid data1;
             ApproveRosterEntry now2 uid2 rid data2] db
        = run [ApproveRosterEntry now2 uid2 rid data2] db).
Proof.
  intros Hm1 Hm2 Hr Ha1 Hc1 Ha2 Hc2.
  pose proof (ShiftRoster_get_id db rid r Hr) as Hid.
  set (r1 := decided now1 uid1 action1 (Json.notes data1) r).
  assert (Hstep1 : snd (handle (ApproveRosterEntry now1 uid1 rid data1) db)
                   = session_update r1 db).
  { simpl. rewrite (approve_roster_entry_decided now1 uid1 rid data1 db r
                      action1 Hm1 Hr Ha1 Hc1). reflexivity. }
  assert (Hr1 : ShiftRoster_get (session_update r1 db) rid = Some r1).
  { apply (get_update_same db r1 r rid Hr). exact Hid. }
  assert (Hm2' : is_manager (session_update r1 db) uid2 = true) by exact Hm2.
  set (r2 := decided now2 uid2 action2 (Json.notes data2) r1).
  assert (Hrun : run [ApproveRosterEntry now1 uid1 rid data1;
                      ApproveRosterEntry now2 uid2 rid data2] db
                 = session_update r2 db).
  { change (run [ApproveRosterEntry now1 uid1 rid data1;
                 ApproveRosterEntry now2 uid2 rid data2] db)
      with (snd (approve_roster_entry now2 uid2 rid data2
                   (snd (handle (ApproveRosterEntry now1 uid1 rid data1)
                                db)))).
    rewrite Hstep1.
    rewrite (approve_roster_entry_decided now2 uid2 rid data2 _ r1 action2
               Hm2' Hr1 Ha2 Hc2).
    apply session_update_twice. reflexivity. }
  exists r2. rewrite Hrun.
  split. { apply (get_update_same db r2 r rid Hr). exact Hid. }
  split; [reflexivity|]. split; [reflexivity|]. split; [reflexivity|].
  split. { unfold r2, r1; simpl. destruct (Json.notes data2),
             (Json.notes data1); reflexivity. }
  intros Hnotes.
  change (run [ApproveRosterEntry now2 uid2 rid data2] db)
    with (snd (approve_roster_entry now2 uid2 rid data2 db)).
  rewrite (approve_roster_entry_decided now2 uid2 rid data2 db r action2
             Hm2 Hr Ha2 Hc2).
  cbn [snd]. f_equal. unfold r2, r1, decided; simpl.
  destruct (Json.notes data2) as [n2|]; [reflexivity|].
  destruct Hnotes as [H|H]; [contradiction H; reflexivity|].
  rewrite H. reflexivity.
Qed.

Lemma approve_last_wins_witness :
  (is_manager Listing.db 1 = true
   /\ is_manager Listing.db 2 = true
   /\ ShiftRoster_get Listing.db 1
      = Some (ShiftRoster.mk 1 7 1 Sample.march_1 8 "pending" None None ""
                             100))
  /\ exists r2,
       ShiftRoster_get
         (run [ApproveRosterEntry 150 1 1 Terminal.approve;
               ApproveRosterEntry 200 2 1 Terminal.reject] Listing.db) 1
       = Some r2
       /\ ShiftRoster.status r2 = "rejected"
       /\ ShiftRoster.approved_by r2 = Some 2.
Proof.
  split; [repeat split|].
  destruct (approve_last_wins 150 200 1 2 1 Terminal.approve Terminal.reject
              Listing.db _ "approve" "reject" eq_refl eq_refl eq_refl
              eq_refl (or_introl eq_refl) eq_refl (or_intror eq_refl))
    as (r2 & Hget & Hst & Hby & _).
  exists r2. repeat split; assumption.
Defined.

Lemma next_id_fresh (l : list ShiftRoster.t) (r : ShiftRoster.t) :
  In r l -> ShiftRoster.id r < next_id l.
Proof.
  unfold next_id. induction l as [|x l IH]; intros Hin; [contradiction|].
  cbn [map fold_right].
  pose proof (Z.le_max_l (ShiftRoster.id x)
                (fold_right Z.max 0 (map ShiftRoster.id l))) as Hl.
  pose proof (Z.le_max_r (ShiftRoster.id x)
                (fold_right Z.max 0 (map ShiftRoster.id l))) as Hr.
  destruct Hin as [->|Hin]; [lia|].
  specialize (IH Hin). lia.
Qed.

Lemma find_fresh (l : list ShiftRoster.t) :
  find (fun r => ShiftRoster.id r =? next_id l) l = None.
Proof.
  destruct (find _ l) as [r|] eqn:E; [|reflexivity].
  apply find_key in E. destruct E as [E Hin]. apply Z.eqb_eq in E.
  pose proof (next_id_fresh l r Hin). lia.
Qed.

Lemma filter_fresh (l : list ShiftRoster.t) :
  filter (fun r => negb (ShiftRoster.id r =? next_id l)) l = l.
Proof.
  apply forallb_filter_id. apply forallb_forall. intros r Hin.
  pose proof (next_id_fresh l r Hin).
  apply negb_true_iff, Z.eqb_neq. lia.
Qed.

Lemma find_app_none {A : Type} (f : A -> bool) (l : list A) (x : A) :
  find f l = None -> f x = true -> find f (l ++ [x]) = Some x.
Proof.
  intros Hl Hx. induction l as [|y l IH]; simpl in *.
  - rewrite Hx. reflexivity.
  - destruct (f y); [discriminate | auto].
Qed.

(** X15 -- Create, fetch, delete. A successful createRosterEntry returns
    the new entry under an id that no entry had; the entry is then fetched
    under that id, and all earlier entries are fetched as before. If no
    timesheet refers to the new id, deleting it as a Manager or Admin
    restores the database that creation started from. *)
Theorem create_then_delete (now uid uid' : Z) (data : Json.t)
  (db : database) :
  succeeded (fst (create_roster_entry now uid data db)) = true ->
  exists msg row,
    fst (create_roster_entry now uid data db) = (roster_entry_doc msg row, 201)
    /\ ShiftRoster_get db (ShiftRoster.id row) = None
    /\ ShiftRoster_get (snd (create_roster_entry now uid data db))
                       (ShiftRoster.id row) = Some row
    /\ (forall pk r, ShiftRoster_get db pk = Some r ->
          ShiftRoster_get (snd (create_roster_entry now uid data db)) pk
          = Some r)
    /\ (is_manager db uid' = true ->
        roster_timesheets db row = [] ->
        run [CreateRosterEntry now uid data;
             DeleteRosterEntry uid' (ShiftRoster.id row)] db = db).
Proof.
  intros Hok.
  destruct (create_roster_entry_cases now uid data db)
    as [[_ Hfail] | (e & s & ds & d & h & _ & _ & _ & _ & _ & _ & Heq)].
  { rewrite Hfail in Hok. discriminate. }
  set (row := new_ShiftRoster (next_id (shift_roster db)) now e s d h
                              (notes_or_empty data)) in *.
  assert (Hget : ShiftRoster_get
                   (with_shift_roster db (shift_roster db ++ [row]))
                   (ShiftRoster.id row) = Some row).
  { unfold ShiftRoster_get; simpl.
    apply find_app_none; [apply find_fresh | apply Z.eqb_refl]. }
  exists "Roster entry created successfully", row. rewrite Heq. cbn [fst snd].
  split; [reflexivity|].
  split; [apply find_fresh|].
  split; [exact Hget|].
  split; [intros pk r Hr; apply get_append; exact Hr|].
  intros Hman Hts.
  change (run [CreateRosterEntry now uid data;
               DeleteRosterEntry uid' (ShiftRoster.id row)] db)
    with (snd (delete_roster_entry uid' (ShiftRoster.id row)
                 (snd (create_roster_entry now uid data db)))).
  rewrite Heq. cbn [snd].
  apply is_manager_role in Hman. destruct Hman as (cur & Hcur & Hrole & _).
  unfold delete_roster_entry, finish, raising.
  change (current_user_role
            (with_shift_roster db (shift_roster db ++ [row])) uid')
    with (current_user_role db uid').
  rewrite Hcur, Hrole, Hget.
  change (roster_timesheets
            (with_shift_roster db (shift_roster db ++ [row])) row)
    with (roster_timesheets db row).
  rewrite Hts. cbn [snd].
  unfold session_delete, with_shift_roster; simpl.
  rewrite filter_app, filter_fresh. simpl. rewrite Z.eqb_refl. simpl.
  rewrite app_nil_r. destruct db; reflexivity.
Qed.

Lemma create_then_delete_witness :
  succeeded
    (fst (create_roster_entry 100 1 (Sample.entry 7 1 "2024-03-01")
            Sample.empty_db)) = true
  /\ exists msg row,
       fst (create_roster_entry 100 1 (Sample.entry 7 1 "2024-03-01")
              Sample.empty_db) = (roster_entry_doc msg row, 201)
       /\ ShiftRoster_get
            (snd (create_roster_entry 100 1 (Sample.entry 7 1 "2024-03-01")
                    Sample.empty_db)) (ShiftRoster.id row) = Some row.
Proof.
  split; [reflexivity|].
  destruct (create_then_delete 100 1 2 (Sample.entry 7 1 "2024-03-01")
              Sample.empty_db eq_refl) as (msg & row & H1 & _ & H2 & _).
  exists msg, row. split; assumption.
Defined.

(** ** The deletion of a shift *)

Lemma find_filter_other (l : list Shift.t) (removed pk : Z) :
  pk <> removed ->
  find (fun s => Shift.id s =? pk)
       (filter (fun s => negb (Shift.id s =? removed)) l)
  = find (fun s => Shift.id s =? pk) l.
Proof.
  intros Hne. induction l as [|x l IH]; simpl; [reflexivity|].
  destruct (Shift.id x =? removed) eqn:E; simpl.
  - apply Z.eqb_eq in E.
    assert (E2 : (Shift.id x =? pk) = false) by (apply Z.eqb_neq; congruence).
    rewrite E2. exact IH.
  - destruct (Shift.id x =? pk); [reflexivity | exact IH].
Qed.

(** X16 -- deleteShift never removes a shift that the roster uses. Under
    any reading of the permissions of a role, the request is answered, in
    this order: 404 "User not found" when the principal is no user, 403
    "User has no role assigned" when the user has no role, 403
    "Permission manage_shifts required" when the role lacks the
    permission, 404 "Shift not found" for an unknown shift id, 400 for a
    shift that some roster entry names; in each of these cases the
    database is exactly what it was. Otherwise the answer is 200 and the
    database is the old one without the shift row. In every case each
    roster entry names the same shift row after the request as before it,
    so referential integrity of the roster is kept. *)
Theorem delete_shift_keeps_references (permitted : Role.t -> string -> bool)
  (uid shift_id : Z) (db : database) :
  (User_get db uid = None ->
   delete_shift permitted uid shift_id db
   = ((error "User not found", 404), db))
  /\ (forall u, User_get db uid = Some u -> role_ref db u = None ->
        delete_shift permitted uid shift_id db
        = ((error "User has no role assigned", 403), db))
  /\ (forall u role,
        User_get db uid = Some u -> role_ref db u = Some role ->
        permitted role "manage_shifts" = false ->
        delete_shift permitted uid shift_id db
        = ((error "Permission manage_shifts required", 403), db))
  /\ (forall u role,
        User_get db uid = Some u -> role_ref db u = Some role ->
        permitted role "manage_shifts" = true ->
        (Shift_get db shift_id = None ->
         delete_shift permitted uid shift_id db
         = ((error "Shift not found", 404), db))
        /\ forall shift,
             Shift_get db shift_id = Some shift ->
             (shift_rosters db shift <> [] ->
              delete_shift permitted uid shift_id db
              = ((error "Cannot delete shift that is used in rosters", 400),
                 db))
             /\ (shift_rosters db shift = [] ->
                 delete_shift permitted uid shift_id db
                 = ((message "Shift deleted successfully", 200),
                    with_shifts db
                      (filter (fun s => negb (Shift.id s =? Shift.id shift))
                              (shifts db)))))
  /\ (forall r, In r (shift_roster db) ->
     Shift_get (snd (delete_shift permitted uid shift_id db))
               (ShiftRoster.shift_id r)
     = Shift_get db (ShiftRoster.shift_id r))
  /\ (references_ok db ->
      references_ok (snd (delete_shift permitted uid shift_id db)))
  /\ (forall shift, Shift_get db shift_id = Some shift ->
        shift_rosters db shift <> [] ->
        snd (delete_shift permitted uid shift_id db) = db
        /\ succeeded (fst (delete_shift permitted uid shift_id db)) = false)
  /\ (succeeded (fst (delete_shift permitted uid shift_id db)) = true ->
      Shift_get (snd (delete_shift permitted uid shift_id db)) shift_id = None
      /\ exists u role,
           User_get db uid = Some u /\ role_ref db u = Some role
           /\ permitted role "manage_shifts" = true).
Proof.
  assert (Hview : forall r, In r (shift_roster db) ->
            Shift_get (snd (delete_shift_view shift_id db))
                      (ShiftRoster.shift_id r)
            = Shift_get db (ShiftRoster.shift_id r)).
  { intros r Hr. unfold delete_shift_view.
    destruct (Shift_get db shift_id) as [shift|] eqn:Hs; [|reflexivity].
    destruct (shift_rosters db shift) as [|x l] eqn:Hu; [|reflexivity].
    cbn [snd]. unfold Shift_get, with_shifts; simpl.
    apply find_filter_other. intros Heq.
    assert (Hin : In r (shift_rosters db shift)).
    { apply filter_In. split; [exact Hr|]. apply Z.eqb_eq. exact Heq. }
    rewrite Hu in Hin. contradiction. }
  assert (Hkeep : forall r, In r (shift_roster db) ->
            Shift_get (snd (delete_shift permitted uid shift_id db))
                      (ShiftRoster.shift_id r)
            = Shift_get db (ShiftRoster.shift_id r)).
  { intros r Hr. unfold delete_shift, permission_required.
    destruct (User_get db uid) as [u|]; [|reflexivity].
    destruct (role_ref db u) as [role|]; [|reflexivity].
    destruct (permitted role "manage_shifts"); [|reflexivity].
    apply Hview. exact Hr. }
  assert (Hframe : exists l,
            snd (delete_shift permitted uid shift_id db) = with_shifts db l).
  { unfold delete_shift, permission_required, delete_shift_view.
    repeat break_match; cbn [snd]; try (eexists; reflexivity);
      exists (shifts db); destruct db; reflexivity. }
  split.
  { intros Hu. unfold delete_shift, permission_required. rewrite Hu.
    reflexivity. }
  split.
  { intros u Hu Hrole. unfold delete_shift, permission_required.
    rewrite Hu, Hrole. reflexivity. }
  split.
  { intros u role Hu Hrole Hp. unfold delete_shift, permission_required.
    rewrite Hu, Hrole, Hp. reflexivity. }
  split.
  { intros u role Hu Hrole Hp. unfold delete_shift, permission_required.
    rewrite Hu, Hrole, Hp. unfold delete_shift_view.
    split; [intros ->; reflexivity|].
    intros shift ->. split.
    - intros Hused. destruct (shift_rosters db shift);
        [contradiction | reflexivity].
    - intros ->. reflexivity. }
  split; [exact Hkeep|]. split; [|split].
  - intros Hdb r Hr.
    destruct Hframe as [l Hl].
    assert (Hr' : In r (shift_roster db)) by (rewrite Hl in Hr; exact Hr).
    destruct (Hdb r Hr') as (H1 & H2 & H3).
    split; [|split].
    + rewrite Hl. exact H1.
    + rewrite (Hkeep r Hr'). exact H2.
    + intros a Ha. rewrite Hl. apply (H3 a Ha).
  - intros shift Hs Hused. unfold delete_shift, permission_required.
    destruct (User_get db uid) as [u|]; [|split; reflexivity].
    destruct (role_ref db u) as [role|]; [|split; reflexivity].
    destruct (permitted role "manage_shifts"); [|split; reflexivity].
    unfold delete_shift_view. rewrite Hs.
    destruct (shift_rosters db shift); [contradiction|]. split; reflexivity.
  - unfold delete_shift, permission_required.
    destruct (User_get db uid) as [u|]; [|discriminate].
    destruct (role_ref db u) as [role|] eqn:Hrole; [|discriminate].
    destruct (permitted role "manage_shifts") eqn:Hp; [|discriminate].
    unfold delete_shift_view.
    destruct (Shift_get db shift_id) as [shift|] eqn:Hs; [|discriminate].
    destruct (shift_rosters db shift); [|discriminate].
    intros _. split; [|exists u, role; repeat split; assumption].
    cbn [snd]. unfold Shift_get, with_shifts; simpl.
    apply find_key in Hs. destruct Hs as [Hid _]. apply Z.eqb_eq in Hid.
    rewrite Hid.
    induction (shifts db) as [|x l IH]; simpl; [reflexivity|].
    destruct (Shift.id x =? shift_id) eqn:E; simpl; [exact IH|].
    rewrite E. exact IH.
Qed.

Lemma delete_shift_keeps_references_witness :
  references_ok Listing.db
  /\ references_ok
       (snd (delete_shift (fun role _ => String.eqb (Role.name role) "Admin")
                          1 3 Listing.db))
  /\ Shift_get
       (snd (delete_shift (fun role _ => String.eqb (Role.name role) "Admin")
                          1 3 Listing.db)) 3 = None
  /\ delete_shift (fun role _ => String.eqb (Role.name role) "Admin")
                  7 3 Listing.db
     = ((error "Permission manage_shifts required", 403), Listing.db).
Proof.
  assert (H : references_ok Listing.db).
  { intros r [<- | [<- | []]]; repeat split; simpl; discriminate. }
  split; [exact H|]. split; [|split].
  - destruct (delete_shift_keeps_references
                (fun role _ => String.eqb (Role.name role) "Admin")
                1 3 Listing.db) as (_ & _ & _ & _ & _ & Href & _).
    exact (Href H).
  - reflexivity.
  - destruct (delete_shift_keeps_references
                (fun role _ => String.eqb (Role.name role) "Admin")
                7 3 Listing.db) as (_ & _ & Hperm & _).
    exact (Hperm (User.mk 7 3) (Role.mk 3 "Employee") eq_refl eq_refl
             eq_refl).
Defined.

(** ** The status of an employee today *)

Lemma leave_not_shift (t : string) : t ++ "_leave" <> "shift".
Proof.
  destruct t as [|a [|b [|c [|d [|e [|f t]]]]]]; simpl; discriminate.
Qed.

Lemma today_roster_iff (db : database) (today : Date.t) (employee : Z) :
  today_roster db today employee <> None
  <-> exists r, In r (shift_roster db)
                /\ ShiftRoster.employee_id r = employee
                /\ ShiftRoster.date r = today
                /\ ShiftRoster.status r = "approved".
Proof.
  unfold today_roster. split.
  - intros H. destruct (find _ _) as [r|] eqn:E; [|contradiction].
    apply find_key in E. destruct E as [E Hin].
    rewrite !andb_true_iff, Z.eqb_eq, Date_eqb_eq, String.eqb_eq in E.
    exists r. tauto.
  - intros (r & Hin & He & Hd & Hs).
    intros Hnone. eapply find_none in Hnone; [|exact Hin].
    rewrite He, Hd, Hs, Z.eqb_refl, Date_eqb_refl, String.eqb_refl in Hnone.
    discriminate.
Qed.

Lemma on_leave_iff (db : database) (today : Date.t) (employee : Z) :
  on_leave db today employee <> None
  <-> exists l, In l (leave_requests db)
                /\ LeaveRequest.employee_id l = employee
                /\ LeaveRequest.status l = "approved"
                /\ Reference.le (LeaveRequest.start_date l) today
                /\ Reference.le today (LeaveRequest.end_date l).
Proof.
  unfold on_leave. split.
  - intros H. destruct (find _ _) as [l|] eqn:E; [|contradiction].
    apply find_key in E. destruct E as [E Hin].
    rewrite !andb_true_iff, Z.eqb_eq, !Date_leb_le, String.eqb_eq in E.
    exists l. tauto.
  - intros (l & Hin & He & Hs & H1 & H2).
    intros Hnone. eapply find_none in Hnone; [|exact Hin].
    apply Date_leb_le in H1, H2.
    rewrite He, Hs, H1, H2, Z.eqb_refl, String.eqb_refl in Hnone.
    discriminate.
Qed.

(** X17 -- The status that the skill search reports for an employee
    today. Leave takes precedence: if an approved leave request of the
    employee covers today, the status is "on_<leave type>_leave" of such a
    request, also when the employee has an approved roster entry today
    (which is still returned as today's shift). Without such a leave the
    status is "on_shift" if an approved roster entry of the employee is
    dated today, else "available". Conversely "available" is reported only
    when there is neither, and "on_shift" only when there is a shift and no
    leave. *)
Theorem shift_status_classification (db : database) (today : Date.t)
  (employee : Z) :
  let leave_today :=
    exists l, In l (leave_requests db)
              /\ LeaveRequest.employee_id l = employee
              /\ LeaveRequest.status l = "approved"
              /\ Reference.le (LeaveRequest.start_date l) today
              /\ Reference.le today (LeaveRequest.end_date l) in
  let shift_today :=
    exists r, In r (shift_roster db)
              /\ ShiftRoster.employee_id r = employee
              /\ ShiftRoster.date r = today
              /\ ShiftRoster.status r = "approved" in
  (leave_today ->
   exists l, In l (leave_requests db)
             /\ LeaveRequest.employee_id l = employee
             /\ LeaveRequest.status l = "approved"
             /\ Reference.le (LeaveRequest.start_date l) today
             /\ Reference.le today (LeaveRequest.end_date l)
             /\ fst (shift_status db today employee)
                = "on_" ++ LeaveRequest.leave_type l ++ "_leave")
  /\ (~ leave_today -> shift_today ->
      fst (shift_status db today employee) = "on_shift")
  /\ (~ leave_today -> ~ shift_today ->
      fst (shift_status db today employee) = "available")
  /\ (fst (shift_status db today employee) = "available" ->
      ~ leave_today /\ ~ shift_today)
  /\ (fst (shift_status db today employee) = "on_shift" ->
      ~ leave_today /\ shift_today)
  /\ (shift_today <-> snd (shift_status db today employee) <> None).
Proof.
  intros leave_today shift_today.
  pose proof (on_leave_iff db today employee) as Hl.
  pose proof (today_roster_iff db today employee) as Hr.
  fold leave_today in Hl. fold shift_today in Hr.
  unfold shift_status. cbn [fst snd].
  split; [|split; [|split; [|split; [|split]]]].
  - intros Hleave. apply Hl in Hleave.
    destruct (on_leave db today employee) as [l|] eqn:E; [|contradiction].
    unfold on_leave in E. apply find_key in E. destruct E as [E Hin].
    rewrite !andb_true_iff, Z.eqb_eq, !Date_leb_le, String.eqb_eq in E.
    exists l. tauto.
  - intros Hno Hshift.
    destruct (on_leave db today employee) as [l|].
    { exfalso. apply Hno, Hl. discriminate. }
    apply Hr in Hshift.
    destruct (today_roster db today employee); [reflexivity|contradiction].
  - intros Hno Hnos.
    destruct (on_leave db today employee) as [l|].
    { exfalso. apply Hno, Hl. discriminate. }
    destruct (today_roster db today employee); [|reflexivity].
    exfalso. apply Hnos, Hr. discriminate.
  - destruct (on_leave db today employee) as [l|]; [discriminate|].
    destruct (today_roster db today employee); [discriminate|].
    intros _. split; intros H; [apply Hl in H | apply Hr in H]; contradiction.
  - destruct (on_leave db today employee) as [l|].
    { simpl. intros H. inversion H as [H']. apply leave_not_shift in H'.
      contradiction. }
    destruct (today_roster db today employee); [|discriminate].
    intros _. split; [intros H; apply Hl in H; contradiction|].
    apply Hr. discriminate.
  - symmetry. exact Hr.
Qed.

Lemma shift_status_classification_witness :
  (exists l, In l (leave_requests E7.db)
             /\ LeaveRequest.employee_id l = 7
             /\ LeaveRequest.status l = "approved"
             /\ Reference.le (LeaveRequest.start_date l) Sample.march_1
             /\ Reference.le Sample.march_1 (LeaveRequest.end_date l))
  /\ exists l, In l (leave_requests E7.db)
               /\ fst (shift_status E7.db Sample.march_1 7)
                  = "on_" ++ LeaveRequest.leave_type l ++ "_leave".
Proof.
  assert (H : exists l, In l (leave_requests E7.db)
                        /\ LeaveRequest.employee_id l = 7
                        /\ LeaveRequest.status l = "approved"
                        /\ Reference.le (LeaveRequest.start_date l)
                                        Sample.march_1
                        /\ Reference.le Sample.march_1
                                        (LeaveRequest.end_date l)).
  { eexists. split; [left; reflexivity|]. split; [reflexivity|].
    split; [reflexivity|]. split.
    - right. split; [reflexivity|]. right. split; [reflexivity|].
      apply Z.le_refl.
    - right. split; [reflexivity|]. right. split; [reflexivity|].
      discriminate. }
  split; [exact H|].
  destruct (proj1 (shift_status_classification E7.db Sample.march_1 7) H)
    as (l & Hin & _ & _ & _ & _ & Hst).
  exists l. split; assumption.
Defined.

(** ** The calendar *)

Lemma valid_date_iff (d : Date.t) :
  valid_date d
  <-> 1 <= Date.year d <= 9999 /\ 1 <= Date.month d <= 12
      /\ 1 <= Date.day d <= Date.days_in_month (Date.year d) (Date.month d).
Proof.
  unfold valid_date, Date.make. destruct d as [y m d]; simpl.
  destruct ((1 <=? y) && (y <=? 9999) && (1 <=? m) && (m <=? 12)
            && (1 <=? d) && (d <=? Date.days_in_month y m)) eqn:E.
  - rewrite !andb_true_iff, !Z.leb_le in E. split; [lia | reflexivity].
  - split; [discriminate|]. intros H.
    assert (E' : (1 <=? y) && (y <=? 9999) && (1 <=? m) && (m <=? 12)
                 && (1 <=? d) && (d <=? Date.days_in_month y m) = true).
    { rewrite !andb_true_iff, !Z.leb_le. lia. }
    congruence.
Qed.

Lemma days_in_month_bounds (y m : Z) :
  28 <= Date.days_in_month y m <= 31.
Proof.
  unfold Date.days_in_month.
  destruct (m =? 2); [destruct (Date.is_leap y); lia|].
  destruct ((m =? 4) || (m =? 6) || (m =? 9) || (m =? 11)); lia.
Qed.

Lemma days_before_month_next (y m : Z) :
  1 <= m <= 11 ->
  Date.days_before_month y (m + 1)
  = Date.days_before_month y m + Date.days_in_month y m.
Proof.
  intros Hm.
  assert (Hc : m = 1 \/ m = 2 \/ m = 3 \/ m = 4 \/ m = 5 \/ m = 6 \/ m = 7
               \/ m = 8 \/ m = 9 \/ m = 10 \/ m = 11) by lia.
  unfold Date.days_before_month, Date.days_in_month.
  destruct Hc as [->|[->|[->|[->|[->|[->|[->|[->|[->|[->| ->]]]]]]]]]];
    simpl; destruct (Date.is_leap y); reflexivity.
Qed.

Lemma days_before_december (y : Z) :
  Date.days_before_month y 12 + 31 = if Date.is_leap y then 366 else 365.
Proof.
  unfold Date.days_before_month, Date.days_in_month. simpl.
  destruct (Date.is_leap y); reflexivity.
Qed.

Lemma days_before_january (y : Z) : Date.days_before_month y 1 = 0.
Proof. reflexivity. Qed.

Lemma days_before_year_next (y : Z) :
  Date.days_before_year (y + 1)
  = Date.days_before_year y + (if Date.is_leap y then 366 else 365).
Proof.
  unfold Date.days_before_year, Date.is_leap.
  replace (y + 1 - 1) with y by lia.
  destruct (Z.eqb_spec (y mod 4) 0), (Z.eqb_spec (y mod 100) 0),
    (Z.eqb_spec (y mod 400) 0); simpl;
    Z.to_euclidean_division_equations; lia.
Qed.

Lemma toordinal_tomorrow (d : Date.t) :
  valid_date d ->
  Date.toordinal (Date.tomorrow d) = Date.toordinal d + 1.
Proof.
  intros Hv. apply valid_date_iff in Hv.
  unfold Date.tomorrow, Date.toordinal.
  destruct (Z.ltb_spec (Date.day d)
              (Date.days_in_month (Date.year d) (Date.month d))); simpl;
    [lia|].
  destruct (Z.ltb_spec (Date.month d) 12); simpl.
  - rewrite days_before_month_next by lia. lia.
  - assert (Hm : Date.month d = 12) by lia.
    rewrite days_before_year_next, days_before_january.
    pose proof (days_before_december (Date.year d)) as Hdec.
    rewrite Hm in *.
    assert (Hd : Date.day d = 31).
    { unfold Date.days_in_month in *. simpl in *. lia. }
    lia.
Qed.

Lemma valid_tomorrow (d : Date.t) :
  valid_date d -> Date.year d < 9999 ->
  valid_date (Date.tomorrow d)
  /\ Date.year d <= Date.year (Date.tomorrow d) <= Date.year d + 1.
Proof.
  intros Hv Hy. apply valid_date_iff in Hv. rewrite valid_date_iff.
  unfold Date.tomorrow.
  destruct (Z.ltb_spec (Date.day d)
              (Date.days_in_month (Date.year d) (Date.month d))); simpl;
    [lia|].
  destruct (Z.ltb_spec (Date.month d) 12); simpl.
  - pose proof (days_in_month_bounds (Date.year d) (Date.month d + 1)). lia.
  - pose proof (days_in_month_bounds (Date.year d + 1) 1). lia.
Qed.

Lemma toordinal_yesterday (d : Date.t) :
  valid_date d ->
  Date.toordinal (Date.yesterday d) = Date.toordinal d - 1.
Proof.
  intros Hv. apply valid_date_iff in Hv.
  unfold Date.yesterday, Date.toordinal.
  destruct (Z.ltb_spec 1 (Date.day d)); simpl; [lia|].
  destruct (Z.ltb_spec 1 (Date.month d)); simpl.
  - pose proof (days_before_month_next (Date.year d) (Date.month d - 1)) as H1.
    replace (Date.month d - 1 + 1) with (Date.month d) in H1 by lia.
    rewrite H1 by lia. lia.
  - assert (Hm : Date.month d = 1) by lia.
    pose proof (days_before_year_next (Date.year d - 1)) as H1.
    replace (Date.year d - 1 + 1) with (Date.year d) in H1 by lia.
    pose proof (days_before_december (Date.year d - 1)) as Hdec.
    rewrite Hm, days_before_january. lia.
Qed.

Lemma valid_yesterday (d : Date.t) :
  valid_date d -> 1 < Date.year d ->
  valid_date (Date.yesterday d)
  /\ Date.year d - 1 <= Date.year (Date.yesterday d) <= Date.year d.
Proof.
  intros Hv Hy. apply valid_date_iff in Hv. rewrite valid_date_iff.
  unfold Date.yesterday.
  destruct (Z.ltb_spec 1 (Date.day d)); simpl; [lia|].
  destruct (Z.ltb_spec 1 (Date.month d)); simpl.
  - pose proof (days_in_month_bounds (Date.year d) (Date.month d - 1)). lia.
  - pose proof (days_in_month_bounds (Date.year d - 1) 12).
    unfold Date.days_in_month in *. simpl in *. lia.
Qed.

Lemma iter_tomorrow (n : nat) (d : Date.t) :
  valid_date d -> Date.year d + Z.of_nat n <= 9999 ->
  valid_date (Nat.iter n Date.tomorrow d)
  /\ Date.toordinal (Nat.iter n Date.tomorrow d)
     = Date.toordinal d + Z.of_nat n
  /\ Date.year (Nat.iter n Date.tomorrow d) <= Date.year d + Z.of_nat n.
Proof.
  intros Hv. induction n as [|n IH]; intros Hy.
  - simpl. repeat split; [exact Hv | lia | lia].
  - destruct IH as (IHv & IHo & IHy); [lia|].
    change (Nat.iter (S n) Date.tomorrow d)
      with (Date.tomorrow (Nat.iter n Date.tomorrow d)).
    destruct (valid_tomorrow _ IHv) as [Hv' Hy']; [lia|].
    rewrite (toordinal_tomorrow _ IHv).
    repeat split; [exact Hv' | lia | lia].
Qed.

Lemma iter_yesterday (n : nat) (d : Date.t) :
  valid_date d -> 1 <= Date.year d - Z.of_nat n ->
  valid_date (Nat.iter n Date.yesterday d)
  /\ Date.toordinal (Nat.iter n Date.yesterday d)
     = Date.toordinal d - Z.of_nat n
  /\ Date.year d - Z.of_nat n <= Date.year (Nat.iter n Date.yesterday d).
Proof.
  intros Hv. induction n as [|n IH]; intros Hy.
  - simpl. repeat split; [exact Hv | lia | lia].
  - destruct IH as (IHv & IHo & IHy); [lia|].
    change (Nat.iter (S n) Date.yesterday d)
      with (Date.yesterday (Nat.iter n Date.yesterday d)).
    destruct (valid_yesterday _ IHv) as [Hv' Hy']; [lia|].
    rewrite (toordinal_yesterday _ IHv).
    repeat split; [exact Hv' | lia | lia].
Qed.

(** [d + timedelta(days=n)] is the date [n] days away, within a week and
    away from the ends of the calendar. *)
Lemma add_days_toordinal (d : Date.t) (n : Z) :
  valid_date d -> -7 <= n <= 7 -> 8 <= Date.year d <= 9992 ->
  valid_date (Date.add_days d n)
  /\ Date.toordinal (Date.add_days d n) = Date.toordinal d + n.
Proof.
  intros Hv Hn Hy. unfold Date.add_days.
  destruct (Z.leb_spec 0 n).
  - destruct (iter_tomorrow (Z.to_nat n) d Hv) as (H1 & H2 & _); [lia|].
    split; [exact H1|]. rewrite H2. lia.
  - destruct (iter_yesterday (Z.to_nat (- n)) d Hv) as (H1 & H2 & _); [lia|].
    split; [exact H1|]. rewrite H2. lia.
Qed.

Lemma bounded_check (P : nat -> bool) (n k : nat) :
  forallb P (seq 0 n) = true -> (k < n)%nat -> P k = true.
Proof.
  intros H Hk. rewrite forallb_forall in H. apply H. apply in_seq. lia.
Qed.

Lemma years_all :
  years_ok (Z.to_nat 10000) (Decimal.D0 Decimal.Nil) 0 = true.
Proof. vm_compute. reflexivity. Qed.

Lemma years_ok_spec (k : nat) :
  forall (u : Decimal.uint) (i : Z),
    years_ok k u i = true ->
    forall j, (j < k)%nat ->
      year_string_ok (Nat.iter j Decimal.Little.succ u) (i + Z.of_nat j)
      = true.
Proof.
  induction k as [|k IH]; intros u i H j Hj; [lia|].
  simpl in H. apply andb_true_iff in H. destruct H as [H0 H1].
  destruct j as [|j].
  - simpl. rewrite Z.add_0_r. exact H0.
  - rewrite Nat.iter_succ_r.
    replace (i + Z.of_nat (S j)) with (i + 1 + Z.of_nat j) by lia.
    apply IH; [exact H1 | lia].
Qed.

Lemma to_little_uint_iter (n : nat) :
  forall acc,
    Nat.to_little_uint n acc = Nat.iter n Decimal.Little.succ acc.
Proof.
  induction n as [|n IH]; intros acc; [reflexivity|].
  rewrite Nat.iter_succ_r. simpl Nat.to_little_uint. apply IH.
Qed.

Lemma two_digits_all : forallb two_digits_ok (seq 0 100) = true.
Proof. vm_compute. reflexivity. Qed.

Lemma parse_Y_pad (y : Z) (rest : string) :
  1 <= y <= 9999 -> Date.parse_Y (Date.pad 4 y ++ rest) = Some (y, rest).
Proof.
  intros Hy.
  pose proof (years_ok_spec _ _ _ years_all (Z.to_nat y) ltac:(lia)) as H.
  rewrite Z2Nat.id, Z.add_0_l in H by lia.
  unfold year_string_ok in H. rewrite <- to_little_uint_iter in H.
  unfold Date.pad, str, Nat.to_uint. cbv zeta in H |- *.
  destruct (String.concat "" _ ++ _)
    as [|a [|b [|c [|d [|? ?]]]]]; try discriminate.
  simpl append. unfold Date.parse_Y.
  destruct (Date.digit a), (Date.digit b), (Date.digit c), (Date.digit d);
    try discriminate.
  apply Z.eqb_eq in H. rewrite H. reflexivity.
Qed.

Lemma two_digits (n : Z) :
  0 <= n <= 99 ->
  exists a b x y,
    Date.pad 2 n = String a (String b EmptyString)
    /\ Date.digit a = Some x /\ Date.digit b = Some y
    /\ 10 * x + y = n /\ 0 <= x <= 9 /\ 0 <= y <= 9.
Proof.
  intros Hn.
  pose proof (bounded_check _ 100 (Z.to_nat n) two_digits_all) as H.
  unfold two_digits_ok in H. rewrite Z2Nat.id in H by lia.
  specialize (H ltac:(lia)).
  destruct (Date.pad 2 n) as [|a [|b [|? ?]]]; try discriminate.
  destruct (Date.digit a) as [x|] eqn:Ha; [|discriminate].
  destruct (Date.digit b) as [y|] eqn:Hb; [|discriminate].
  rewrite !andb_true_iff, Z.eqb_eq, !Z.leb_le in H.
  exists a, b, x, y. repeat split; try reflexivity; try assumption; lia.
Qed.

Lemma parse_m_pad (m : Z) (rest : string) :
  1 <= m <= 12 -> Date.parse_m (Date.pad 2 m ++ rest) = Some (m, rest).
Proof.
  intros Hm.
  destruct (two_digits m) as (a & b & x & y & -> & Ha & Hb & Hxy & Hx & Hy);
    [lia|].
  simpl append. unfold Date.parse_m. rewrite Ha, Hb.
  assert (Hc : ((x =? 1) && (y <=? 2)) || ((x =? 0) && (1 <=? y)) = true).
  { destruct (Z.eqb_spec x 1), (Z.eqb_spec x 0), (Z.leb_spec y 2),
      (Z.leb_spec 1 y); simpl; try reflexivity; lia. }
  rewrite Hc, Hxy. reflexivity.
Qed.

Lemma parse_d_pad (d : Z) :
  1 <= d <= 31 -> Date.parse_d (Date.pad 2 d) = Some (d, EmptyString).
Proof.
  intros Hd.
  destruct (two_digits d) as (a & b & x & y & -> & Ha & Hb & Hxy & Hx & Hy);
    [lia|].
  unfold Date.parse_d. rewrite Ha, Hb.
  assert (Hc : ((x =? 3) && (y <=? 1)) || (x =? 1) || (x =? 2)
               || ((x =? 0) && (1 <=? y)) = true).
  { destruct (Z.eqb_spec x 3), (Z.eqb_spec x 1), (Z.eqb_spec x 2),
      (Z.eqb_spec x 0), (Z.leb_spec y 1), (Z.leb_spec 1 y); simpl;
      try reflexivity; lia. }
  rewrite Hc, Hxy. reflexivity.
Qed.

(** The parser of this development accepts ASCII strings only: where a
    property assumes that a string parses, the string is one on which the
    parser is that of the code. *)
Lemma isascii_cons (c : ascii) (s : string) :
  isascii (String c s) = ((nat_of_ascii c <? 128)%nat && isascii s)%bool.
Proof. reflexivity. Qed.

Lemma digit_isascii (c : ascii) (x : Z) :
  Date.digit c = Some x -> (nat_of_ascii c <? 128)%nat = true.
Proof.
  unfold Date.digit.
  destruct ((48 <=? Z.of_nat (nat_of_ascii c))
            && (Z.of_nat (nat_of_ascii c) <=? 57)) eqn:E; [|discriminate].
  intros _. apply andb_true_iff in E. destruct E as [_ E].
  apply Z.leb_le in E. apply Nat.ltb_lt. lia.
Qed.

Lemma dash_isascii (s rest : string) :
  Date.dash s = Some rest -> isascii rest = true -> isascii s = true.
Proof.
  destruct s as [|c s]; [discriminate|]. simpl Date.dash.
  destruct (Ascii.eqb_spec c "-"%char) as [->|]; [|discriminate].
  intros H Hr. inversion H; subst. rewrite isascii_cons, Hr. reflexivity.
Qed.

Lemma parse_Y_isascii (s rest : string) (y : Z) :
  Date.parse_Y s = Some (y, rest) -> isascii rest = true ->
  isascii s = true.
Proof.
  destruct s as [|a [|b [|c [|d r]]]]; try discriminate. simpl Date.parse_Y.
  destruct (Date.digit a) eqn:Ha; [|discriminate].
  destruct (Date.digit b) eqn:Hb; [|discriminate].
  destruct (Date.digit c) eqn:Hc; [|discriminate].
  destruct (Date.digit d) eqn:Hd; [|discriminate].
  intros H Hr. inversion H; subst.
  rewrite !isascii_cons, (digit_isascii _ _ Ha), (digit_isascii _ _ Hb),
    (digit_isascii _ _ Hc), (digit_isascii _ _ Hd), Hr. reflexivity.
Qed.

Lemma parse_m_isascii (s rest : string) (m : Z) :
  Date.parse_m s = Some (m, rest) -> isascii rest = true ->
  isascii s = true.
Proof.
  destruct s as [|a s]; [discriminate|]. simpl Date.parse_m.
  destruct (Date.digit a) as [x|] eqn:Ha; [|discriminate].
  pose proof (digit_isascii _ _ Ha) as Ha'.
  assert (Hone : (if 1 <=? x then Some (x, s) else None) = Some (m, rest) ->
                 isascii rest = true -> isascii (String a s) = true).
  { destruct (1 <=? x); [|discriminate]. intros H Hr. inversion H; subst.
    rewrite isascii_cons, Ha', Hr. reflexivity. }
  destruct s as [|b s']; [exact Hone|].
  destruct (Date.digit b) as [y|] eqn:Hb; [|exact Hone].
  destruct (((x =? 1) && (y <=? 2)) || ((x =? 0) && (1 <=? y)));
    [|exact Hone].
  intros H Hr. inversion H; subst.
  rewrite !isascii_cons, Ha', (digit_isascii _ _ Hb), Hr. reflexivity.
Qed.

Lemma parse_d_isascii (s rest : string) (d : Z) :
  Date.parse_d s = Some (d, rest) -> isascii rest = true ->
  isascii s = true.
Proof.
  destruct s as [|a s]; [discriminate|]. simpl Date.parse_d.
  destruct (Date.digit a) as [x|] eqn:Ha.
  - pose proof (digit_isascii _ _ Ha) as Ha'.
    assert (Hone : (if 1 <=? x then Some (x, s) else None) = Some (d, rest) ->
                   isascii rest = true -> isascii (String a s) = true).
    { destruct (1 <=? x); [|discriminate]. intros H Hr. inversion H; subst.
      rewrite isascii_cons, Ha', Hr. reflexivity. }
    destruct s as [|b s']; [exact Hone|].
    destruct (Date.digit b) as [y|] eqn:Hb; [|exact Hone].
    destruct (((x =? 3) && (y <=? 1)) || (x =? 1) || (x =? 2)
              || ((x =? 0) && (1 <=? y))); [|exact Hone].
    intros H Hr. inversion H; subst.
    rewrite !isascii_cons, Ha', (digit_isascii _ _ Hb), Hr. reflexivity.
  - destruct (Ascii.eqb_spec a " "%char) as [->|]; [|discriminate].
    destruct s as [|b s']; [discriminate|].
    destruct (Date.digit b) as [y|] eqn:Hb; [|discriminate].
    destruct (1 <=? y); [|discriminate].
    intros H Hr. inversion H; subst.
    rewrite !isascii_cons, (digit_isascii _ _ Hb), Hr. reflexivity.
Qed.

Lemma strptime_isascii (s : string) (d : Date.t) :
  Date.strptime s = Some d -> isascii s = true.
Proof.
  unfold Date.strptime.
  destruct (Date.parse_Y s) as [[y s1]|] eqn:HY; [|discriminate].
  destruct (Date.dash s1) as [s2|] eqn:H1; [|discriminate].
  destruct (Date.parse_m s2) as [[m s3]|] eqn:Hm; [|discriminate].
  destruct (Date.dash s3) as [s4|] eqn:H2; [|discriminate].
  destruct (Date.parse_d s4) as [[d' [|c r]]|] eqn:Hd; try discriminate.
  intros _.
  apply (parse_Y_isascii _ _ _ HY), (dash_isascii _ _ H1),
    (parse_m_isascii _ _ _ Hm), (dash_isascii _ _ H2),
    (parse_d_isascii _ _ _ Hd).
  reflexivity.
Qed.

(** What [isoformat] writes, [strptime] reads back. *)
Lemma strptime_isoformat (d : Date.t) :
  valid_date d -> Date.strptime (Date.isoformat d) = Some d.
Proof.
  intros Hv. pose proof Hv as Hb. apply valid_date_iff in Hb.
  pose proof (days_in_month_bounds (Date.year d) (Date.month d)).
  unfold Date.strptime, Date.isoformat.
  rewrite parse_Y_pad by lia. simpl append. cbn [Date.dash].
  change (Ascii.eqb "-" "-") with true. cbv iota.
  rewrite parse_m_pad by lia. simpl append. cbn [Date.dash].
  change (Ascii.eqb "-" "-") with true. cbv iota.
  rewrite parse_d_pad by lia. exact Hv.
Qed.

Lemma weekday_bounds (d : Date.t) : 0 <= Date.weekday d < 7.
Proof. unfold Date.weekday. apply Z.mod_pos_bound. lia. Qed.

(** X18 -- The default range of the dashboard is the current week. Called
    without dates by a Manager or Admin principal, on a day [today] that is
    a date of the calendar (years 8 to 9992), getDashboardMetrics answers
    200 with the metrics of the range from the Monday to the Sunday of the
    week of [today]: the two bounds are dates, the first falls on a Monday
    and is at most six days before [today], the second is the Sunday six
    days after the first, and the response names them in ISO form. The
    request is never refused for its dates. *)
Theorem dashboard_default_week (float_sum : list Q -> Q) (today : Date.t)
  (uid : Z) (db : database) :
  is_manager db uid = true ->
  valid_date today ->
  8 <= Date.year today <= 9992 ->
  get_dashboard_metrics float_sum today uid None None db
  = (dashboard_doc
       (Date.isoformat (Date.add_days today (- Date.weekday today)))
       (Date.isoformat (Date.add_days today (6 - Date.weekday today)))
       (dashboard_metrics float_sum
                          (Date.add_days today (- Date.weekday today))
                          (Date.add_days today (6 - Date.weekday today)) db),
     200)
  /\ valid_date (Date.add_days today (- Date.weekday today))
  /\ valid_date (Date.add_days today (6 - Date.weekday today))
  /\ Date.weekday (Date.add_days today (- Date.weekday today)) = 0
  /\ Date.weekday (Date.add_days today (6 - Date.weekday today)) = 6
  /\ Date.toordinal today - 6
     <= Date.toordinal (Date.add_days today (- Date.weekday today))
     <= Date.toordinal today
  /\ Date.toordinal (Date.add_days today (6 - Date.weekday today))
     = Date.toordinal (Date.add_days today (- Date.weekday today)) + 6.
Proof.
  intros Hman Hv Hy.
  pose proof (weekday_bounds today) as Hw.
  destruct (add_days_toordinal today (- Date.weekday today) Hv)
    as [Hv1 Ho1]; [lia | lia |].
  destruct (add_days_toordinal today (6 - Date.weekday today) Hv)
    as [Hv2 Ho2]; [lia | lia |].
  split.
  { apply is_manager_role in Hman. destruct Hman as (cur & Hcur & Hrole & _).
    unfold get_dashboard_metrics, raising. rewrite Hcur, Hrole.
    cbn [truthy_str fst snd].
    rewrite (strptime_isoformat _ Hv1), (strptime_isoformat _ Hv2).
    reflexivity. }
  split; [exact Hv1|]. split; [exact Hv2|].
  split.
  { unfold Date.weekday at 1. rewrite Ho1. unfold Date.weekday.
    Z.to_euclidean_division_equations. lia. }
  split.
  { unfold Date.weekday at 1. rewrite Ho2. unfold Date.weekday.
    Z.to_euclidean_division_equations. lia. }
  split; lia.
Qed.

Lemma dashboard_default_week_witness :
  (is_manager E7.db 1 = true
   /\ valid_date E7.today
   /\ 8 <= Date.year E7.today <= 9992)
  /\ get_dashboard_metrics Sample.unrounded_sum E7.today 1 None None E7.db
     = (dashboard_doc
          (Date.isoformat (Date.add_days E7.today (- Date.weekday E7.today)))
          (Date.isoformat
             (Date.add_days E7.today (6 - Date.weekday E7.today)))
          (dashboard_metrics Sample.unrounded_sum
             (Date.add_days E7.today (- Date.weekday E7.today))
             (Date.add_days E7.today (6 - Date.weekday E7.today)) E7.db),
        200).
Proof.
  assert (Hy : 8 <= Date.year E7.today <= 9992).
  { split; discriminate. }
  split; [split; [reflexivity | split; [reflexivity | exact Hy]]|].
  exact (proj1 (dashboard_default_week Sample.unrounded_sum E7.today 1 E7.db
                  eq_refl eq_refl Hy)).
Defined.

(** X19 -- Refusals of the dashboard and the range it uses. A principal
    who is not Admin or Manager is answered 403. For an Admin or Manager:
    when both dates are given, not empty and ASCII strings, and one of
    them does not parse, the answer is 400; when only one bound is given,
    or one is the empty string, both are ignored and the answer is the one
    of a request without dates. *)
Theorem dashboard_range_rules (float_sum : list Q -> Q) (today : Date.t)
  (uid : Z) (db : database) :
  (forall u role start_date end_date,
      current_user_role db uid = Next (u, role) ->
      contains_str managers role = false ->
      get_dashboard_metrics float_sum today uid start_date end_date db
      = (error "Insufficient permissions", 403))
  /\ (is_manager db uid = true ->
      (forall s e, s <> "" -> e <> "" ->
                   isascii s = true -> isascii e = true ->
                   Date.strptime s = None \/ Date.strptime e = None ->
                   get_dashboard_metrics float_sum today uid (Some s)
                                         (Some e) db
                   = (error "Invalid date format. Use YYYY-MM-DD", 400))
      /\ (forall start_date end_date,
             truthy_str start_date = None \/ truthy_str end_date = None ->
             get_dashboard_metrics float_sum today uid start_date end_date db
             = get_dashboard_metrics float_sum today uid None None db)).
Proof.
  split.
  - intros u role sd ed Hcur Hrole.
    unfold get_dashboard_metrics, raising. rewrite Hcur. cbn [snd].
    rewrite Hrole. reflexivity.
  - intros Hman. apply is_manager_role in Hman.
    destruct Hman as (cur & Hcur & Hrole & _).
    split.
    + intros s e Hs He _ _ Hbad.
      unfold get_dashboard_metrics, raising. rewrite Hcur, Hrole.
      rewrite (truthy_str_nonempty s Hs), (truthy_str_nonempty e He).
      cbn [fst snd].
      destruct (Date.strptime s), (Date.strptime e), Hbad;
        try discriminate; reflexivity.
    + intros sd ed Hnone.
      unfold get_dashboard_metrics, raising. rewrite Hcur, Hrole.
      change (truthy_str None) with (@None string).
      destruct Hnone as [-> | ->]; [reflexivity|].
      destruct (truthy_str sd); reflexivity.
Qed.

Lemma dashboard_range_rules_witness :
  is_manager E7.db 1 = true
  /\ (isascii "01/03/2024" = true /\ isascii "2024-03-01" = true
      /\ Date.strptime "01/03/2024" = None)
  /\ get_dashboard_metrics Sample.unrounded_sum E7.today 1
                           (Some "01/03/2024") (Some "2024-03-01") E7.db
     = (error "Invalid date format. Use YYYY-MM-DD", 400)
  /\ get_dashboard_metrics Sample.unrounded_sum E7.today 1
                           (Some "2024-03-01") None E7.db
     = get_dashboard_metrics Sample.unrounded_sum E7.today 1 None None E7.db.
Proof.
  split; [reflexivity|]. split; [repeat split; reflexivity|]. split.
  { apply (proj1 (proj2 (dashboard_range_rules Sample.unrounded_sum
                           E7.today 1 E7.db) eq_refl));
      [discriminate | discriminate | reflexivity | reflexivity
      | left; reflexivity]. }
  exact (proj2 (proj2 (dashboard_range_rules Sample.unrounded_sum E7.today 1
                         E7.db) eq_refl)
           (Some "2024-03-01") None (or_intror eq_refl)).
Defined.

(** ** Employees by role *)

Lemma filter_length_split {A : Type} (f g : A -> bool) (l : list A) :
  (forall x, In x l -> f x && g x = false) ->
  List.length (filter (fun x => f x || g x) l)
  = (List.length (filter f l) + List.length (filter g l))%nat.
Proof.
  induction l as [|x l IH]; intros H; simpl; [reflexivity|].
  assert (Hx : f x && g x = false) by (apply H; left; reflexivity).
  assert (IH' := IH (fun y Hy => H y (or_intror Hy))).
  destruct (f x), (g x); simpl in *; try discriminate; rewrite IH'; lia.
Qed.

Lemma role_counts_sum (l : list Role.t) (us : list User.t) :
  NoDup (map Role.id l) ->
  fold_right Z.add 0
    (map snd
       (flat_map
          (fun role =>
             match filter (fun u => User.role_id u =? Role.id role) us with
             | [] => []
             | u :: rest =>
                 [(Role.name role, Z.of_nat (List.length (u :: rest)))]
             end) l))
  = Z.of_nat
      (List.length
         (filter (fun u => existsb (fun role => User.role_id u =? Role.id role)
                                   l) us)).
Proof.
  induction l as [|role l IH]; intros Hnd.
  - simpl. induction us; simpl; auto.
  - inversion Hnd as [|? ? Hnotin Hnd']; subst.
    cbn [flat_map existsb]. rewrite map_app, fold_right_app.
    rewrite (filter_length_split
               (fun u => User.role_id u =? Role.id role)
               (fun u => existsb (fun r => User.role_id u =? Role.id r) l)).
    2:{ intros u _.
        destruct (User.role_id u =? Role.id role) eqn:E; [|reflexivity].
        apply Z.eqb_eq in E. simpl.
        destruct (existsb _ l) eqn:Ex; [|reflexivity].
        exfalso. apply existsb_exists in Ex. destruct Ex as (r & Hr & Hu).
        apply Z.eqb_eq in Hu. apply Hnotin. rewrite <- E, Hu.
        apply in_map. exact Hr. }
    rewrite Nat2Z.inj_add, <- (IH Hnd').
    remember (fold_right Z.add 0
                (map snd
                   (flat_map
                      (fun role0 =>
                         match
                           filter (fun u0 => User.role_id u0 =? Role.id role0)
                                  us
                         with
                         | [] => []
                         | u0 :: rest0 =>
                             [(Role.name role0,
                               Z.of_nat (List.length (u0 :: rest0)))]
                         end) l))) as z.
    destruct (filter (fun u => User.role_id u =? Role.id role) us)
      as [|u rest]; cbn [map fold_right snd].
    + change (Z.of_nat (List.length (@nil User.t))) with 0. lia.
    + reflexivity.
Qed.

(** X20 -- Employees by role. For a Manager or Admin principal the
    endpoint returns one row per role that has at least one user, with the
    number of users of that role; a role without users is left out. When
    role ids are unique and every user has a role, the counts add up to
    the number of users, which is the total_employees of the dashboard.
    Any other principal is refused with 403. *)
Theorem employees_by_role_counts (uid : Z) (db : database) :
  (forall u role,
      current_user_role db uid = Next (u, role) ->
      contains_str managers role = false ->
      get_employees_by_role uid db
      = Stop (error "Insufficient permissions", 403))
  /\ (is_manager db uid = true ->
      exists rows,
        get_employees_by_role uid db = Next rows
        /\ (forall name n,
               In (name, n) rows ->
               1 <= n
               /\ exists role,
                    In role (roles db) /\ Role.name role = name
                    /\ n = Z.of_nat
                             (List.length
                                (filter (fun u => User.role_id u
                                                  =? Role.id role)
                                        (users db))))
        /\ (forall role,
               In role (roles db) ->
               filter (fun u => User.role_id u =? Role.id role) (users db)
               <> [] ->
               In (Role.name role,
                   Z.of_nat
                     (List.length
                        (filter (fun u => User.role_id u =? Role.id role)
                                (users db)))) rows)
        /\ (NoDup (map Role.id (roles db)) ->
            (forall u, In u (users db) -> role_ref db u <> None) ->
            forall float_sum sd ed,
              fold_right Z.add 0 (map snd rows)
              = Metrics.total_employees
                  (dashboard_metrics float_sum sd ed db))).
Proof.
  split.
  - intros u role Hcur Hrole. unfold get_employees_by_role, raising.
    rewrite Hcur. cbn [snd]. rewrite Hrole. reflexivity.
  - intros Hman. apply is_manager_role in Hman.
    destruct Hman as (cur & Hcur & Hrole & _).
    unfold get_employees_by_role, raising. rewrite Hcur, Hrole.
    exists (role_counts db). split; [reflexivity|].
    split; [|split].
    + intros name n Hin. unfold role_counts in Hin.
      apply in_flat_map in Hin. destruct Hin as (role & Hr & Hin).
      destruct (filter (fun u => User.role_id u =? Role.id role) (users db))
        as [|u us] eqn:F; [contradiction|].
      destruct Hin as [Hin|[]]. inversion Hin; subst.
      split; [simpl List.length; lia|].
      exists role. rewrite F. auto.
    + intros role Hr Hne. unfold role_counts. apply in_flat_map.
      exists role. split; [exact Hr|].
      destruct (filter (fun u => User.role_id u =? Role.id role) (users db))
        as [|u us]; [contradiction|]. left. reflexivity.
    + intros Hnd Hall float_sum sd ed.
      unfold role_counts. rewrite (role_counts_sum _ _ Hnd).
      unfold dashboard_metrics. cbn [Metrics.total_employees].
      f_equal. f_equal. apply forallb_filter_id. apply forallb_forall.
      intros u Hu. specialize (Hall u Hu).
      unfold role_ref, Role_get in Hall.
      destruct (find _ (roles db)) as [r|] eqn:E; [|contradiction].
      apply find_key in E. destruct E as [E Hin]. apply Z.eqb_eq in E.
      apply existsb_exists. exists r. split; [exact Hin|].
      apply Z.eqb_eq. congruence.
Qed.

Lemma employees_by_role_counts_witness :
  is_manager Sample.empty_db 2 = true
  /\ exists rows,
       get_employees_by_role 2 Sample.empty_db = Next rows
       /\ In ("Employee", 8) rows.
Proof.
  split; [reflexivity|].
  destruct (proj2 (employees_by_role_counts 2 Sample.empty_db) eq_refl)
    as (rows & Hres & _ & Hin & _).
  exists rows. split; [exact Hres|].
  apply (Hin (Role.mk 3 "Employee")).
  - right. right. left. reflexivity.
  - discriminate.
Defined.

(** ** The shift coverage *)



Section CoverageRows.

Variable float_sum : list Q -> Q.








End CoverageRows.














